(** * enverus-developer-api: the query / pagination / retry engine

    A shallow embedding of [enverus_developer_api/__init__.py] and the
    properties of its query engine, response validator and helpers.

    Conventions of the embedding:
    - Python [str] is [string], the UTF-8 encoding of the text; [len] counts
      the characters, which is [Py.len], not the bytes;
    - Python [dict]s whose iteration order matters (keyword options, the
      [_headers] mapping, link dictionaries) are association lists;
      the case-insensitive header dictionary of a [requests] session is a
      [gmap] keyed by the lower-cased header name;
    - a method that talks to the network runs in the monad [M], which threads
      the client object, the server and the trace of effects and can raise a
      Python exception;
    - the server is the list of the replies it will give, one per request
      that the session hands to its transport; a reply with a status of the
      transport's [status_forcelist] stands for a server that kept giving
      that status until the transport gave up; a request sent when the list
      is used up stays unanswered and the run stops there;
    - [while True] loops and the re-entrant response hook take a fuel. *)

From Stdlib Require Import ZArith String Ascii List Lia.
From stdpp Require Import base strings list gmap pretty.

Local Open Scope Z_scope.
Local Open Scope nat_scope.

(** ** Python values *)

(** Exceptions that the modelled code can raise. *)
Inductive exn :=
| DAAuthException (msg : string)
| DAQueryException (msg : string)
| DADatasetException (msg : string)
| TypeError (msg : string)
| KeyError (key : string)
| IndexError
| ValueError (msg : string)
| ZeroDivisionError
| AttributeError (msg : string)
| JSONDecodeError
| RetryError.                     (* [requests.exceptions.RetryError] *)

(** Result of a computation without side effects. *)
Inductive result (A : Type) :=
| Ok (a : A)
| Raise (e : exn).
Arguments Ok {A} a.
Arguments Raise {A} e.

Definition result_bind {A B} (r : result A) (k : A -> result B) : result B :=
  match r with
  | Ok a => k a
  | Raise e => Raise e
  end.

(** Scalars that occur as query option values and as items of [in_]. *)
Inductive scalar :=
| SNone
| SBool (b : bool)
| SInt (z : Z)
| SStr (s : string).

(** Arguments a caller may hand to [in_]. *)
Inductive pyobj :=
| PScalar (x : scalar)
| PList (xs : list scalar)
| PTuple (xs : list scalar)
| PDict (kv : list (string * scalar)).

(** JSON documents, as returned by [response.json()]. *)
#[warnings="-register-all"]
Inductive json :=
| JNull
| JBool (b : bool)
| JNum (z : Z)
| JStr (s : string)
| JArr (xs : list json)
| JObj (kv : list (string * json)).

Module Py.

(** [str(x)] on scalars. *)
Definition str (x : scalar) : string :=
  match x with
  | SNone => "None"
  | SBool true => "True"
  | SBool false => "False"
  | SInt z => pretty z
  | SStr s => s
  end.

(** [type(x)] as printed by [format]. *)
Definition type_name (x : pyobj) : string :=
  match x with
  | PScalar SNone => "<class 'NoneType'>"
  | PScalar (SBool _) => "<class 'bool'>"
  | PScalar (SInt _) => "<class 'int'>"
  | PScalar (SStr _) => "<class 'str'>"
  | PList _ => "<class 'list'>"
  | PTuple _ => "<class 'tuple'>"
  | PDict _ => "<class 'dict'>"
  end.

(** The name of the class of a scalar, as error messages print it. *)
Definition class_name (x : scalar) : string :=
  match x with
  | SNone => "NoneType"
  | SBool _ => "bool"
  | SInt _ => "int"
  | SStr _ => "str"
  end.

(** A byte that continues the UTF-8 encoding of a character. *)
Definition continuation (c : ascii) : bool :=
  let n := nat_of_ascii c in (128 <=? n) && (n <? 192).

(** [len(s)]: the number of characters, that is of bytes that do not
    continue one. *)
Fixpoint len (s : string) : nat :=
  match s with
  | EmptyString => 0
  | String c s' => (if continuation c then 0 else 1) + len s'
  end.

(** The bytes at the head of [s] that continue a character, and the rest. *)
Fixpoint span_continuation (s : string) : string * string :=
  match s with
  | EmptyString => (EmptyString, EmptyString)
  | String c s' =>
      if continuation c
      then let (tail, rest) := span_continuation s' in (String c tail, rest)
      else (EmptyString, s)
  end.

(** [list(s)]: the characters of [s], each with all its bytes; [fuel]
    bounds their number. *)
Fixpoint chars_from (fuel : nat) (s : string) : list string :=
  match fuel, s with
  | S fuel', String c s' =>
      let (tail, rest) := span_continuation s' in
      String c tail :: chars_from fuel' rest
  | _, _ => []
  end.

Definition chars (s : string) : list string :=
  chars_from (String.length s) s.

(** Every byte of [s] continues a character. *)
Fixpoint all_continuation (s : string) : bool :=
  match s with
  | EmptyString => true
  | String c s' => continuation c && all_continuation s'
  end.

(** [needle in hay] on strings. *)
Fixpoint contains (needle hay : string) : bool :=
  String.prefix needle hay ||
  match hay with
  | EmptyString => false
  | String _ hay' => contains needle hay'
  end.

Definition lower_ascii (c : ascii) : ascii :=
  let n := nat_of_ascii c in
  if (65 <=? n) && (n <=? 90) then ascii_of_nat (n + 32) else c.

(** [s.lower()] on ASCII text. *)
Fixpoint lower (s : string) : string :=
  match s with
  | EmptyString => EmptyString
  | String c s' => String (lower_ascii c) (lower s')
  end.

(** [s.split(sep)] for a one-character separator. *)
Fixpoint split (sep : ascii) (s : string) : list string :=
  match s with
  | EmptyString => [EmptyString]
  | String c s' =>
      if Ascii.eqb c sep then EmptyString :: split sep s'
      else match split sep s' with
           | w :: ws => String c w :: ws
           | [] => [String c EmptyString]
           end
  end.

(** [sep.join(xs)]. *)
Definition join (sep : string) (xs : list string) : string :=
  String.concat sep xs.

(** [s[n:]]. *)
Fixpoint drop_str (n : nat) (s : string) : string :=
  match n, s with
  | O, _ => s
  | S n', String _ s' => drop_str n' s'
  | S _, EmptyString => EmptyString
  end.

(** [s[:-1]]: [s] without its last character. *)
Fixpoint drop_last (s : string) : string :=
  match s with
  | EmptyString => EmptyString
  | String c s' =>
      if all_continuation s' then EmptyString else String c (drop_last s')
  end.

Fixpoint ends_with_slash (s : string) : bool :=
  match s with
  | EmptyString => false
  | String c EmptyString => Ascii.eqb c "/"
  | String _ s' => ends_with_slash s'
  end.

(** [os.path.join(a, b)] on POSIX. *)
Definition os_path_join (a b : string) : string :=
  if String.prefix "/" b then b
  else if String.eqb a "" || ends_with_slash a then a +:+ b
  else a +:+ "/" +:+ b.

(** [max(xs)] on strings: the greatest in lexicographic order, the first
    one among equals; [ValueError] on an empty sequence. *)
Definition max_str (xs : list string) : result string :=
  match xs with
  | [] => Raise (ValueError "max() arg is an empty sequence")
  | x :: xs' =>
      Ok (fold_left (fun m y => if String.ltb m y then y else m) xs' x)
  end.

(** The text captured by the lazy group of [in\((.*?)\)] when the pattern
    is anchored just after an ["in("]: everything up to the first [")"],
    provided no line feed comes first ([.] does not match a line feed). *)
Fixpoint lazy_group (s : string) : option string :=
  match s with
  | EmptyString => None
  | String c s' =>
      if Ascii.eqb c ")" then Some EmptyString
      else if Ascii.eqb c "010" then None
      else String c <$> lazy_group s'
  end.

(** [re.split(r"in\((.*?)\)", s)[1]]: the group of the leftmost match;
    without a match the split has one element and the index is out of
    range. *)
Fixpoint re_split_in_1 (s : string) : result string :=
  match s with
  | EmptyString => Raise IndexError
  | String _ s' =>
      match (if String.prefix "in(" s then lazy_group (drop_str 3 s) else None) with
      | Some g => Ok g
      | None => re_split_in_1 s'
      end
  end.

(** [range(start, stop, step)] for a positive step; [fuel] bounds the number
    of elements. *)
Fixpoint range_from (fuel start stop step : nat) : list nat :=
  match fuel with
  | O => []
  | S fuel' =>
      if start <? stop then start :: range_from fuel' (start + step) stop step
      else []
  end.

(** [range(0, stop, step)]; a zero step is a [ValueError]. *)
Definition range0 (stop step : nat) : result (list nat) :=
  if step =? 0 then Raise (ValueError "range() arg 3 must not be zero")
  else Ok (range_from stop 0 stop step).

(** The text has no comma, no closing parenthesis and no line feed: it can
    stand as one value of an [in(...)] expression. *)
Fixpoint plain (x : string) : bool :=
  match x with
  | EmptyString => true
  | String c x' =>
      negb (Ascii.eqb c ",") && negb (Ascii.eqb c ")")
      && negb (Ascii.eqb c "010") && plain x'
  end.

(** [xs[lo:hi]]. *)
Definition slice {A} (xs : list A) (lo hi : nat) : list A :=
  take (hi - lo) (drop lo xs).

End Py.

(** ** Module-level helper *)

(** [_chunks(iterable, n)], collected into a list as [query] does. *)
Definition _chunks {A} (iterable : list A) (n : nat) : result (list (list A)) :=
  let l := length iterable in
  result_bind (Py.range0 l n) (fun ndxs =>
  Ok (map (fun ndx => Py.slice iterable ndx (Nat.min (ndx + n) l)) ndxs)).

(** ** What the [requests] library contributes *)

Module Http.

(** Base64 of a byte string ([base64.b64encode]). *)
Definition b64_alphabet : string :=
  "ABCDEFGHIJKLMNOPQRSTUVWXYZabcdefghijklmnopqrstuvwxyz0123456789+/".

Definition b64_char (n : nat) : ascii :=
  default "="%char (String.get n b64_alphabet).

Fixpoint b64_bytes (bs : list nat) : string :=
  match bs with
  | [] => ""
  | [a] =>
      String (b64_char (a / 4))
        (String (b64_char (a mod 4 * 16)) "==")
  | [a; b] =>
      String (b64_char (a / 4))
        (String (b64_char (a mod 4 * 16 + b / 16))
           (String (b64_char (b mod 16 * 4)) "="))
  | a :: b :: c :: rest =>
      String (b64_char (a / 4))
        (String (b64_char (a mod 4 * 16 + b / 16))
           (String (b64_char (b mod 16 * 4 + c / 64))
              (String (b64_char (c mod 64)) (b64_bytes rest))))
  end.

Definition b64encode (s : string) : string :=
  b64_bytes (map nat_of_ascii (list_ascii_of_string s)).

(** [urllib.parse.quote_plus] on a byte string. *)
Definition hex_digit (n : nat) : ascii :=
  default "0"%char (String.get n "0123456789ABCDEF").

Definition unreserved (c : ascii) : bool :=
  let n := nat_of_ascii c in
  ((48 <=? n) && (n <=? 57)) || ((65 <=? n) && (n <=? 90))
  || ((97 <=? n) && (n <=? 122))
  || Ascii.eqb c "_" || Ascii.eqb c "." || Ascii.eqb c "-" || Ascii.eqb c "~".

Fixpoint quote_plus (s : string) : string :=
  match s with
  | EmptyString => EmptyString
  | String c s' =>
      if unreserved c then String c (quote_plus s')
      else if Ascii.eqb c " " then String "+" (quote_plus s')
      else
        let n := nat_of_ascii c in
        String "%" (String (hex_digit (n / 16))
                      (String (hex_digit (n mod 16)) (quote_plus s')))
  end.

(** The query string built from [params]: [None] values are left out, the
    other values are stringified and percent-encoded. *)
Definition encode_params (params : list (string * scalar)) : string :=
  Py.join "&"
    (omap (fun kv =>
             match kv.2 with
             | SNone => None
             | v => Some (quote_plus kv.1 +:+ "=" +:+ quote_plus (Py.str v))
             end) params).

(** The URL of the prepared request (the base URLs of this client carry no
    query string of their own).  The URL itself is taken as it is: it is
    supposed to have a scheme and a path that [requests] leaves unchanged,
    as the URLs of the two classes with the dataset names of the service
    do. *)
Definition prepare_url (url : string) (params : list (string * scalar)) : string :=
  let q := encode_params params in
  if String.eqb q "" then url else url +:+ "?" +:+ q.

(** [requests.structures.CaseInsensitiveDict]: lower-cased name to the name
    as last written and its value. *)
Abbreviation headers := (gmap string (string * string)).

Definition set_header (k v : string) (h : headers) : headers :=
  <[Py.lower k := (k, v)]> h.

Definition get_header (k : string) (h : headers) : option string :=
  snd <$> h !! Py.lower k.

(** [merge_setting(request_headers, session_headers)]: the request's own
    headers win over the session's defaults. *)
Definition merge_headers (request_headers : option (list (string * string)))
    (session_headers : headers) : headers :=
  match request_headers with
  | None => session_headers
  | Some d => fold_left (fun h kv => set_header kv.1 kv.2 h) d session_headers
  end.

(** A parsed link: the dictionary of its url and parameters. *)
Abbreviation link := (list (string * string)).
(** [response.links]: [rel] (or url) to link. *)
Abbreviation links := (list (string * link)).

End Http.

Module PreparedRequest.
Record t := mk {
  method : string;
  url : string;
  headers : Http.headers;
  json : option json;
}.

(** [request.headers[k] = v]. *)
Definition set_header (k v : string) (r : t) : t :=
  mk (method r) (url r) (Http.set_header k v (headers r)) (json r).
End PreparedRequest.

(** What the server answers to one request of the session.  A status that
    the transport retries (500, 502, 503, 504) stands for a server that gave
    it on every attempt of the transport. *)
Module Reply.
Record t := mk {
  status_code : Z;
  text : string;
  json : option json;       (* [None]: the body is not JSON *)
  links : Http.links;       (* the parsed [Link] header *)
}.

(** The status is not an error status (4xx, 5xx). *)
Definition ok (r : t) : bool :=
  negb ((400 <=? status_code r)%Z && (status_code r <? 600)%Z).
End Reply.

Module Response.
Record t := mk {
  status_code : Z;
  text : string;
  json : option json;
  links : Http.links;
  url : string;
  request : PreparedRequest.t;
}.

(** [response.ok]: [raise_for_status] would not raise. *)
Definition ok (r : t) : bool :=
  negb ((400 <=? status_code r)%Z && (status_code r <? 600)%Z).

(** The response to [request] that carries the reply [r]. *)
Definition of_reply (r : Reply.t) (request : PreparedRequest.t) : t :=
  mk (Reply.status_code r) (Reply.text r) (Reply.json r) (Reply.links r)
    (PreparedRequest.url request) request.
End Response.

(** ** The client object, the world around it, and the monad of its methods *)

Inductive api_class := ClassDirectAccessV2 | ClassDeveloperAPIv3.

(** Observable effects, in the order they happen. *)
Inductive event :=
| Sent (request : PreparedRequest.t)   (* the transport sent a request *)
| Slept (seconds : nat)                (* [time.sleep] *)
| Yielded (record : json).             (* the generator handed out a record *)

(** The instance attributes ([self.x]), the session's default headers
    ([self.session.headers]), and the world: the replies the server will
    give, in order, the effects so far, and how many records the consumer of
    a generator will still pull ([None]: it runs the generator to its end). *)
Module St.

Record t := mk {
  cls : api_class;
  url : string;
  retries : Z;
  backoff_factor : Z;
  links : option Http.links;
  access_token : json;                  (* [JNull] is [None] *)
  client_id : option string;
  client_secret : option string;
  secret_key : option string;
  session_headers : Http.headers;
  script : list Reply.t;
  trace : list event;
  demand : option nat;
}.

Definition set_retries (v : Z) (s : t) : t :=
  mk (cls s) (url s) v (backoff_factor s) (links s) (access_token s)
    (client_id s) (client_secret s) (secret_key s) (session_headers s)
    (script s) (trace s) (demand s).

Definition set_links (v : option Http.links) (s : t) : t :=
  mk (cls s) (url s) (retries s) (backoff_factor s) v (access_token s)
    (client_id s) (client_secret s) (secret_key s) (session_headers s)
    (script s) (trace s) (demand s).

Definition set_access_token (v : json) (s : t) : t :=
  mk (cls s) (url s) (retries s) (backoff_factor s) (links s) v
    (client_id s) (client_secret s) (secret_key s) (session_headers s)
    (script s) (trace s) (demand s).

Definition set_session_headers (v : Http.headers) (s : t) : t :=
  mk (cls s) (url s) (retries s) (backoff_factor s) (links s)
    (access_token s) (client_id s) (client_secret s) (secret_key s) v
    (script s) (trace s) (demand s).

Definition set_script (v : list Reply.t) (s : t) : t :=
  mk (cls s) (url s) (retries s) (backoff_factor s) (links s)
    (access_token s) (client_id s) (client_secret s) (secret_key s)
    (session_headers s) v (trace s) (demand s).

Definition set_trace (v : list event) (s : t) : t :=
  mk (cls s) (url s) (retries s) (backoff_factor s) (links s)
    (access_token s) (client_id s) (client_secret s) (secret_key s)
    (session_headers s) (script s) v (demand s).

Definition set_demand (v : option nat) (s : t) : t :=
  mk (cls s) (url s) (retries s) (backoff_factor s) (links s)
    (access_token s) (client_id s) (client_secret s) (secret_key s)
    (session_headers s) (script s) (trace s) v.

End St.

(** Why a run stopped without returning or raising. *)
Inductive halt :=
| Blocked (request : PreparedRequest.t)  (* sent, and the script has no reply left *)
| Suspended                              (* the consumer stopped pulling records *)
| OutOfFuel
| Unmodelled (what : string).

Inductive outcome (A : Type) :=
| Return (a : A)
| Raised (e : exn)
| Halted (h : halt).
Arguments Return {A} a.
Arguments Raised {A} e.
Arguments Halted {A} h.

Definition M (A : Type) : Type := St.t -> outcome A * St.t.

Definition ret {A} (a : A) : M A := fun s => (Return a, s).

Definition bind {A B} (m : M A) (k : A -> M B) : M B :=
  fun s =>
    match m s with
    | (Return a, s') => k a s'
    | (Raised e, s') => (Raised e, s')
    | (Halted h, s') => (Halted h, s')
    end.

Definition raise {A} (e : exn) : M A := fun s => (Raised e, s).
Definition stop {A} (h : halt) : M A := fun s => (Halted h, s).
Definition get {A} (f : St.t -> A) : M A := fun s => (Return (f s), s).
Definition modify (f : St.t -> St.t) : M unit := fun s => (Return tt, f s).
Definition emit (e : event) : M unit :=
  modify (fun s => St.set_trace (St.trace s ++ [e]) s).

Definition lift {A} (r : result A) : M A :=
  match r with
  | Ok a => ret a
  | Raise e => raise e
  end.

Declare Scope py_scope.
Delimit Scope py_scope with py.
Notation "x <- m ;; k" := (bind m (fun x => k))
  (at level 100, m at next level, right associativity) : py_scope.
Notation "m ;; k" := (bind m (fun _ => k))
  (at level 100, right associativity) : py_scope.
Local Open Scope py_scope.

(** ** Python dictionaries with an iteration order *)

Module Dict.

Definition contains {V} (k : string) (d : list (string * V)) : bool :=
  existsb (fun p => String.eqb p.1 k) d.

(** [d.get(k)]. *)
Fixpoint lookup {V} (k : string) (d : list (string * V)) : option V :=
  match d with
  | [] => None
  | (k', v) :: d' => if String.eqb k' k then Some v else lookup k d'
  end.

(** [d[k]]. *)
Definition getitem {V} (k : string) (d : list (string * V)) : result V :=
  match lookup k d with
  | Some v => Ok v
  | None => Raise (KeyError k)
  end.

(** [d[k] = v]: in place for a key that is present, at the end otherwise. *)
Fixpoint setitem {V} (k : string) (v : V) (d : list (string * V))
  : list (string * V) :=
  match d with
  | [] => [(k, v)]
  | (k', v') :: d' =>
      if String.eqb k' k then (k, v) :: d' else (k', v') :: setitem k v d'
  end.

(** [d] after [d.pop(k)]. *)
Definition remove {V} (k : string) (d : list (string * V)) : list (string * V) :=
  List.filter (fun p => negb (String.eqb p.1 k)) d.

End Dict.

(** ** JSON as Python sees it *)

Module Json.

(** The name of the class of a decoded document, as error messages print
    it. *)
Definition class_name (j : json) : string :=
  match j with
  | JNull => "NoneType"
  | JBool _ => "bool"
  | JNum _ => "int"
  | JStr _ => "str"
  | JArr _ => "list"
  | JObj _ => "dict"
  end.

(** [j[k]] for a string key. *)
Definition getitem (j : json) (k : string) : result json :=
  match j with
  | JObj kv => Dict.getitem k kv
  | JArr _ => Raise (TypeError "list indices must be integers or slices, not str")
  | JStr _ => Raise (TypeError "string indices must be integers, not 'str'")
  | _ => Raise (TypeError ("'" +:+ class_name j +:+ "' object is not subscriptable"))
  end.

(** Truth value of a JSON document. *)
Definition truthy (j : json) : bool :=
  match j with
  | JNull => false
  | JBool b => b
  | JNum z => negb (z =? 0)%Z
  | JStr s => negb (String.eqb s "")
  | JArr xs => negb (Nat.eqb (length xs) 0)
  | JObj kv => negb (Nat.eqb (length kv) 0)
  end.

(** ["{}".format(j)] where the model covers it (scalars). *)
Definition format (j : json) : option string :=
  match j with
  | JNull => Some "None"
  | JBool true => Some "True"
  | JBool false => Some "False"
  | JNum z => Some (pretty z)
  | JStr s => Some s
  | JArr _ | JObj _ => None
  end.

(** The batch of records in a response body: an object is a batch of one;
    [len] and iteration of a list, or of a string by characters; the other
    documents have no [len]. *)
Definition records (j : json) : result (list json) :=
  match j with
  | JObj _ => Ok [j]
  | JArr xs => Ok xs
  | JStr s => Ok (map JStr (Py.chars s))
  | _ => Raise (TypeError ("object of type '" +:+ class_name j +:+ "' has no len()"))
  end.

End Json.

(** ** The session *)

Module Session.

(** The world after [request] went out and the replies [rest] are left. *)
Definition sent (request : PreparedRequest.t) (rest : list Reply.t) (s : St.t)
  : St.t :=
  St.set_script rest (St.set_trace (St.trace s ++ [Sent request]) s).

(** The [Retry] that [BaseAPI.__init__] mounts on the transport: the
    statuses of [self._status_forcelist], for the [allowed_methods]. *)
Definition status_forcelist : list Z := [500; 502; 503; 504]%Z.
Definition allowed_methods : list string := ["GET"; "POST"; "HEAD"].

(** The transport keeps retrying [request] on the status of [r] and, with
    that status coming back to the end, gives up. *)
Definition gives_up (request : PreparedRequest.t) (r : Reply.t) : bool :=
  existsb (String.eqb (PreparedRequest.method request)) allowed_methods
  && existsb (Z.eqb (Reply.status_code r)) status_forcelist.

(** [HTTPAdapter.send]: the next scripted reply becomes the response, unless
    its status is one the transport retries: then no response comes back
    and [RetryError] is raised. *)
Definition adapter_send (request : PreparedRequest.t) : M Response.t :=
  fun s =>
    match St.script s with
    | [] => (Halted (Blocked request), sent request [] s)
    | r :: rest =>
        if gives_up request r then (Raised RetryError, sent request rest s)
        else (Return (Response.of_reply r request), sent request rest s)
    end.

(** [dispatch_hook("response", hooks, r)]: a hook that returns a response
    replaces the one it was given. *)
Definition dispatch_hook (hook : Response.t -> M (option Response.t))
    (r : Response.t) : M Response.t :=
  hooked <- hook r ;;
  ret (default r hooked).

(** [Session.prepare_request]. *)
Definition prepare_request (method url : string)
    (params : list (string * scalar))
    (headers : option (list (string * string))) (body : option json)
  : M PreparedRequest.t :=
  h <- get St.session_headers ;;
  ret (PreparedRequest.mk method (Http.prepare_url url params)
         (Http.merge_headers headers h) body).

(** [self.session.headers[k] = v]. *)
Definition set_header (k v : string) : M unit :=
  modify (fun s => St.set_session_headers (Http.set_header k v (St.session_headers s)) s).

(** [self.session.headers[k]]. *)
Definition header (k : string) : M string :=
  h <- get St.session_headers ;;
  match Http.get_header k h with
  | Some v => ret v
  | None => raise (KeyError k)
  end.

End Session.

(** [response.json()]. *)
Definition response_json (r : Response.t) : M json :=
  match Response.json r with
  | Some j => ret j
  | None => raise JSONDecodeError
  end.

(** ["bearer {}".format(token)]. *)
Definition bearer (token : json) : M string :=
  match Json.format token with
  | Some t => ret ("bearer " +:+ t)
  | None => stop (Unmodelled "format of a JSON container")
  end.

Definition truthy_str (x : option string) : bool :=
  match x with
  | Some s => negb (String.eqb s "")
  | None => false
  end.

(** ** Generators *)

Module Generator.

(** The body of a generator starts to run at the first [next]. *)
Definition start : M unit :=
  d <- get St.demand ;;
  match d with
  | Some O => stop Suspended
  | _ => ret tt
  end.

(** [yield record]: the record goes to the consumer; the body resumes only
    if the consumer asks for more. *)
Definition yield (record : json) : M unit :=
  emit (Yielded record) ;;
  d <- get St.demand ;;
  match d with
  | None => ret tt
  | Some n =>
      if n <=? 1 then (modify (St.set_demand (Some 0)) ;; stop Suspended)
      else modify (St.set_demand (Some (n - 1)))
  end.

(** [for record in records: yield record]. *)
Fixpoint yield_each (records : list json) : M unit :=
  match records with
  | [] => ret tt
  | record :: rest => yield record ;; yield_each rest
  end.

End Generator.

(** ** class BaseAPI *)

Module BaseAPI.

(** [in_(items)] (a static method: no session, no request). *)
Definition in_ (items : pyobj) : result string :=
  match items with
  | PList xs => Ok ("in(" +:+ Py.join "," (map Py.str xs) +:+ ")")
  | _ =>
      Raise (TypeError ("Argument provided was not a list. Type provided: "
                        +:+ Py.type_name items))
  end.

(** The plan of chunked requests: the field and the subsets of its values
    still to be requested. *)
Abbreviation chunk_plan := (option (string * list (list string))).

(** The value list of an [in(...)] expression, as [query] extracts it. *)
Definition in_values (v : scalar) : result (list string) :=
  match v with
  | SStr s => result_bind (Py.re_split_in_1 s) (fun g => Ok (Py.split "," g))
  | _ => Raise (TypeError ("expected string or bytes-like object, got '"
                        +:+ Py.class_name v +:+ "'"))
  end.

(** [int(floor(1950 / len(max(values))))]. *)
Definition chunksize (values : list string) : result nat :=
  result_bind (Py.max_str values) (fun m =>
  if Py.len m =? 0 then Raise ZeroDivisionError
  else Ok (1950 / Py.len m)).

(** ["in(" in str(v) and len(str(v)) > 1950]. *)
Definition oversized (v : scalar) : bool :=
  Py.contains "in(" (Py.str v) && (1950 <? Py.len (Py.str v)).

(** One round of the scan [for field, v in options.items()]. *)
Definition scan_option (acc : result chunk_plan) (item : string * scalar)
  : result chunk_plan :=
  result_bind acc (fun query_chunks =>
  let (field, v) := item in
  if oversized v then
    result_bind (in_values v) (fun values =>
    result_bind (chunksize values) (fun n =>
    result_bind (_chunks values n) (fun chunks =>
    Ok (Some (field, chunks)))))
  else Ok query_chunks).

(** The value of [query_chunks] when the scan of the options is over. *)
Definition plan_chunks (options : list (string * scalar)) : result chunk_plan :=
  fold_left scan_option options (Ok None).

(** [query_chunks and query_chunks[1]]. *)
Definition pending (query_chunks : chunk_plan) : bool :=
  match query_chunks with
  | Some (_, _ :: _) => true
  | _ => false
  end.

(** Truth value of [self.links]. *)
Definition links_truthy (l : option Http.links) : bool :=
  match l with
  | Some (_ :: _) => true
  | _ => false
  end.

(** [self.links["next"]["url"]]. *)
Definition next_url (l : option Http.links) : result string :=
  match l with
  | Some d => result_bind (Dict.getitem "next" d) (Dict.getitem "url")
  | None => Raise (TypeError "'NoneType' object is not subscriptable")
  end.

(** [paging.lower()]. *)
Definition paging_lower (paging : scalar) : result string :=
  match paging with
  | SStr s => Ok (Py.lower s)
  | _ => Raise (AttributeError ("'" +:+ Py.class_name paging
                                +:+ "' object has no attribute 'lower'"))
  end.

(** The prepared request of [self.session.get(url, params=params)]. *)
Definition get_request (url : string) (params : list (string * scalar))
    (s : St.t) : PreparedRequest.t :=
  PreparedRequest.mk "GET" (Http.prepare_url url params) (St.session_headers s) None.

(** What the head of the loop body is about to send, and the options and
    the plan it leaves: the request to the continuation link, or the request
    to the dataset once the next pending subset is in the options. *)
Definition next_request (query_url : string) (options : list (string * scalar))
    (query_chunks : chunk_plan) (s : St.t)
  : result (PreparedRequest.t * list (string * scalar) * chunk_plan) :=
  if links_truthy (St.links s) then
    result_bind (next_url (St.links s)) (fun next =>
    Ok (get_request (Py.drop_last (St.url s) +:+ next) [] s, options, query_chunks))
  else
    match query_chunks with
    | Some (field, chunk :: rest) =>
        result_bind (in_ (PList (map SStr chunk))) (fun v =>
        let options' := Dict.setitem field (SStr v) options in
        Ok (get_request query_url options' s, options', Some (field, rest)))
    | _ => Ok (get_request query_url options s, options, query_chunks)
    end.

(** The instance and the world once a batch that is not empty has been
    handed out: the links of the response are kept if they have a [next],
    and the records went to a consumer that takes them all. *)
Definition batched (response : Response.t) (records : list json) (s : St.t)
  : St.t :=
  let s' := if Dict.contains "next" (Response.links response)
            then St.set_links (Some (Response.links response)) s
            else s in
  St.set_trace (St.trace s' ++ map Yielded records) s'.

(** A reply with a batch of records that is not empty and a link to the
    next page. *)
Definition is_page (records : list json) (next : string) (r : Reply.t) : Prop :=
  Reply.ok r = true
  /\ Reply.json r = Some (JArr records)
  /\ records <> []
  /\ next_url (Some (Reply.links r)) = Ok next.

(** A reply with an empty batch. *)
Definition is_empty_page (r : Reply.t) : Prop :=
  Reply.ok r = true /\ Reply.json r = Some (JArr []).

(** A paging sequence as the server plays it: pages, each with its records
    and the link to the next one, and the reply that closes it. *)
Abbreviation pages := (list (Reply.t * list json * string)).

Definition sequence_replies (ps : pages) (last : Reply.t) : list Reply.t :=
  map (fun page => page.1.1) ps ++ [last].

Definition sequence_records (ps : pages) : list json :=
  concat (map (fun page => page.1.2) ps).

(** The URLs of the continuation requests of a sequence. *)
Definition sequence_links (url : string) (ps : pages) : list string :=
  map (fun page => Py.drop_last url +:+ page.2) ps.

(** A sequence is well formed: pages that link on, closed by an empty batch. *)
Definition is_sequence (ps : pages) (last : Reply.t) : Prop :=
  Forall (fun page => is_page page.1.2 page.2 page.1.1) ps
  /\ is_empty_page last.

Section WithSession.

(** [self.session.send], response hooks included, and the
    [get_access_token] of the subclass. *)
Variable send : PreparedRequest.t -> M Response.t.
Variable get_access_token : M json.

(** [self.session.get(url, params=params, headers=headers)]. *)
Definition session_get (url : string) (params : list (string * scalar))
    (headers : option (list (string * string))) : M Response.t :=
  request <- Session.prepare_request "GET" url params headers None ;;
  send request.

(** The response hook. *)
Definition _check_response (response : Response.t) : M (option Response.t) :=
  if negb (Response.ok response) then
    let code := Response.status_code response in
    if (code =? 400)%Z then
      if Py.contains "tokens" (Response.url response) then
        raise (DAAuthException
                 ("Error getting token. Code: " +:+ pretty code
                  +:+ " Message: " +:+ Response.text response))
      else raise (DAQueryException (Response.text response))
    else if (code =? 401)%Z then
      get_access_token ;;
      let request := Response.request response in
      authorization <- Session.header "Authorization" ;;
      resent <- send (PreparedRequest.set_header "Authorization" authorization request) ;;
      ret (Some resent)
    else if (code =? 403)%Z && Py.contains "tokens" (Response.url response) then
      modify (fun s => St.set_retries (St.retries s - 1)%Z s) ;;
      emit (Slept 60) ;;
      resent <- send (Response.request response) ;;
      ret (Some resent)
    else if (code =? 404)%Z then
      raise (DADatasetException "Invalid dataset name provided")
    else ret None
  else ret None.

(** The head of the loop body: the request for the next batch, to the
    continuation link if there is one, else to the dataset with the
    options, after the next subset of a pending chunk plan has been put
    into them. *)
Definition fetch (query_url : string) (options : list (string * scalar))
    (query_chunks : chunk_plan)
  : M (Response.t * list (string * scalar) * chunk_plan) :=
  l <- get St.links ;;
  if links_truthy l then
    next <- lift (next_url l) ;;
    u <- get St.url ;;
    response <- session_get (Py.drop_last u +:+ next) [] None ;;
    ret (response, options, query_chunks)
  else
    match query_chunks with
    | Some (field, chunk :: rest) =>
        v <- lift (in_ (PList (map SStr chunk))) ;;
        let options' := Dict.setitem field (SStr v) options in
        response <- session_get query_url options' None ;;
        ret (response, options', Some (field, rest))
    | _ =>
        response <- session_get query_url options None ;;
        ret (response, options, query_chunks)
    end.

(** The [while True] loop of [query]. *)
Fixpoint query_loop (fuel : nat) (query_url : string) (paging : scalar)
    (options : list (string * scalar)) (query_chunks : chunk_plan)
  : M unit :=
  match fuel with
  | O => stop OutOfFuel
  | S fuel' =>
      fetched <- fetch query_url options query_chunks ;;
      let '(response, options, query_chunks) := fetched in
      if negb (Response.ok response) then
        raise (DAQueryException
                 ("Non-200 response: " +:+ pretty (Response.status_code response)
                  +:+ " " +:+ Response.text response))
      else
        body <- response_json response ;;
        records <- lift (Json.records body) ;;
        if length records =? 0 then
          modify (St.set_links None) ;;
          if pending query_chunks
          then query_loop fuel' query_url paging options query_chunks
          else ret tt
        else
          (if Dict.contains "next" (Response.links response)
           then modify (St.set_links (Some (Response.links response)))
           else ret tt) ;;
          Generator.yield_each records ;;
          l <- get St.links ;;
          match l with
          | None => ret tt
          | Some _ =>
              p <- lift (paging_lower paging) ;;
              if String.eqb p "false" then ret tt
              else query_loop fuel' query_url paging options query_chunks
          end
  end.

(** [query(dataset, **options)], run by a consumer that pulls records. *)
Definition query (fuel : nat) (dataset : string)
    (options : list (string * scalar)) : M unit :=
  Generator.start ;;
  u <- get St.url ;;
  let query_url := Py.os_path_join u dataset in
  query_chunks <- lift (plan_chunks options) ;;
  let paging := default (SStr "true") (Dict.lookup "paging" options) in
  let options := Dict.remove "paging" options in
  query_loop fuel query_url paging options query_chunks.

(** [ddl(dataset, database)]: the text of the response, whatever its
    status. *)
Definition ddl (dataset : string) (database : scalar) : M string :=
  u <- get St.url ;;
  let ddl_url := Py.os_path_join u dataset in
  response <- session_get ddl_url [("ddl", database)] None ;;
  ret (Response.text response).

(** [docs(dataset)]; the bare [return] on a 501 is [None]. *)
Definition docs (dataset : string) : M (option json) :=
  u <- get St.url ;;
  let docs_url := Py.os_path_join u dataset in
  response <- session_get docs_url [("docs", SBool true)] None ;;
  if (Response.status_code response =? 501)%Z then ret None
  else
    body <- response_json response ;;
    ret (Some body).

End WithSession.

End BaseAPI.

(** ** class DirectAccessV2 *)

Module DirectAccessV2.

Definition url : string := "https://di-api.drillinginfo.com/v2/direct-access/".

Section WithSession.

Variable send : PreparedRequest.t -> M Response.t.

(** [self.session.post(url, params=params)]. *)
Definition session_post (url : string) (params : list (string * scalar))
  : M Response.t :=
  request <- Session.prepare_request "POST" url params None None ;;
  send request.

Definition get_access_token : M json :=
  id <- get St.client_id ;;
  secret <- get St.client_secret ;;
  if negb (truthy_str id) || negb (truthy_str secret) then
    raise (DAAuthException
             "CLIENT_ID and CLIENT_SECRET are required to generate an access token")
  else
    u <- get St.url ;;
    let token_url := Py.os_path_join u "tokens" in
    Session.set_header "Authorization"
      ("Basic " +:+ Http.b64encode (Py.join ":" [default "" id; default "" secret])) ;;
    Session.set_header "Content-Type" "application/x-www-form-urlencoded" ;;
    response <- session_post token_url [("grant_type", SStr "client_credentials")] ;;
    body <- response_json response ;;
    token <- lift (Json.getitem body "access_token") ;;
    modify (St.set_access_token token) ;;
    authorization <- bearer token ;;
    Session.set_header "Authorization" authorization ;;
    ret body.

End WithSession.

End DirectAccessV2.

(** ** class DeveloperAPIv3 *)

Module DeveloperAPIv3.

Definition url : string := "https://api.enverus.com/v3/direct-access/".

(** [key = link.get("rel") or link.get("url")]. *)
Definition link_key (link : Http.link) : option string :=
  match Dict.lookup "rel" link with
  | Some rel => if String.eqb rel "" then Dict.lookup "url" link else Some rel
  | None => Dict.lookup "url" link
  end.

(** [k.lower() == "x-omit-header-next-links" and v.lower() == "true"]. *)
Definition is_omit_flag (k v : string) : bool :=
  String.eqb (Py.lower k) "x-omit-header-next-links"
  && String.eqb (Py.lower v) "true".

(** The items of [_headers] that the scan visits: those up to and
    including the first one that sets the omit flag. *)
Fixpoint visited (items : list (string * string)) : list (string * string) :=
  match items with
  | [] => []
  | (k, v) :: rest =>
      if is_omit_flag k v then [(k, v)] else (k, v) :: visited rest
  end.

Section WithSession.

Variable send : PreparedRequest.t -> M Response.t.
(** [requests.utils.parse_header_links]. *)
Variable parse_header_links : string -> list Http.link.

(** [self.session.post(url, json=body)]. *)
Definition session_post (url : string) (body : json) : M Response.t :=
  request <- Session.prepare_request "POST" url [] None (Some body) ;;
  send request.

Definition get_access_token : M json :=
  key <- get St.secret_key ;;
  if negb (truthy_str key) then
    raise (DAAuthException "SECRET_KEY is required to generate an access token")
  else
    u <- get St.url ;;
    let token_url := Py.os_path_join u "tokens" in
    Session.set_header "Content-Type" "application/json" ;;
    response <- session_post token_url (JObj [("secretKey", JStr (default "" key))]) ;;
    body <- response_json response ;;
    token <- lift (Json.getitem body "token") ;;
    modify (St.set_access_token token) ;;
    authorization <- bearer token ;;
    Session.set_header "Authorization" authorization ;;
    ret body.

(** The loop [for (k, v) in options.get("_headers").items()]. *)
Fixpoint omit_header_scan (items : list (string * string)) : M bool :=
  match items with
  | [] => ret false
  | (k, v) :: rest =>
      Session.set_header k v ;;
      if is_omit_flag k v then ret true else omit_header_scan rest
  end.

(** [is_omit_header_next_link] applied to the options; [_headers] is the
    entry of that name in them, if there is one. *)
Definition is_omit_header_next_link (_headers : option (list (string * string)))
  : M bool :=
  match _headers with
  | Some items => omit_header_scan items
  | None => ret false
  end.

(** [parse_links(links_obj)]. *)
Definition parse_links (links_obj : json) : M Http.links :=
  next <- lift (Json.getitem links_obj "next") ;;
  if Json.truthy next then
    match next with
    | JStr header =>
        fold_left (fun acc link =>
                     result <- acc ;;
                     match link_key link with
                     | Some key => ret (Dict.setitem key link result)
                     | None => stop (Unmodelled "a link without rel and url")
                     end)
                  (parse_header_links header) (ret [])
    | _ => raise (AttributeError "object has no attribute 'strip'")
    end
  else ret [].

(** [self.session.get(url, params=params, headers=headers)]. *)
Definition session_get (url : string) (params : list (string * scalar))
    (headers : option (list (string * string))) : M Response.t :=
  request <- Session.prepare_request "GET" url params headers None ;;
  send request.

(** The head of the loop body, with the headers of the call on every
    request. *)
Definition fetch (request_headers : option (list (string * string)))
    (query_url : string) (options : list (string * scalar))
    (query_chunks : BaseAPI.chunk_plan)
  : M (Response.t * list (string * scalar) * BaseAPI.chunk_plan) :=
  l <- get St.links ;;
  if BaseAPI.links_truthy l then
    next <- lift (BaseAPI.next_url l) ;;
    u <- get St.url ;;
    response <- session_get (Py.drop_last u +:+ next) [] request_headers ;;
    ret (response, options, query_chunks)
  else
    match query_chunks with
    | Some (field, chunk :: rest) =>
        v <- lift (BaseAPI.in_ (PList (map SStr chunk))) ;;
        let options' := Dict.setitem field (SStr v) options in
        response <- session_get query_url options' request_headers ;;
        ret (response, options', Some (field, rest))
    | _ =>
        response <- session_get query_url options request_headers ;;
        ret (response, options, query_chunks)
    end.

(** The [while True] loop of [query]. *)
Fixpoint query_loop (fuel : nat) (request_headers : option (list (string * string)))
    (omit_header_next_link : bool) (query_url : string) (paging : scalar)
    (options : list (string * scalar)) (query_chunks : BaseAPI.chunk_plan)
  : M unit :=
  match fuel with
  | O => stop OutOfFuel
  | S fuel' =>
      fetched <- fetch request_headers query_url options query_chunks ;;
      let '(response, options, query_chunks) := fetched in
      if negb (Response.ok response) then
        raise (DAQueryException
                 ("Non-200 response: " +:+ pretty (Response.status_code response)
                  +:+ " " +:+ Response.text response))
      else
        body <- response_json response ;;
        body <-
          (if omit_header_next_link then
             links_obj <- lift (Json.getitem body "links") ;;
             if Json.truthy links_obj then
               parsed <- parse_links links_obj ;;
               modify (St.set_links (Some parsed)) ;;
               lift (Json.getitem body "data")
             else ret body
           else ret body) ;;
        records <- lift (Json.records body) ;;
        if length records =? 0 then
          modify (St.set_links None) ;;
          if BaseAPI.pending query_chunks
          then query_loop fuel' request_headers omit_header_next_link
                 query_url paging options query_chunks
          else ret tt
        else
          (if negb omit_header_next_link
              && Dict.contains "next" (Response.links response)
           then modify (St.set_links (Some (Response.links response)))
           else ret tt) ;;
          Generator.yield_each records ;;
          l <- get St.links ;;
          match l with
          | None => ret tt
          | Some _ =>
              p <- lift (BaseAPI.paging_lower paging) ;;
              if String.eqb p "false" then ret tt
              else query_loop fuel' request_headers omit_header_next_link
                     query_url paging options query_chunks
          end
  end.

(** [query(dataset, **options)]; the [_headers] entry of [options] is
    the argument [_headers], the other entries are [options]. *)
Definition query (fuel : nat) (dataset : string)
    (_headers : option (list (string * string)))
    (options : list (string * scalar)) : M unit :=
  Generator.start ;;
  omit_header_next_link <-
    (match _headers with
     | Some _ => is_omit_header_next_link _headers
     | None => ret false
     end) ;;
  let request_headers := _headers in
  u <- get St.url ;;
  let query_url := Py.os_path_join u dataset in
  query_chunks <- lift (BaseAPI.plan_chunks options) ;;
  let paging := default (SStr "true") (Dict.lookup "paging" options) in
  let options := Dict.remove "paging" options in
  query_loop fuel request_headers omit_header_next_link query_url paging
    options query_chunks.

End WithSession.

End DeveloperAPIv3.

(** ** Instances: the session's [send] with the response hook registered *)

Module Client.

(** [self.get_access_token()], by the class of the instance. *)
Definition get_access_token (send : PreparedRequest.t -> M Response.t) : M json :=
  c <- get St.cls ;;
  match c with
  | ClassDirectAccessV2 => DirectAccessV2.get_access_token send
  | ClassDeveloperAPIv3 => DeveloperAPIv3.get_access_token send
  end.

(** [Session.send]: the adapter sends the prepared request, then the
    response hooks of the request run on the response.  Both subclasses
    register [_check_response], and a request resent by the hook carries
    the same hooks. *)
Fixpoint send (fuel : nat) (request : PreparedRequest.t) : M Response.t :=
  match fuel with
  | O => stop OutOfFuel
  | S fuel' =>
      response <- Session.adapter_send request ;;
      Session.dispatch_hook
        (BaseAPI._check_response (send fuel') (get_access_token (send fuel')))
        response
  end.

(** The instance attributes after [BaseAPI.__init__] and the assignments of
    the subclass constructor, in a world with the given server script. *)
Definition fresh (c : api_class) (url : string) (retries backoff_factor : Z)
    (links : option Http.links) (access_token : json)
    (client_id client_secret secret_key : option string)
    (script : list Reply.t) : St.t :=
  St.mk c url retries backoff_factor links access_token
    client_id client_secret secret_key
    (Http.set_header "User-Agent" "enverus-developer-api" ∅)
    script [] None.

(** The instance has what its [get_access_token] asks for. *)
Definition has_credentials (s : St.t) : bool :=
  match St.cls s with
  | ClassDirectAccessV2 =>
      truthy_str (St.client_id s) && truthy_str (St.client_secret s)
  | ClassDeveloperAPIv3 => truthy_str (St.secret_key s)
  end.

(** The field of the token response that holds the token. *)
Definition token_field (c : api_class) : string :=
  match c with
  | ClassDirectAccessV2 => "access_token"
  | ClassDeveloperAPIv3 => "token"
  end.

(** The session headers once [get_access_token] has set those of the
    token request. *)
Definition token_headers (s : St.t) : Http.headers :=
  match St.cls s with
  | ClassDirectAccessV2 =>
      Http.set_header "Content-Type" "application/x-www-form-urlencoded"
        (Http.set_header "Authorization"
           ("Basic " +:+ Http.b64encode
              (Py.join ":" [default "" (St.client_id s);
                            default "" (St.client_secret s)]))
           (St.session_headers s))
  | ClassDeveloperAPIv3 =>
      Http.set_header "Content-Type" "application/json" (St.session_headers s)
  end.

(** The instance just before the token request goes out. *)
Definition announced (s : St.t) : St.t :=
  St.set_session_headers (token_headers s) s.

(** The token request of the instance. *)
Definition token_request (s : St.t) : PreparedRequest.t :=
  match St.cls s with
  | ClassDirectAccessV2 =>
      PreparedRequest.mk "POST"
        (Http.prepare_url (Py.os_path_join (St.url s) "tokens")
           [("grant_type", SStr "client_credentials")])
        (token_headers s) None
  | ClassDeveloperAPIv3 =>
      PreparedRequest.mk "POST"
        (Http.prepare_url (Py.os_path_join (St.url s) "tokens") [])
        (token_headers s)
        (Some (JObj [("secretKey", JStr (default "" (St.secret_key s)))]))
  end.

(** The instance once the token [token] has been stored. *)
Definition granted (token : string) (s : St.t) : St.t :=
  St.set_session_headers
    (Http.set_header "Authorization" ("bearer " +:+ token) (St.session_headers s))
    (St.set_access_token (JStr token) s).

(** [request] with the header of the new token. *)
Definition reauthorized (token : string) (request : PreparedRequest.t)
  : PreparedRequest.t :=
  PreparedRequest.set_header "Authorization" ("bearer " +:+ token) request.

(** The instance and the world after [request] was answered by a 401 and
    the token request that followed by a token: two replies are gone, two
    requests went out, the token is stored. *)
Definition refreshed (token : string) (request : PreparedRequest.t) (s : St.t)
  : St.t :=
  granted token
    (Session.sent (token_request s) (drop 2 (St.script s))
       (announced (Session.sent request (drop 1 (St.script s)) s))).

(** The reply carries the token [token] in the field [field]. *)
Definition grants (field token : string) (r : Reply.t) : Prop :=
  Reply.ok r = true
  /\ exists body, Reply.json r = Some body
                /\ Json.getitem body field = Ok (JStr token).

(** A 401, and the reply to the token request that follows it. *)
Definition expired_round (field : string) (round : Reply.t * Reply.t * string)
  : Prop :=
  Reply.status_code round.1.1 = 401%Z /\ grants field round.2 round.1.2.

(** The replies of a sequence of such rounds. *)
Definition round_replies (rounds : list (Reply.t * Reply.t * string))
  : list Reply.t :=
  flat_map (fun round => [round.1.1; round.1.2]) rounds.

(** [token] is the stored token, and both the session and [request]
    carry it in their [Authorization] header. *)
Definition authorized (token : string) (request : PreparedRequest.t) (s : St.t)
  : Prop :=
  St.access_token s = JStr token
  /\ Http.get_header "Authorization" (St.session_headers s)
     = Some ("bearer " +:+ token)
  /\ Http.get_header "Authorization" (PreparedRequest.headers request)
     = Some ("bearer " +:+ token).

(** The end of both constructors: use the token given, or fetch one. *)
Definition authorize (fuel : nat) (token_field : string) : M unit :=
  token <- get St.access_token ;;
  if Json.truthy token then
    authorization <- bearer token ;;
    Session.set_header "Authorization" authorization
  else
    body <- get_access_token (send fuel) ;;
    token <- lift (Json.getitem body token_field) ;;
    modify (St.set_access_token token).

(** [DirectAccessV2(client_id, client_secret, retries, backoff_factor,
    links, access_token)]. *)
Definition DirectAccessV2_init (fuel : nat) (client_id client_secret : option string)
    (retries backoff_factor : Z) (links : option Http.links)
    (access_token : json) (script : list Reply.t) : outcome unit * St.t :=
  authorize fuel "access_token"
    (fresh ClassDirectAccessV2 DirectAccessV2.url retries backoff_factor
       links access_token client_id client_secret None script).

(** [DeveloperAPIv3(secret_key, retries, backoff_factor, links,
    access_token)]. *)
Definition DeveloperAPIv3_init (fuel : nat) (secret_key : option string)
    (retries backoff_factor : Z) (links : option Http.links)
    (access_token : json) (script : list Reply.t) : outcome unit * St.t :=
  authorize fuel "token"
    (fresh ClassDeveloperAPIv3 DeveloperAPIv3.url retries backoff_factor
       links access_token None None secret_key script).

(** [query] on a [DirectAccessV2] instance is [BaseAPI.query]. *)
Definition DirectAccessV2_query (fuel : nat) (dataset : string)
    (options : list (string * scalar)) : M unit :=
  BaseAPI.query (send fuel) fuel dataset options.

(** [query] on a [DeveloperAPIv3] instance. *)
Definition DeveloperAPIv3_query
    (parse_header_links : string -> list Http.link) (fuel : nat)
    (dataset : string) (_headers : option (list (string * string)))
    (options : list (string * scalar)) : M unit :=
  DeveloperAPIv3.query (send fuel) parse_header_links fuel dataset _headers options.

(** The next call on the same instance, against the replies [script] and a
    consumer with the given [demand]. *)
Definition then_ {A} (s : St.t) (script : list Reply.t) (demand : option nat)
    (call : M A) : outcome A * St.t :=
  call (St.set_demand demand (St.set_script script s)).

(** The instance and the world after [n] throttled attempts of [request]:
    each took a reply, cost one unit of [retries] and 60 seconds. *)
Definition throttled (n : nat) (request : PreparedRequest.t)
    (rest : list Reply.t) (s : St.t) : St.t :=
  St.set_trace
    (St.trace s ++ concat (replicate n [Sent request; Slept 60]))
    (St.set_retries (St.retries s - Z.of_nat n)%Z (St.set_script rest s)).

(** The records handed to the consumer, in order. *)
Definition yielded (s : St.t) : list json :=
  omap (fun e => match e with Yielded r => Some r | _ => None end) (St.trace s).

(** The URLs of the requests sent, in order. *)
Definition sent_urls (s : St.t) : list string :=
  omap (fun e => match e with
                 | Sent r => Some (PreparedRequest.url r)
                 | _ => None
                 end) (St.trace s).

End Client.
(** ** Scenarios used by the examples below *)

Module Scenario.

(** 400 five-character values: an [in(...)] expression of 2403 characters. *)
Definition ids : list string := repeat "12345" 400.
Definition ids_expr : string := "in(" +:+ Py.join "," ids +:+ ")".

(** 974 one-character values: an [in(...)] expression of 1951 characters. *)
Definition ones : list string := repeat "1" 974.
Definition ones_expr : string := "in(" +:+ Py.join "," ones +:+ ")".

(** A record [{"id": n}]. *)
Definition record (n : Z) : json := JObj [("id", JNum n)].

(** The parsed [Link] header of a page that has a successor at [url]. *)
Definition next_link (url : string) : Http.links :=
  [("next", [("url", url); ("rel", "next")])].

(** A 200 reply with a batch of records and, maybe, a next link. *)
Definition page (records : list json) (next : option string) : Reply.t :=
  Reply.mk 200 "" (Some (JArr records))
    (match next with
     | Some url => next_link url
     | None => []
     end).

(** A reply with a status and a text body that is not JSON. *)
Definition status_reply (code : Z) (text : string) : Reply.t :=
  Reply.mk code text None [].

(** The 200 reply of the v2 token endpoint. *)
Definition token_reply (token : string) : Reply.t :=
  Reply.mk 200 "" (Some (JObj [("access_token", JStr token)])) [].

(** [DirectAccessV2("id", "secret", access_token="t0")]: no request is
    made by the constructor. *)
Definition v2 : St.t :=
  (Client.DirectAccessV2_init 1 (Some "id") (Some "secret") 5 1 None
     (JStr "t0") []).2.

(** [DeveloperAPIv3("key", access_token="t0")]. *)
Definition v3 : St.t :=
  (Client.DeveloperAPIv3_init 1 (Some "key") 5 1 None (JStr "t0") []).2.

(** The example of the specification: two pages of the dataset [wells]. *)
Definition wells_page1 : Reply.t :=
  page [record 1; record 2] (Some "/wells?pagesize=2&page=2").
Definition wells_page2 : Reply.t := page [record 3] None.

(** The budget is used up and the token endpoint throttles twice. *)
Definition exhausted : St.t :=
  St.set_retries 0
    (St.set_script [status_reply 403 "throttled"; status_reply 403 "throttled";
                    token_reply "t1"] v2).
Definition exhausted_run : outcome json * St.t :=
  Client.get_access_token (Client.send 10) exhausted.

(** The example of the specification, run to the end of the script. *)
Definition two_pages_run : outcome unit * St.t :=
  Client.then_ v2 [wells_page1; wells_page2] None
    (Client.DirectAccessV2_query 10 "wells" [("pagesize", SInt 2)]).

(** [query("wells", pagesize=2, paging="false")], consumed to its end, and
    then [query("rigs")] on the same instance. *)
Definition first_batch_run : outcome unit * St.t :=
  Client.then_ v2 [wells_page1] None
    (Client.DirectAccessV2_query 10 "wells"
       [("pagesize", SInt 2); ("paging", SStr "false")]).
Definition rigs_after_first_batch : outcome unit * St.t :=
  Client.then_ (St.set_trace [] first_batch_run.2) [page [record 7] None] None
    (Client.DirectAccessV2_query 10 "rigs" []).

(** [next(query("wells", pagesize=2))], the generator then dropped, and
    then [query("rigs")] on the same instance. *)
Definition abandoned_run : outcome unit * St.t :=
  Client.then_ v2 [wells_page1] (Some 1)
    (Client.DirectAccessV2_query 10 "wells" [("pagesize", SInt 2)]).
Definition rigs_after_abandoned : outcome unit * St.t :=
  Client.then_ (St.set_trace [] abandoned_run.2) [page [record 7] None] None
    (Client.DirectAccessV2_query 10 "rigs" []).

(** Two 401 in a row on the first request of a query, each followed by a
    successful token request. *)
Definition twice_expired_run : outcome unit * St.t :=
  Client.then_ v2
    [status_reply 401 "expired"; token_reply "t1";
     status_reply 401 "expired"; token_reply "t2";
     wells_page1; page [] None] None
    (Client.DirectAccessV2_query 10 "wells" [("pagesize", SInt 2)]).


(** A data request with the text ["tokens"] in its URL is refused. *)
Definition refused_run : outcome unit * St.t :=
  Client.then_ v2 [status_reply 400 "Invalid filter"] None
    (Client.DirectAccessV2_query 10 "wells" [("wellname", SStr "tokens")]).

(** A v3 query whose [_headers] put the omit flag first, and a later query
    without [_headers] on the same instance. *)
Definition empty_body : Reply.t :=
  Reply.mk 200 ""
    (Some (JObj [("data", JArr []); ("links", JObj [("next", JNull)])])) [].
Definition flag_first_run : outcome unit * St.t :=
  Client.then_ v3 [empty_body] None
    (Client.DeveloperAPIv3_query (fun _ => []) 10 "wells"
       (Some [("X-Omit-Header-Next-Links", "true"); ("X-Trace", "abc")]) []).
Definition rigs_after_flag_first : outcome unit * St.t :=
  Client.then_ (St.set_trace [] flag_first_run.2) [page [] None] None
    (Client.DeveloperAPIv3_query (fun _ => []) 10 "rigs" None []).

(** The same two headers, the flag last. *)
Definition flag_last_run : outcome unit * St.t :=
  Client.then_ v3 [empty_body] None
    (Client.DeveloperAPIv3_query (fun _ => []) 10 "wells"
       (Some [("X-Trace", "abc"); ("X-Omit-Header-Next-Links", "true")]) []).

(** The headers of the requests sent, in order. *)
Definition sent_header (k : string) (s : St.t) : list (option string) :=
  omap (fun e => match e with
                 | Sent r => Some (Http.get_header k (PreparedRequest.headers r))
                 | _ => None
                 end) (St.trace s).

End Scenario.

(** ** More cases used by the examples below *)

Module Case.

(** One value of 1951 characters. *)
Definition long_value : string := Py.join "" (repeat "a" 1951).
Definition long_expr : string := "in(" +:+ long_value +:+ ")".

(** 1952 empty values: an [in(...)] expression of 1955 characters. *)
Definition blank_expr : string := "in(" +:+ Py.join "," (repeat "" 1952) +:+ ")".

(** The letter e with an acute accent: one character, two bytes. *)
Definition accented : string := String "195" (String "169" EmptyString).

(** One value of 1000 accented letters: an [in(...)] expression of 1004
    characters. *)
Definition accented_expr : string :=
  "in(" +:+ Py.join "" (repeat accented 1000) +:+ ")".

(** [query("wells", api=in_(ones))] with the 974 one-character values,
    answered by an empty batch. *)
Definition ones_run : outcome unit * St.t :=
  Client.then_ Scenario.v2 [Scenario.page [] None] None
    (Client.DirectAccessV2_query 10 "wells" [("api", SStr Scenario.ones_expr)]).

(** 390 values and 10 other values after them: an [in(...)] expression of
    2403 characters, planned as two subsets. *)
Definition two_kinds : list string := repeat "11111" 390 ++ repeat "22222" 10.
Definition two_kinds_expr : string := "in(" +:+ Py.join "," two_kinds +:+ ")".

(** [query("wells", api=in_(two_kinds))], consumed to its end; the server
    answers each subset with one page of one record, the last page of its
    sequence, without a next link. *)
Definition pending_subset_run : outcome unit * St.t :=
  Client.then_ Scenario.v2
    [Scenario.page [Scenario.record 1] None;
     Scenario.page [Scenario.record 2] None] None
    (Client.DirectAccessV2_query 10 "wells" [("api", SStr two_kinds_expr)]).

End Case.

(** ** [DeveloperAPIv3] responses with the next links in the body *)

Module OmitMode.

(** The prepared request of
    [self.session.get(url, params=params, headers=request_headers)]. *)
Definition get_request (request_headers : option (list (string * string)))
    (url : string) (params : list (string * scalar)) (s : St.t)
  : PreparedRequest.t :=
  PreparedRequest.mk "GET" (Http.prepare_url url params)
    (Http.merge_headers request_headers (St.session_headers s)) None.

(** What the head of the loop body of [DeveloperAPIv3.query] is about to
    send, and the options and the plan it leaves. *)
Definition next_request (request_headers : option (list (string * string)))
    (query_url : string) (options : list (string * scalar))
    (query_chunks : BaseAPI.chunk_plan) (s : St.t)
  : result (PreparedRequest.t * list (string * scalar) * BaseAPI.chunk_plan) :=
  if BaseAPI.links_truthy (St.links s) then
    result_bind (BaseAPI.next_url (St.links s)) (fun next =>
    Ok (get_request request_headers (Py.drop_last (St.url s) +:+ next) [] s,
        options, query_chunks))
  else
    match query_chunks with
    | Some (field, chunk :: rest) =>
        result_bind (BaseAPI.in_ (PList (map SStr chunk))) (fun v =>
        let options' := Dict.setitem field (SStr v) options in
        Ok (get_request request_headers query_url options' s, options',
            Some (field, rest)))
    | _ => Ok (get_request request_headers query_url options s, options,
               query_chunks)
    end.

(** A reply whose body has the batch under ["data"] and, under ["links"],
    an object that [parse_links] turns into [parsed]. *)
Definition is_enveloped (parse_header_links : string -> list Http.link)
    (records : list json) (parsed : Http.links) (r : Reply.t) : Prop :=
  Reply.ok r = true
  /\ exists body links_obj,
      Reply.json r = Some body
      /\ Json.getitem body "links" = Ok links_obj
      /\ Json.truthy links_obj = true
      /\ (forall s, DeveloperAPIv3.parse_links parse_header_links links_obj s
                    = (Return parsed, s))
      /\ Json.getitem body "data" = Ok (JArr records).

(** A page: the batch is not empty and the parsed links have a [next]. *)
Definition is_page (parse_header_links : string -> list Http.link)
    (records : list json) (next : string) (r : Reply.t) : Prop :=
  records <> []
  /\ exists parsed,
      is_enveloped parse_header_links records parsed r
      /\ BaseAPI.next_url (Some parsed) = Ok next.

(** The reply that closes a sequence: an empty batch. *)
Definition is_empty_page (parse_header_links : string -> list Http.link)
    (r : Reply.t) : Prop :=
  exists parsed, is_enveloped parse_header_links [] parsed r.

(** The instance and the world once an enveloped batch that is not empty
    has been handed out. *)
Definition batched (parsed : Http.links) (records : list json) (s : St.t)
  : St.t :=
  St.set_trace (St.trace s ++ map Yielded records)
    (St.set_links (Some parsed) s).

(** The body of a page as the service sends it: the records, and the text
    of the link header. *)
Definition envelope (records : list json) (next : json) : json :=
  JObj [("data", JArr records); ("links", JObj [("next", next)])].

End OmitMode.

(** * Properties *)

(** ** Strings *)

Section Strings.

Lemma append_cons c s t : String c s +:+ t = String c (s +:+ t).
Proof. reflexivity. Qed.

Lemma length_append s t :
  String.length (s +:+ t) = String.length s + String.length t.
Proof.
  induction s as [|c s IH]; [done|].
  rewrite append_cons. simpl. by rewrite IH.
Qed.

Lemma len_append s t : Py.len (s +:+ t) = Py.len s + Py.len t.
Proof.
  induction s as [|c s IH]; [done|].
  rewrite append_cons. cbn [Py.len]. rewrite IH. lia.
Qed.

(** [len(sep.join(xs))] for a one-character separator. *)
Lemma len_join_comma xs :
  Py.len (Py.join "," xs) = sum_list (map Py.len xs) + pred (length xs).
Proof.
  unfold Py.join. induction xs as [|x [|y xs] IH]; simpl in *.
  - done.
  - lia.
  - rewrite !len_append, IH. simpl. lia.
Qed.

(** Length of [sep.join(xs)] for a one-character separator. *)
Lemma length_join_comma xs :
  String.length (Py.join "," xs)
  = sum_list (map String.length xs) + pred (length xs).
Proof.
  unfold Py.join. induction xs as [|x [|y xs] IH]; simpl in *.
  - done.
  - lia.
  - rewrite !length_append, IH. simpl. lia.
Qed.

Lemma split_nonempty sep s : Py.split sep s <> [].
Proof.
  destruct s as [|c s]; simpl; [done|].
  destruct (Ascii.eqb c sep); [done|]. by destruct (Py.split sep s).
Qed.

(** Joining what [split] produced gives the text back. *)
Lemma join_split s : Py.join "," (Py.split "," s) = s.
Proof.
  unfold Py.join. induction s as [|c s IH]; simpl; [done|].
  destruct (Ascii.eqb_spec c ",") as [->|Hc].
  - pose proof (split_nonempty "," s) as Hne.
    destruct (Py.split "," s) as [|w ws]; [done|].
    simpl in *. by rewrite IH.
  - pose proof (split_nonempty "," s) as Hne.
    destruct (Py.split "," s) as [|w ws]; [done|].
    simpl in *. destruct ws; simpl in *; by rewrite <- IH.
Qed.

End Strings.

(** ** [_chunks] *)

Section Chunks.

Context {A : Type}.
Implicit Types (xs : list A) (cs : list (list A)).

Lemma range_from_lookup fuel step stop :
  forall start i ndx,
    Py.range_from fuel start stop step !! i = Some ndx ->
    ndx = start + i * step /\ ndx < stop.
Proof.
  induction fuel as [|fuel IH]; intros start i ndx; simpl; [done|].
  destruct (Nat.ltb_spec start stop) as [Hlt|Hge]; [|done].
  destruct i as [|i]; simpl.
  - intros [= <-]. lia.
  - intros H%IH. lia.
Qed.

Lemma range_from_concat xs n :
  0 < n ->
  forall fuel start,
    length xs - start <= fuel ->
    concat (map (fun ndx => Py.slice xs ndx (Nat.min (ndx + n) (length xs)))
              (Py.range_from fuel start (length xs) n)) = drop start xs.
Proof.
  intros Hn fuel. induction fuel as [|fuel IH]; intros start Hf; simpl.
  - rewrite drop_ge; [done | lia].
  - destruct (Nat.ltb_spec start (length xs)) as [Hlt|Hge].
    + simpl. rewrite IH by lia. unfold Py.slice.
      destruct (Nat.le_ge_cases (start + n) (length xs)) as [Hle|Hle].
      * rewrite Nat.min_l by lia. replace (start + n - start) with n by lia.
        rewrite <- (take_drop n (drop start xs)) at 2. by rewrite drop_drop.
      * rewrite Nat.min_r by lia.
        rewrite take_ge by (rewrite length_drop; lia).
        rewrite (drop_ge xs (start + n)) by lia. by rewrite app_nil_r.
    + simpl. rewrite drop_ge; [done | lia].
Qed.

(** [_chunks] succeeds exactly for a positive chunk size. *)
Lemma _chunks_ok xs n cs : _chunks xs n = Ok cs -> 0 < n.
Proof.
  unfold _chunks, Py.range0. destruct (Nat.eqb_spec n 0); simpl; [done|lia].
Qed.

Lemma _chunks_pos xs n : 0 < n -> exists cs, _chunks xs n = Ok cs.
Proof.
  intros Hn. unfold _chunks, Py.range0.
  destruct (Nat.eqb_spec n 0); [lia|]. simpl. eauto.
Qed.

(** The chunks, in order, make up the input. *)
Lemma _chunks_concat xs n cs : _chunks xs n = Ok cs -> concat cs = xs.
Proof.
  intros H. pose proof (_chunks_ok _ _ _ H) as Hn. revert H.
  unfold _chunks, Py.range0. destruct (Nat.eqb_spec n 0); [lia|]. simpl.
  intros [= <-]. rewrite range_from_concat by lia. done.
Qed.

(** The [i]-th chunk is the window of [n] items at offset [i * n], which
    starts inside the input. *)
Lemma _chunks_lookup xs n cs i c :
  _chunks xs n = Ok cs -> cs !! i = Some c ->
  c = take n (drop (i * n) xs) /\ i * n < length xs.
Proof.
  intros H. pose proof (_chunks_ok _ _ _ H) as Hn. revert H.
  unfold _chunks, Py.range0. destruct (Nat.eqb_spec n 0); [lia|]. simpl.
  intros [= <-]. rewrite list_lookup_fmap.
  destruct (Py.range_from _ _ _ _ !! i) as [ndx|] eqn:Hndx; [|done].
  apply range_from_lookup in Hndx as [-> Hlt]. simpl. intros [= <-].
  split; [|lia]. unfold Py.slice.
  destruct (Nat.le_ge_cases (i * n + n) (length xs)) as [Hle|Hle].
  - rewrite Nat.min_l by lia. f_equal. lia.
  - rewrite Nat.min_r by lia.
    rewrite !take_ge; [done | rewrite length_drop; lia..].
Qed.

(** No chunk is empty and none has more than [n] items. *)
Lemma _chunks_length xs n cs :
  _chunks xs n = Ok cs -> Forall (fun c => 1 <= length c <= n) cs.
Proof.
  intros H. apply Forall_lookup. intros i c Hc.
  destruct (_chunks_lookup _ _ _ _ _ H Hc) as [-> Hlt].
  rewrite length_take, length_drop. pose proof (_chunks_ok _ _ _ H). lia.
Qed.

(** Every chunk but the last has exactly [n] items. *)
Lemma _chunks_full xs n cs i c :
  _chunks xs n = Ok cs -> cs !! i = Some c -> S i < length cs ->
  length c = n.
Proof.
  intros H Hc Hi.
  destruct (lookup_lt_is_Some_2 cs (S i) Hi) as [c' Hc'].
  destruct (_chunks_lookup _ _ _ _ _ H Hc) as [-> _].
  destruct (_chunks_lookup _ _ _ _ _ H Hc') as [_ Hlt].
  rewrite length_take, length_drop. simpl in Hlt. lia.
Qed.

End Chunks.

(** ** The chunk plan of [query] *)

Section Plan.

Implicit Types (options : list (string * scalar)) (v : scalar).

(** Options that are not oversized leave the plan as it is. *)
Lemma scan_skip options acc :
  Forall (fun item => BaseAPI.oversized item.2 = false) options ->
  fold_left BaseAPI.scan_option options acc = acc.
Proof.
  intros H. revert acc. induction H as [|[field v] options Hv _ IH]; intros acc.
  - done.
  - simpl. rewrite IH. destruct acc as [query_chunks|e]; [|done].
    simpl in *. by rewrite Hv.
Qed.

(** With a single oversized option the plan is that of this option. *)
Lemma plan_single before field v after :
  Forall (fun item => BaseAPI.oversized item.2 = false) before ->
  Forall (fun item => BaseAPI.oversized item.2 = false) after ->
  BaseAPI.plan_chunks (before ++ (field, v) :: after)
  = BaseAPI.scan_option (Ok None) (field, v).
Proof.
  intros Hb Ha. unfold BaseAPI.plan_chunks.
  rewrite fold_left_app. simpl. rewrite (scan_skip before) by done.
  by rewrite scan_skip.
Qed.

(** What a successful scan of one oversized option computed. *)
Lemma scan_oversized field v chunks acc :
  BaseAPI.oversized v = true ->
  BaseAPI.scan_option (Ok acc) (field, v) = Ok (Some (field, chunks)) ->
  exists s g m,
    v = SStr s /\ Py.re_split_in_1 s = Ok g
    /\ Py.max_str (Py.split "," g) = Ok m
    /\ 0 < Py.len m
    /\ _chunks (Py.split "," g) (1950 / Py.len m) = Ok chunks.
Proof.
  intros Hv. unfold BaseAPI.scan_option. simpl. rewrite Hv.
  destruct v as [| | |s]; simpl; try done.
  destruct (Py.re_split_in_1 s) as [g|] eqn:Hg; simpl; [|done].
  unfold BaseAPI.chunksize.
  destruct (Py.max_str (Py.split "," g)) as [m|] eqn:Hm; simpl; [|done].
  destruct (Nat.eqb_spec (Py.len m) 0) as [|Hlen]; simpl; [done|].
  destruct (_chunks _ _) as [cs|] eqn:Hcs; simpl; [|done].
  intros [= <-]. exists s, g, m. repeat split; auto. lia.
Qed.

(** A plan comes from an oversized option of the call. *)
Lemma plan_origin options field chunks :
  BaseAPI.plan_chunks options = Ok (Some (field, chunks)) ->
  exists v acc,
    In (field, v) options /\ BaseAPI.oversized v = true
    /\ BaseAPI.scan_option (Ok acc) (field, v) = Ok (Some (field, chunks)).
Proof.
  unfold BaseAPI.plan_chunks.
  induction options as [|[f v] options IH] using rev_ind; [done|].
  rewrite fold_left_app. simpl.
  destruct (fold_left BaseAPI.scan_option options (Ok None)) as [acc|e] eqn:Hacc;
    [|done].
  destruct (BaseAPI.oversized v) eqn:Hv.
  - intros H. pose proof H as H'. unfold BaseAPI.scan_option in H'. simpl in H'.
    rewrite Hv in H'.
    destruct (BaseAPI.in_values v) as [values|]; simpl in H'; [|done].
    destruct (BaseAPI.chunksize values) as [n|]; simpl in H'; [|done].
    destruct (_chunks values n) as [cs|]; simpl in H'; [|done].
    injection H' as <- <-.
    exists v, acc. rewrite in_app_iff. simpl. auto.
  - unfold BaseAPI.scan_option. simpl. rewrite Hv. intros [= ->].
    destruct (IH eq_refl) as (v' & acc' & Hin & Hov & Hscan).
    exists v', acc'. rewrite in_app_iff. auto.
Qed.

End Plan.

(** ** Claims about the helpers and the chunk plan *)

(** C9: [in_] is given a list: it returns the literal ["in(v1,v2,...)"], the
    stringified values joined in order; it is given anything else (a string,
    a tuple, a number, a dict): it raises [TypeError].  Either way the client
    and the world are as before: nothing was sent. *)
Theorem in__list_or_type_error (items : pyobj) (s : St.t) :
  match items with
  | PList xs =>
      lift (BaseAPI.in_ items) s
      = (Return ("in(" +:+ Py.join "," (map Py.str xs) +:+ ")"), s)
  | _ => exists msg, lift (BaseAPI.in_ items) s = (Raised (TypeError msg), s)
  end.
Proof. destruct items; simpl; eauto. Qed.

Lemma map_str_SStr (xs : list string) : map Py.str (map SStr xs) = xs.
Proof. rewrite map_map. simpl. apply map_id. Qed.

(** X30: when [query] plans chunks for a field, the option of that field is an
    oversized [in(...)] expression, the subsets taken in order concatenate to
    its value list (nothing dropped, nothing repeated), no subset is empty, and
    serialising all subsets together gives the expression back. *)
Theorem chunks_cover_values (options : list (string * scalar))
    (field : string) (chunks : list (list string)) :
  BaseAPI.plan_chunks options = Ok (Some (field, chunks)) ->
  exists s g,
    In (field, SStr s) options
    /\ BaseAPI.oversized (SStr s) = true
    /\ Py.re_split_in_1 s = Ok g
    /\ BaseAPI.in_values (SStr s) = Ok (concat chunks)
    /\ Forall (fun c => c <> []) chunks
    /\ BaseAPI.in_ (PList (map SStr (concat chunks))) = Ok ("in(" +:+ g +:+ ")").
Proof.
  intros (v & acc & Hin & Hov & Hscan)%plan_origin.
  destruct (scan_oversized _ _ _ _ Hov Hscan) as (s & g & m & -> & Hg & _ & _ & Hcs).
  exists s, g. pose proof (_chunks_concat _ _ _ Hcs) as Hcat.
  repeat split; auto.
  - simpl. rewrite Hg. simpl. by rewrite Hcat.
  - eapply Forall_impl; [apply (_chunks_length _ _ _ Hcs)|].
    intros [|x c] Hc; [simpl in Hc; lia | done].
  - simpl. by rewrite map_str_SStr, Hcat, join_split.
Qed.

Lemma chunks_cover_values_witness :
  exists s g,
    In ("api", SStr s) [("pagesize", SInt 2%Z); ("api", SStr Scenario.ids_expr)]
    /\ BaseAPI.oversized (SStr s) = true
    /\ Py.re_split_in_1 s = Ok g
    /\ BaseAPI.in_values (SStr s)
       = Ok (concat [repeat "12345" 390; repeat "12345" 10])
    /\ Forall (fun c => c <> []) [repeat "12345" 390; repeat "12345" 10]
    /\ BaseAPI.in_ (PList (map SStr (concat [repeat "12345" 390; repeat "12345" 10])))
       = Ok ("in(" +:+ g +:+ ")").
Proof.
  apply (chunks_cover_values
           [("pagesize", SInt 2%Z); ("api", SStr Scenario.ids_expr)] "api"
           [repeat "12345" 390; repeat "12345" 10]).
  vm_compute. reflexivity.
Defined.

Lemma sum_lengths_bound (c : list string) (L : nat) :
  Forall (fun x => Py.len x <= L) c ->
  sum_list (map Py.len c) <= length c * L.
Proof. induction 1; simpl; lia. Qed.

Lemma Forall_concat_elem {A} (P : A -> Prop) (cs : list (list A)) (c : list A) :
  Forall P (concat cs) -> In c cs -> Forall P c.
Proof.
  intros H Hin. apply Forall_forall. intros x Hx.
  rewrite Forall_forall in H. apply H.
  apply list_elem_of_In, in_concat. exists c. split; [done|].
  by apply list_elem_of_In.
Qed.

(** What the size formula does give.  One option holds an oversized
    [in(...)] expression, and the value [m] that [max] selects among its
    values is a longest one, of 1 to 1950 characters.  Then [query] cuts the value list,
    in order, into subsets of [n = 1950 / len(m)] values: every subset but the
    last has exactly [n] values and the last between 1 and [n].  The values of
    a subset have at most 1950 characters in total, and its serialised
    [in(...)], which adds the separators and the wrapper, has at most
    [1950 + n + 3]. *)
Theorem chunk_plan_sizes (before after : list (string * scalar))
    (field : string) (v : scalar) (values : list string) (m : string) :
  Forall (fun item => BaseAPI.oversized item.2 = false) before ->
  Forall (fun item => BaseAPI.oversized item.2 = false) after ->
  BaseAPI.oversized v = true ->
  BaseAPI.in_values v = Ok values ->
  Py.max_str values = Ok m ->
  Forall (fun x => Py.len x <= Py.len m) values ->
  1 <= Py.len m <= 1950 ->
  exists chunks,
    BaseAPI.plan_chunks (before ++ (field, v) :: after) = Ok (Some (field, chunks))
    /\ concat chunks = values
    /\ Forall (fun c => 1 <= length c <= 1950 / Py.len m) chunks
    /\ (forall i c, chunks !! i = Some c -> S i < length chunks ->
                    length c = 1950 / Py.len m)
    /\ Forall (fun c => exists e,
                  BaseAPI.in_ (PList (map SStr c)) = Ok e
                  /\ sum_list (map Py.len c) <= 1950
                  /\ Py.len e <= 1950 + 1950 / Py.len m + 3)
         chunks.
Proof.
  intros Hb Ha Hv Hvalues Hm Hlong Hlen. rewrite plan_single by done.
  assert (0 < 1950 / Py.len m) as Hn
      by (apply Nat.div_str_pos; lia).
  destruct (_chunks_pos values _ Hn) as [chunks Hcs].
  exists chunks.
  pose proof (_chunks_concat _ _ _ Hcs) as Hcat.
  pose proof (_chunks_length _ _ _ Hcs) as Hlens.
  repeat split; auto.
  - unfold BaseAPI.scan_option. simpl. rewrite Hv, Hvalues. simpl.
    unfold BaseAPI.chunksize. rewrite Hm. simpl.
    destruct (Nat.eqb_spec (Py.len m) 0); [lia|]. simpl.
    by rewrite Hcs.
  - intros i c. apply (_chunks_full _ _ _ _ _ Hcs).
  - rewrite <- Hcat in Hlong.
    apply Forall_forall. intros c Hc%list_elem_of_In.
    pose proof (Forall_concat_elem _ _ _ Hlong Hc) as HcL.
    apply sum_lengths_bound in HcL.
    rewrite Forall_forall in Hlens.
    specialize (Hlens c (proj2 (list_elem_of_In _ _) Hc)).
    pose proof (Nat.Div0.mul_div_le 1950 (Py.len m)) as Hdiv.
    assert (length c * Py.len m <= 1950) by nia.
    eexists. split; [reflexivity|]. split; [lia|].
    rewrite !len_append, map_str_SStr, len_join_comma. simpl. lia.
Qed.

Lemma chunk_plan_sizes_witness :
  exists chunks,
    BaseAPI.plan_chunks
      ([("pagesize", SInt 2%Z)] ++ ("api", SStr Scenario.ids_expr)
         :: [("deleteddate", SStr "null")])
    = Ok (Some ("api", chunks))
    /\ concat chunks = Scenario.ids
    /\ Forall (fun c => 1 <= length c <= 1950 / Py.len "12345") chunks
    /\ (forall i c, chunks !! i = Some c -> S i < length chunks ->
                    length c = 1950 / Py.len "12345")
    /\ Forall (fun c => exists e,
                  BaseAPI.in_ (PList (map SStr c)) = Ok e
                  /\ sum_list (map Py.len c) <= 1950
                  /\ Py.len e <= 1950 + 1950 / Py.len "12345" + 3)
         chunks.
Proof.
  apply (chunk_plan_sizes [("pagesize", SInt 2%Z)] [("deleteddate", SStr "null")]
           "api" (SStr Scenario.ids_expr) Scenario.ids "12345").
  - repeat constructor.
  - repeat constructor.
  - vm_compute. reflexivity.
  - vm_compute. reflexivity.
  - vm_compute. reflexivity.
  - apply Forall_forall. intros x Hx%list_elem_of_In%repeat_spec. subst. simpl. lia.
  - simpl. lia.
Defined.

(** C5: the size formula counts the characters of the values only and leaves
    out the separators, the wrapper and the percent-encoding.  974
    one-character values make an expression of 1951 characters; the greatest
    value has one character, so the subset size is 1950, the plan is a single
    subset holding all 974 values, its serialised form has the same 1951
    characters, which is not under 1950, and the request that carries it has
    a URL of 3960 characters, beyond the 2048 that the chunking is there to
    stay under. *)
Lemma serialized_chunk_exceeds_threshold :
  BaseAPI.oversized (SStr Scenario.ones_expr) = true
  /\ Forall (fun x => Py.len x = 1) Scenario.ones
  /\ BaseAPI.in_values (SStr Scenario.ones_expr) = Ok Scenario.ones
  /\ BaseAPI.chunksize Scenario.ones = Ok (1950 / 1)
  /\ BaseAPI.plan_chunks [("api", SStr Scenario.ones_expr)]
     = Ok (Some ("api", [Scenario.ones]))
  /\ (exists e,
        BaseAPI.in_ (PList (map SStr Scenario.ones)) = Ok e
        /\ Py.len e = 1951
        /\ ~ Py.len e < 1950)
  /\ map Py.len (Client.sent_urls Case.ones_run.2) = [3960]
  /\ Forall (fun url => 2048 < Py.len url) (Client.sent_urls Case.ones_run.2).
Proof.
  split; [vm_compute; reflexivity|].
  split; [apply Forall_forall; intros x Hx%list_elem_of_In%repeat_spec; by subst|].
  split; [vm_compute; reflexivity|].
  split; [vm_compute; reflexivity|].
  split; [vm_compute; reflexivity|].
  split.
  { eexists. split; [reflexivity|].
    assert (Py.len ("in(" +:+ Py.join "," (map Py.str (map SStr Scenario.ones))
                    +:+ ")") = 1951) as Hlen by (vm_compute; reflexivity).
    split; [exact Hlen|]. rewrite Hlen. lia. }
  assert (map Py.len (Client.sent_urls Case.ones_run.2) = [3960]) as Hurls
      by (vm_compute; reflexivity).
  split; [exact Hurls|].
  apply (proj1 (Forall_map Py.len (fun n => 2048 < n) _)).
  change (Py.len <$> Client.sent_urls Case.ones_run.2)
    with (map Py.len (Client.sent_urls Case.ones_run.2)).
  rewrite Hurls. constructor; [lia|constructor].
Qed.

(** [len] counts characters: an expression of 1000 accented letters has
    2004 bytes and 1004 characters, is not oversized, and is not chunked. *)
Lemma accented_values_not_oversized :
  Py.len Case.accented = 1
  /\ String.length Case.accented_expr = 2004
  /\ Py.len Case.accented_expr = 1004
  /\ BaseAPI.oversized (SStr Case.accented_expr) = false
  /\ BaseAPI.plan_chunks [("api", SStr Case.accented_expr)] = Ok None.
Proof. vm_compute. repeat split; reflexivity. Qed.

(** C6: the subsets of the plan cover the values, the requests do not.  A
    filter of 400 values is planned as two subsets, of 390 and of 10 values.
    The server answers the first subset with a page of one record and no
    next link; with no link held the loop breaks after that batch, where the
    branch of the empty batch goes on to the pending subset.  The generator
    ends after one request: the second subset is never asked for, its ten
    values are in no request, and the reply for it stays unread. *)
Theorem chunked_query_drops_pending_subset :
  BaseAPI.in_values (SStr Case.two_kinds_expr) = Ok Case.two_kinds
  /\ BaseAPI.plan_chunks [("api", SStr Case.two_kinds_expr)]
     = Ok (Some ("api", [repeat "11111" 390; repeat "22222" 10]))
  /\ Case.pending_subset_run.1 = Return tt
  /\ Client.yielded Case.pending_subset_run.2 = [Scenario.record 1]
  /\ Client.sent_urls Case.pending_subset_run.2
     = [Http.prepare_url "https://di-api.drillinginfo.com/v2/direct-access/wells"
          [("api", SStr ("in(" +:+ Py.join "," (repeat "11111" 390) +:+ ")"))]]
  /\ Forall (fun url => Py.contains "22222" url = false)
       (Client.sent_urls Case.pending_subset_run.2)
  /\ St.script Case.pending_subset_run.2
     = [Scenario.page [Scenario.record 2] None].
Proof.
  assert (Client.sent_urls Case.pending_subset_run.2
          = [Http.prepare_url
               "https://di-api.drillinginfo.com/v2/direct-access/wells"
               [("api", SStr ("in(" +:+ Py.join "," (repeat "11111" 390) +:+ ")"))]])
    as Hurls by (vm_compute; reflexivity).
  split; [vm_compute; reflexivity|].
  split; [vm_compute; reflexivity|].
  split; [vm_compute; reflexivity|].
  split; [vm_compute; reflexivity|].
  split; [exact Hurls|].
  split; [|vm_compute; reflexivity].
  rewrite Hurls. constructor; [|constructor]. vm_compute. reflexivity.
Qed.

(** ** The monad *)

Section Monad.

Context {A B : Type}.
Implicit Types (m : M A) (k : A -> M B) (s : St.t).

Lemma bind_return m k s a s1 : m s = (Return a, s1) -> bind m k s = k a s1.
Proof. unfold bind. by intros ->. Qed.

Lemma bind_raised m k s e s1 : m s = (Raised e, s1) -> bind m k s = (Raised e, s1).
Proof. unfold bind. by intros ->. Qed.

Lemma bind_halted m k s h s1 : m s = (Halted h, s1) -> bind m k s = (Halted h, s1).
Proof. unfold bind. by intros ->. Qed.

End Monad.

Lemma bind_assoc {A B C} (m : M A) (f : A -> M B) (g : B -> M C) (s : St.t) :
  bind (bind m f) g s = bind m (fun x => bind (f x) g) s.
Proof. unfold bind. by destruct (m s) as [[a|e|h] s1]. Qed.

(** Run the monadic steps that do not touch the network. *)
Ltac msimpl :=
  cbv beta iota delta [bind ret get modify emit raise stop lift
                         Session.set_header Session.header
                         Session.dispatch_hook].

(** Read the fields of states, requests and responses that are given by
    their constructors or setters. *)
Ltac stsimpl :=
  cbn [St.cls St.url St.retries St.backoff_factor St.links St.access_token
       St.client_id St.client_secret St.secret_key St.session_headers
       St.script St.trace St.demand
       St.set_retries St.set_links St.set_access_token St.set_session_headers
       St.set_script St.set_trace St.set_demand
       Session.sent Client.granted Client.announced Client.throttled
       Client.refreshed Client.reauthorized
       PreparedRequest.method PreparedRequest.url PreparedRequest.headers
       PreparedRequest.json PreparedRequest.set_header
       Response.status_code Response.text Response.json Response.links
       Response.url Response.request Response.of_reply
       Http.merge_headers fst snd].

Ltac stsimpl_in H :=
  cbn [St.cls St.url St.retries St.backoff_factor St.links St.access_token
       St.client_id St.client_secret St.secret_key St.session_headers
       St.script St.trace St.demand
       St.set_retries St.set_links St.set_access_token St.set_session_headers
       St.set_script St.set_trace St.set_demand
       Session.sent Client.granted Client.announced Client.throttled
       Client.refreshed Client.reauthorized
       PreparedRequest.method PreparedRequest.url PreparedRequest.headers
       PreparedRequest.json PreparedRequest.set_header
       Response.status_code Response.text Response.json Response.links
       Response.url Response.request Response.of_reply
       Http.merge_headers fst snd] in H.

(** Two states with the same fields are equal. *)
Lemma St_ext (s s' : St.t) :
  St.cls s = St.cls s' -> St.url s = St.url s' ->
  St.retries s = St.retries s' -> St.backoff_factor s = St.backoff_factor s' ->
  St.links s = St.links s' -> St.access_token s = St.access_token s' ->
  St.client_id s = St.client_id s' -> St.client_secret s = St.client_secret s' ->
  St.secret_key s = St.secret_key s' ->
  St.session_headers s = St.session_headers s' ->
  St.script s = St.script s' -> St.trace s = St.trace s' ->
  St.demand s = St.demand s' ->
  s = s'.
Proof. destruct s, s'. cbn. intros. by subst. Qed.

Ltac st_eq := apply St_ext; stsimpl; try reflexivity.

Ltac mrun := repeat (progress (msimpl; stsimpl)).

(** ** The transport and the hook *)

Section Send.

Implicit Types (s : St.t) (r : Reply.t) (request : PreparedRequest.t).

(** The transport does not give up on a status outside its list. *)
Lemma gives_up_status request r :
  existsb (Z.eqb (Reply.status_code r)) Session.status_forcelist = false ->
  Session.gives_up request r = false.
Proof. unfold Session.gives_up. intros ->. apply andb_false_r. Qed.

Lemma gives_up_code request r (code : Z) :
  Reply.status_code r = code ->
  existsb (Z.eqb code) Session.status_forcelist = false ->
  Session.gives_up request r = false.
Proof. intros <-. apply gives_up_status. Qed.

Lemma gives_up_ok request r :
  Reply.ok r = true -> Session.gives_up request r = false.
Proof.
  unfold Reply.ok. intros Hok. apply gives_up_status.
  unfold Session.status_forcelist. cbn [existsb].
  repeat match goal with
         | |- context [(?a =? ?b)%Z] => destruct (Z.eqb_spec a b) as [Heq|_]
         end;
    try reflexivity; rewrite Heq in Hok; discriminate.
Qed.

Lemma adapter_send_reply request s r rest :
  St.script s = r :: rest ->
  Session.gives_up request r = false ->
  Session.adapter_send request s
  = (Return (Response.of_reply r request), Session.sent request rest s).
Proof. unfold Session.adapter_send. by intros -> ->. Qed.

(** A status of the transport's list never comes back as a response. *)
Lemma adapter_send_gives_up request s r rest :
  St.script s = r :: rest ->
  Session.gives_up request r = true ->
  Session.adapter_send request s
  = (Raised RetryError, Session.sent request rest s).
Proof. unfold Session.adapter_send. by intros -> ->. Qed.

Lemma adapter_send_blocked request s :
  St.script s = [] ->
  Session.adapter_send request s
  = (Halted (Blocked request), Session.sent request [] s).
Proof. unfold Session.adapter_send. by intros ->. Qed.

(** A reply that is not an error passes the hook untouched. *)
Lemma send_ok fuel request s r rest :
  St.script s = r :: rest -> Reply.ok r = true ->
  Client.send (S fuel) request s
  = (Return (Response.of_reply r request), Session.sent request rest s).
Proof.
  intros Hs Hok. simpl.
  rewrite (bind_return _ _ _ _ _
             (adapter_send_reply _ _ _ _ Hs (gives_up_ok _ _ Hok))).
  unfold Session.dispatch_hook, BaseAPI._check_response.
  unfold Response.ok, Response.of_reply. simpl.
  unfold Reply.ok in Hok. rewrite Hok. done.
Qed.

(** With no reply left the request stays unanswered. *)
Lemma send_blocked fuel request s :
  St.script s = [] ->
  Client.send (S fuel) request s
  = (Halted (Blocked request), Session.sent request [] s).
Proof.
  intros Hs. simpl.
  by rewrite (bind_halted _ _ _ _ _ (adapter_send_blocked _ _ Hs)).
Qed.

End Send.

(** ** 403 on the token endpoint *)

Section Throttle.

Implicit Types (s : St.t) (r : Reply.t) (request : PreparedRequest.t).

(** One 403 on a URL with ["tokens"] in it: the counter goes down by one,
    the client sleeps 60 seconds and sends the same request again. *)
Lemma send_403 fuel request s r rest :
  Py.contains "tokens" (PreparedRequest.url request) = true ->
  Reply.status_code r = 403%Z ->
  St.script s = r :: rest ->
  Client.send (S fuel) request s
  = Client.send fuel request (Client.throttled 1 request rest s).
Proof.
  intros Hurl Hcode Hs. cbn [Client.send].
  rewrite (bind_return _ _ _ _ _
             (adapter_send_reply _ _ _ _ Hs (gives_up_code _ _ _ Hcode eq_refl))).
  unfold Session.dispatch_hook, BaseAPI._check_response, Response.ok.
  stsimpl. rewrite Hcode, Hurl.
  change ((403 =? 400)%Z) with false. change ((403 =? 401)%Z) with false.
  change ((403 =? 403)%Z) with true.
  change (negb (negb ((400 <=? 403)%Z && (403 <? 600)%Z))) with true.
  cbv iota. cbn [andb]. mrun.
  match goal with
  | |- context [Client.send fuel request ?st] =>
      replace st with (Client.throttled 1 request rest s)
  end.
  2:{ st_eq. cbn [replicate concat app]. by rewrite <- app_assoc. }
  destruct (Client.send fuel request _) as [[resent| |] s']; done.
Qed.

Lemma throttled_S n request rest rest' s :
  Client.throttled n request rest' (Client.throttled 1 request rest s)
  = Client.throttled (S n) request rest' s.
Proof.
  st_eq; [lia|]. cbn [replicate concat app]. by rewrite <- app_assoc.
Qed.

(** Any number of 403 replies in a row: each costs one unit of the counter
    and 60 seconds; whatever the counter, the request is sent again. *)
Lemma send_throttled request (throttled : list Reply.t) :
  Py.contains "tokens" (PreparedRequest.url request) = true ->
  Forall (fun r => Reply.status_code r = 403%Z) throttled ->
  forall fuel s rest,
    St.script s = throttled ++ rest ->
    Client.send (length throttled + fuel) request s
    = Client.send fuel request
        (Client.throttled (length throttled) request rest s).
Proof.
  intros Hurl. induction 1 as [|r throttled Hr _ IH]; intros fuel s rest Hs.
  - cbn [length plus]. f_equal. cbn [app] in Hs. st_eq.
    + lia.
    + done.
    + cbn [replicate concat]. by rewrite app_nil_r.
  - cbn [length plus].
    rewrite (send_403 _ _ _ r (throttled ++ rest)) by done.
    rewrite (IH _ _ rest) by done.
    by rewrite throttled_S.
Qed.

End Throttle.

(** ** The token request *)

Section Token.

Implicit Types (s : St.t) (r : Reply.t) (request : PreparedRequest.t).

Lemma append_assoc (a b c : string) : (a +:+ b) +:+ c = a +:+ b +:+ c.
Proof.
  induction a as [|x a IH]; [done|]. rewrite !append_cons. by rewrite IH.
Qed.

Lemma prefix_append (n b : string) : String.prefix n (n +:+ b) = true.
Proof.
  induction n as [|c n IH].
  - by destruct b.
  - rewrite append_cons. simpl. destruct (ascii_dec c c); [done|congruence].
Qed.

Lemma contains_unfold (n h : string) :
  Py.contains n h
  = String.prefix n h
    || match h with
       | EmptyString => false
       | String _ h' => Py.contains n h'
       end.
Proof. by destruct h. Qed.

Lemma contains_append (n a b : string) : Py.contains n (a +:+ n +:+ b) = true.
Proof.
  induction a as [|c a IH].
  - change (Py.contains n (n +:+ b) = true).
    rewrite contains_unfold, prefix_append. done.
  - rewrite append_cons, contains_unfold, IH. apply orb_true_r.
Qed.

Lemma append_nil_r (a : string) : a +:+ "" = a.
Proof. induction a as [|x a IH]; [done|]. by rewrite append_cons, IH. Qed.

Lemma contains_suffix (n a : string) : Py.contains n (a +:+ n) = true.
Proof. rewrite <- (append_nil_r n) at 2. apply contains_append. Qed.

(** The URL of the token request has ["tokens"] in it. *)
Lemma token_url_contains_tokens s :
  Py.contains "tokens" (PreparedRequest.url (Client.token_request s)) = true.
Proof.
  unfold Client.token_request, Py.os_path_join.
  change (String.prefix "/" "tokens") with false. cbv iota.
  destruct (St.cls s); simpl PreparedRequest.url; unfold Http.prepare_url.
  - change (Http.encode_params _) with "grant_type=client_credentials".
    change ("grant_type=client_credentials" =? "")%string with false. cbv iota.
    destruct (_ || _).
    + rewrite append_assoc. apply contains_append.
    + rewrite !append_assoc.
      rewrite <- (append_assoc (St.url s) "/"). apply contains_append.
  - change (Http.encode_params []) with "".
    change ("" =? "")%string with true. cbv iota.
    destruct (_ || _).
    + apply contains_suffix.
    + rewrite <- append_assoc. apply contains_suffix.
Qed.




(** [get_access_token] when the token request is answered, in the end, by a
    response that carries a token. *)
Lemma get_access_token_granted (send : PreparedRequest.t -> M Response.t)
    s response s2 body token :
  Client.has_credentials s = true ->
  send (Client.token_request s) (Client.announced s) = (Return response, s2) ->
  Response.json response = Some body ->
  Json.getitem body (Client.token_field (St.cls s)) = Ok (JStr token) ->
  Client.get_access_token send s = (Return body, Client.granted token s2).
Proof.
  unfold Client.has_credentials, Client.token_field, Client.get_access_token.
  intros Hcred Hsend Hjson Htoken. mrun.
  destruct (St.cls s) eqn:Hcls.
  - unfold DirectAccessV2.get_access_token, DirectAccessV2.session_post,
      Session.prepare_request, response_json, bearer.
    mrun. apply andb_true_iff in Hcred as [-> ->]. cbn [negb orb]. mrun.
    match goal with
    | |- context [send ?q ?st] =>
        replace st with (Client.announced s);
        [replace q with (Client.token_request s)|]
    end.
    + rewrite Hsend. mrun. rewrite Hjson. mrun. rewrite Htoken. mrun. done.
    + unfold Client.token_request, Client.token_headers. by rewrite Hcls.
    + unfold Client.announced, Client.token_headers. rewrite Hcls. by st_eq.
  - unfold DeveloperAPIv3.get_access_token, DeveloperAPIv3.session_post,
      Session.prepare_request, response_json, bearer.
    mrun. rewrite Hcred. cbn [negb]. mrun.
    match goal with
    | |- context [send ?q ?st] =>
        replace st with (Client.announced s);
        [replace q with (Client.token_request s)|]
    end.
    + rewrite Hsend. mrun. rewrite Hjson. mrun. rewrite Htoken. mrun. done.
    + unfold Client.token_request, Client.token_headers. by rewrite Hcls.
    + unfold Client.announced, Client.token_headers. rewrite Hcls. by st_eq.
Qed.

End Token.

Lemma get_set_header (k v : string) (h : Http.headers) :
  Http.get_header k (Http.set_header k v h) = Some v.
Proof. unfold Http.get_header, Http.set_header. by rewrite lookup_insert_eq. Qed.

(** [get_access_token] through any number of 403 replies. *)
Lemma get_access_token_throttled (s : St.t) (throttled : list Reply.t)
    (final : Reply.t) (rest : list Reply.t) (body : json) (token : string)
    (fuel : nat) :
  Client.has_credentials s = true ->
  Forall (fun r => Reply.status_code r = 403%Z) throttled ->
  Reply.ok final = true ->
  Reply.json final = Some body ->
  Json.getitem body (Client.token_field (St.cls s)) = Ok (JStr token) ->
  St.script s = throttled ++ final :: rest ->
  Client.get_access_token (Client.send (length throttled + S fuel)) s
  = (Return body,
     Client.granted token
       (Session.sent (Client.token_request s) rest
          (Client.throttled (length throttled) (Client.token_request s)
             (final :: rest) (Client.announced s)))).
Proof.
  intros Hcred H403 Hok Hjson Htoken Hs.
  apply (get_access_token_granted _ _
           (Response.of_reply final (Client.token_request s)));
    [exact Hcred| |exact Hjson|exact Htoken].
  rewrite (send_throttled _ throttled (token_url_contains_tokens s) H403 _ _
             (final :: rest)) by exact Hs.
  apply send_ok; [reflexivity|exact Hok].
Qed.

(** What the hook does with a 403 of the token endpoint, as it stands: the
    token endpoint answers 403 any number of times and then grants a token.  Each 403 costs one unit of [retries] and
    a sleep of 60 seconds, after which the same token request is sent again;
    the counter is never tested, so this holds whatever its value, and the
    call returns the token response with the new [Authorization] header in
    place. *)
Theorem token_403_sleeps_and_resends (s : St.t) (throttled : list Reply.t)
    (final : Reply.t) (rest : list Reply.t) (body : json) (token : string)
    (fuel : nat) :
  Client.has_credentials s = true ->
  Forall (fun r => Reply.status_code r = 403%Z) throttled ->
  Reply.ok final = true ->
  Reply.json final = Some body ->
  Json.getitem body (Client.token_field (St.cls s)) = Ok (JStr token) ->
  St.script s = throttled ++ final :: rest ->
  length throttled < fuel ->
  exists s',
    Client.get_access_token (Client.send fuel) s = (Return body, s')
    /\ St.retries s' = (St.retries s - Z.of_nat (length throttled))%Z
    /\ St.script s' = rest
    /\ St.trace s'
       = St.trace s
         ++ concat (replicate (length throttled)
                      [Sent (Client.token_request s); Slept 60])
         ++ [Sent (Client.token_request s)]
    /\ Http.get_header "Authorization" (St.session_headers s')
       = Some ("bearer " +:+ token).
Proof.
  intros Hcred H403 Hok Hjson Htoken Hs Hfuel.
  replace fuel with (length throttled + S (fuel - S (length throttled))) by lia.
  eexists. split; [by apply get_access_token_throttled|].
  stsimpl. rewrite get_set_header, <- app_assoc. done.
Qed.

Lemma token_403_sleeps_and_resends_witness :
  exists s',
    Client.get_access_token (Client.send 3)
      (St.set_script
         [Scenario.status_reply 403 "throttled";
          Scenario.status_reply 403 "throttled";
          Scenario.token_reply "t1"] Scenario.v2)
    = (Return (JObj [("access_token", JStr "t1")]), s')
    /\ St.retries s'
       = (St.retries
            (St.set_script
               [Scenario.status_reply 403 "throttled";
                Scenario.status_reply 403 "throttled";
                Scenario.token_reply "t1"] Scenario.v2)
          - Z.of_nat (length [Scenario.status_reply 403 "throttled";
                              Scenario.status_reply 403 "throttled"]))%Z
    /\ St.script s' = [].
Proof.
  destruct (token_403_sleeps_and_resends
           (St.set_script
              [Scenario.status_reply 403 "throttled";
               Scenario.status_reply 403 "throttled";
               Scenario.token_reply "t1"] Scenario.v2)
           [Scenario.status_reply 403 "throttled";
            Scenario.status_reply 403 "throttled"]
           (Scenario.token_reply "t1") []
           (JObj [("access_token", JStr "t1")]) "t1" 3) as (s' & H1 & H2 & H3 & _).
  - vm_compute. reflexivity.
  - repeat constructor.
  - vm_compute. reflexivity.
  - reflexivity.
  - vm_compute. reflexivity.
  - reflexivity.
  - simpl. lia.
  - exists s'. auto.
Defined.

(** C4: the hook keeps the budget ([self.retries -= 1], "Retries
    remaining") and never tests it.  With the counter already at 0 a 403 of
    the token endpoint is followed by a sleep and a resend like any other;
    the counter drops below zero and no [DAAuthException] is raised. *)
Lemma token_403_ignores_exhausted_budget :
  St.retries Scenario.exhausted = 0%Z
  /\ Scenario.exhausted_run.1 = Return (JObj [("access_token", JStr "t1")])
  /\ (forall msg, Scenario.exhausted_run.1 <> Raised (DAAuthException msg))
  /\ St.retries Scenario.exhausted_run.2 = (-2)%Z
  /\ Client.sent_urls Scenario.exhausted_run.2
     = replicate 3 "https://di-api.drillinginfo.com/v2/direct-access/tokens?grant_type=client_credentials"
  /\ length (St.trace Scenario.exhausted_run.2) = 5.
Proof.
  vm_compute. repeat split; try reflexivity. intros msg. discriminate.
Qed.

(** ** 401: the token is refreshed and the request sent again *)

Section Refresh.

Implicit Types (s : St.t) (r : Reply.t) (request : PreparedRequest.t).

Lemma send_unfold fuel request :
  Client.send (S fuel) request
  = bind (Session.adapter_send request)
      (Session.dispatch_hook
         (BaseAPI._check_response (Client.send fuel)
            (Client.get_access_token (Client.send fuel)))).
Proof. reflexivity. Qed.

(** One 401 followed by a granted token: the request goes out again with
    the new [Authorization] header. *)
Lemma send_401 fuel request s r401 granting token rest :
  Client.has_credentials s = true ->
  Reply.status_code r401 = 401%Z ->
  Client.grants (Client.token_field (St.cls s)) token granting ->
  St.script s = r401 :: granting :: rest ->
  Client.send (S (S fuel)) request s
  = Client.send (S fuel) (Client.reauthorized token request)
      (Client.refreshed token request s).
Proof.
  intros Hcred Hcode (Hok & body & Hjson & Htoken) Hs.
  rewrite send_unfold.
  rewrite (bind_return _ _ _ _ _
             (adapter_send_reply _ _ _ _ Hs (gives_up_code _ _ _ Hcode eq_refl))).
  unfold Session.dispatch_hook, BaseAPI._check_response, Response.ok.
  stsimpl. rewrite Hcode.
  change ((401 =? 400)%Z) with false. change ((401 =? 401)%Z) with true.
  change (negb (negb ((400 <=? 401)%Z && (401 <? 600)%Z))) with true.
  cbv iota.
  set (s1 := Session.sent request (granting :: rest) s).
  assert (Client.get_access_token (Client.send (S fuel)) s1
          = (Return body,
             Client.granted token
               (Session.sent (Client.token_request s1) rest (Client.announced s1))))
    as Hget.
  { apply (get_access_token_granted _ _
             (Response.of_reply granting (Client.token_request s1)));
      [exact Hcred| |exact Hjson|exact Htoken].
    apply send_ok; [reflexivity|exact Hok]. }
  rewrite bind_assoc, (bind_return _ _ _ _ _ Hget).
  mrun. rewrite get_set_header.
  match goal with
  | |- context [Client.send (S fuel) ?q ?st] =>
      replace st with (Client.refreshed token request s);
      [change q with (Client.reauthorized token request)|]
  end.
  - destruct (Client.send (S fuel) _ _) as [[resent| |] s']; done.
  - st_eq; rewrite Hs; reflexivity.
Qed.

Lemma token_request_url_refreshed token request s :
  PreparedRequest.url (Client.token_request (Client.refreshed token request s))
  = PreparedRequest.url (Client.token_request s).
Proof. unfold Client.token_request. stsimpl. by destruct (St.cls s). Qed.

Lemma yielded_sent request rest s :
  Client.yielded (Session.sent request rest s) = Client.yielded s.
Proof.
  unfold Client.yielded. stsimpl. rewrite omap_app. apply app_nil_r.
Qed.

Lemma sent_urls_sent request rest s :
  Client.sent_urls (Session.sent request rest s)
  = Client.sent_urls s ++ [PreparedRequest.url request].
Proof. unfold Client.sent_urls. stsimpl. by rewrite omap_app. Qed.

Lemma yielded_refreshed token request s :
  Client.yielded (Client.refreshed token request s) = Client.yielded s.
Proof.
  unfold Client.yielded. stsimpl. rewrite !omap_app.
  change (omap _ [Sent request]) with (@nil json).
  change (omap _ [Sent _]) with (@nil json).
  by rewrite !app_nil_r.
Qed.

Lemma sent_urls_refreshed token request s :
  Client.sent_urls (Client.refreshed token request s)
  = Client.sent_urls s
    ++ [PreparedRequest.url request;
        PreparedRequest.url (Client.token_request s)].
Proof.
  unfold Client.sent_urls. stsimpl. rewrite !omap_app, <- app_assoc.
  reflexivity.
Qed.

Lemma last_cons {A} (a d : A) (l : list A) : List.last (a :: l) d = List.last l a.
Proof.
  revert a d. induction l as [|b l IH]; intros a d; [done|].
  change (List.last (a :: b :: l) d) with (List.last (b :: l) d).
  by rewrite (IH b d), (IH b a).
Qed.

(** Any number of such rounds, then a reply that is not an error. *)
Lemma send_rounds (rounds : list (Reply.t * Reply.t * string)) :
  forall fuel request s final rest,
    Client.has_credentials s = true ->
    Forall (Client.expired_round (Client.token_field (St.cls s))) rounds ->
    Reply.ok final = true ->
    St.script s = Client.round_replies rounds ++ final :: rest ->
    exists request' s',
      Client.send (length rounds + S fuel) request s
      = (Return (Response.of_reply final request'), s')
      /\ PreparedRequest.method request' = PreparedRequest.method request
      /\ PreparedRequest.url request' = PreparedRequest.url request
      /\ PreparedRequest.json request' = PreparedRequest.json request
      /\ St.script s' = rest
      /\ St.cls s' = St.cls s
      /\ St.url s' = St.url s
      /\ St.links s' = St.links s
      /\ St.demand s' = St.demand s
      /\ St.retries s' = St.retries s
      /\ Client.has_credentials s' = Client.has_credentials s
      /\ Client.yielded s' = Client.yielded s
      /\ Client.sent_urls s'
         = Client.sent_urls s
           ++ flat_map (fun _ => [PreparedRequest.url request;
                                  PreparedRequest.url (Client.token_request s)])
                rounds
           ++ [PreparedRequest.url request]
      /\ (rounds = [] -> St.session_headers s' = St.session_headers s
                         /\ St.access_token s' = St.access_token s
                         /\ request' = request)
      /\ (rounds <> [] ->
          Client.authorized (List.last (map snd rounds) "") request' s').
Proof.
  induction rounds as [|[[r401 granting] token] rounds IH];
    intros fuel request s final rest Hcred Hrounds Hok Hs.
  - exists request, (Session.sent request rest s).
    split; [by apply send_ok|].
    rewrite yielded_sent, sent_urls_sent. split_and!; done.
  - apply Forall_cons in Hrounds as [[Hcode Hgrant] Hrounds].
    cbn [fst snd] in Hcode, Hgrant.
    cbn [length plus]. rewrite <- plus_n_Sm.
    rewrite (send_401 _ _ _ r401 granting token
               (Client.round_replies rounds ++ final :: rest)) by done.
    rewrite plus_n_Sm.
    destruct (IH fuel (Client.reauthorized token request)
                (Client.refreshed token request s) final rest)
      as (request' & s' & Hrun & Hm & Hu & Hj & Hscr & Hcls & Hurl & Hl & Hd
          & Hr & Hc & Hy & Hsent & Hnil & Hcons).
    + exact Hcred.
    + exact Hrounds.
    + exact Hok.
    + stsimpl. by rewrite Hs.
    + exists request', s'. split; [exact Hrun|].
      rewrite Hm, Hu, Hj, Hscr, Hcls, Hurl, Hl, Hd, Hr, Hc, Hy, Hsent.
      rewrite token_request_url_refreshed, yielded_refreshed,
        sent_urls_refreshed.
      cbn [flat_map app]. rewrite <- !app_assoc.
      split_and!; try done.
      intros _. cbn [map snd]. rewrite last_cons.
      destruct rounds as [|round rounds'].
      * destruct (Hnil eq_refl) as (Hh & Ha & ->).
        unfold Client.authorized. rewrite Hh, Ha. stsimpl.
        rewrite !get_set_header. done.
      * specialize (Hcons ltac:(done)). cbn [map] in *.
        rewrite last_cons in Hcons. by rewrite last_cons.
Qed.

End Refresh.

(** C3 (as the code has it): a request is answered 401 one or more times in
    a row, each time followed by a successful token request, and then by a
    reply that is not an error.  Every 401 makes the client fetch a new token
    and send the request again with the new [Authorization] header; the
    caller gets the response of the last resend, no exception is raised, no
    record is yielded on the way, the paging state is untouched, and the
    session and the request carry the last token.  A 401 on a resent request
    is handled like the first one: there is no limit and no [DAAuthException]
    on that account. *)
Theorem expired_token_refreshed_and_resent
    (rounds : list (Reply.t * Reply.t * string)) (fuel : nat)
    (request : PreparedRequest.t) (s : St.t) (final : Reply.t)
    (rest : list Reply.t) :
  Client.has_credentials s = true ->
  rounds <> [] ->
  Forall (Client.expired_round (Client.token_field (St.cls s))) rounds ->
  Reply.ok final = true ->
  St.script s = Client.round_replies rounds ++ final :: rest ->
  length rounds < fuel ->
  exists request' s',
    Client.send fuel request s = (Return (Response.of_reply final request'), s')
    /\ PreparedRequest.method request' = PreparedRequest.method request
    /\ PreparedRequest.url request' = PreparedRequest.url request
    /\ PreparedRequest.json request' = PreparedRequest.json request
    /\ Client.authorized (List.last (map snd rounds) "") request' s'
    /\ St.script s' = rest
    /\ St.links s' = St.links s
    /\ St.retries s' = St.retries s
    /\ Client.yielded s' = Client.yielded s
    /\ Client.sent_urls s'
       = Client.sent_urls s
         ++ flat_map (fun _ => [PreparedRequest.url request;
                                PreparedRequest.url (Client.token_request s)])
              rounds
         ++ [PreparedRequest.url request].
Proof.
  intros Hcred Hne Hrounds Hok Hs Hfuel.
  destruct (send_rounds rounds (fuel - S (length rounds)) request s final rest
              Hcred Hrounds Hok Hs)
    as (request' & s' & Hrun & Hm & Hu & Hj & Hscr & _ & _ & Hl & _ & Hr & _
        & Hy & Hsent & _ & Hauth).
  replace (length rounds + S (fuel - S (length rounds))) with fuel in Hrun by lia.
  exists request', s'. split_and!; auto.
Qed.

Lemma expired_token_refreshed_and_resent_witness :
  exists request' s',
    Client.send 2 (PreparedRequest.mk "GET" "https://di-api.drillinginfo.com/v2/direct-access/wells" ∅ None)
      (St.set_script [Scenario.status_reply 401 "expired"; Scenario.token_reply "t1";
                      Scenario.wells_page2] Scenario.v2)
    = (Return (Response.of_reply Scenario.wells_page2 request'), s')
    /\ Client.authorized "t1" request' s'
    /\ St.script s' = [].
Proof.
  destruct (expired_token_refreshed_and_resent
              [(Scenario.status_reply 401 "expired", Scenario.token_reply "t1", "t1")]
              2
              (PreparedRequest.mk "GET" "https://di-api.drillinginfo.com/v2/direct-access/wells" ∅ None)
              (St.set_script [Scenario.status_reply 401 "expired";
                              Scenario.token_reply "t1";
                              Scenario.wells_page2] Scenario.v2)
              Scenario.wells_page2 [])
    as (request' & s' & H1 & _ & _ & _ & H2 & H3 & _).
  - vm_compute. reflexivity.
  - discriminate.
  - constructor; [|constructor]. split; [reflexivity|].
    split; [reflexivity|]. eexists. split; reflexivity.
  - reflexivity.
  - reflexivity.
  - simpl. lia.
  - exists request', s'. auto.
Defined.

(** C3, as stated, fails: the resent request is answered 401 again; the
    client fetches a second token and sends the request a third time, and
    the query goes on to its end.  No [DAAuthException] is raised. *)
Lemma second_401_refreshes_again :
  Scenario.twice_expired_run.1 = Return tt
  /\ (forall msg, Scenario.twice_expired_run.1 <> Raised (DAAuthException msg))
  /\ Client.sent_urls Scenario.twice_expired_run.2
     = ["https://di-api.drillinginfo.com/v2/direct-access/wells?pagesize=2";
        "https://di-api.drillinginfo.com/v2/direct-access/tokens?grant_type=client_credentials";
        "https://di-api.drillinginfo.com/v2/direct-access/wells?pagesize=2";
        "https://di-api.drillinginfo.com/v2/direct-access/tokens?grant_type=client_credentials";
        "https://di-api.drillinginfo.com/v2/direct-access/wells?pagesize=2";
        "https://di-api.drillinginfo.com/v2/direct-access/wells?pagesize=2&page=2"]
  /\ Client.yielded Scenario.twice_expired_run.2
     = [Scenario.record 1; Scenario.record 2]
  /\ Http.get_header "Authorization"
       (St.session_headers Scenario.twice_expired_run.2)
     = Some "bearer t2".
Proof.
  vm_compute. split_and!; try reflexivity. intros msg. discriminate.
Qed.

(** ** The paging loop *)

Section Loop.

Variable send : PreparedRequest.t -> M Response.t.
Implicit Types (s : St.t) (options : list (string * scalar))
  (query_chunks : BaseAPI.chunk_plan).

(** The head of the loop body sends [next_request] and hands on what
    [send] returns. *)
Lemma fetch_next_request query_url options query_chunks s request options'
    query_chunks' :
  BaseAPI.next_request query_url options query_chunks s
  = Ok (request, options', query_chunks') ->
  BaseAPI.fetch send query_url options query_chunks s
  = bind (send request) (fun response => ret (response, options', query_chunks')) s.
Proof.
  unfold BaseAPI.next_request, BaseAPI.fetch, BaseAPI.session_get,
    Session.prepare_request, BaseAPI.get_request.
  mrun. destruct (BaseAPI.links_truthy (St.links s)).
  - destruct (BaseAPI.next_url (St.links s)) as [next|e]; [|done].
    cbn [result_bind]. intros [= <- <- <-]. mrun. done.
  - destruct query_chunks as [[field [|chunk rest]]|].
    + intros [= <- <- <-]. mrun. done.
    + cbn [BaseAPI.in_ result_bind]. intros [= <- <- <-]. mrun. done.
    + intros [= <- <- <-]. mrun. done.
Qed.

(** A consumer that takes every record gets the whole batch. *)
Lemma yield_each_all records s :
  St.demand s = None ->
  Generator.yield_each records s
  = (Return tt, St.set_trace (St.trace s ++ map Yielded records) s).
Proof.
  revert s. induction records as [|record records IH]; intros s Hd.
  - cbn [Generator.yield_each map]. unfold ret. f_equal.
    st_eq. by rewrite app_nil_r.
  - cbn [Generator.yield_each map]. unfold Generator.yield. mrun.
    rewrite Hd. mrun. rewrite IH by done. f_equal.
    st_eq. by rewrite <- app_assoc.
Qed.

(** One turn of the loop on a batch that is not empty. *)
Lemma query_loop_batch fuel query_url paging options query_chunks s request
    options' query_chunks' response s1 body records :
  BaseAPI.next_request query_url options query_chunks s
  = Ok (request, options', query_chunks') ->
  send request s = (Return response, s1) ->
  Response.ok response = true ->
  Response.json response = Some body ->
  Json.records body = Ok records ->
  records <> [] ->
  St.demand s1 = None ->
  BaseAPI.query_loop send (S fuel) query_url paging options query_chunks s
  = match St.links (BaseAPI.batched response records s1) with
    | None => (Return tt, BaseAPI.batched response records s1)
    | Some _ =>
        match BaseAPI.paging_lower paging with
        | Ok p =>
            if String.eqb p "false"
            then (Return tt, BaseAPI.batched response records s1)
            else BaseAPI.query_loop send fuel query_url paging options'
                   query_chunks' (BaseAPI.batched response records s1)
        | Raise e => (Raised e, BaseAPI.batched response records s1)
        end
    end.
Proof.
  intros Hnext Hsend Hok Hjson Hrecords Hne Hd.
  cbn [BaseAPI.query_loop].
  rewrite (bind_return _ _ _ _ _
             (eq_trans (fetch_next_request _ _ _ _ _ _ _ Hnext)
                (bind_return _ _ _ _ _ Hsend))).
  rewrite Hok. cbn [negb]. unfold response_json. rewrite Hjson. mrun.
  rewrite Hrecords. mrun.
  destruct records as [|record records]; [done|]. cbn [length Nat.eqb].
  unfold BaseAPI.batched.
  destruct (Dict.contains "next" (Response.links response)); mrun.
  - rewrite yield_each_all by exact Hd.
    mrun. destruct (BaseAPI.paging_lower paging) as [p|e]; mrun; [|done].
    by destruct (String.eqb p "false").
  - rewrite yield_each_all by exact Hd.
    mrun. destruct (St.links s1); [|done].
    destruct (BaseAPI.paging_lower paging) as [p|e]; mrun; [|done].
    by destruct (String.eqb p "false").
Qed.

(** One turn of the loop on an empty batch. *)
Lemma query_loop_empty fuel query_url paging options query_chunks s request
    options' query_chunks' response s1 body :
  BaseAPI.next_request query_url options query_chunks s
  = Ok (request, options', query_chunks') ->
  send request s = (Return response, s1) ->
  Response.ok response = true ->
  Response.json response = Some body ->
  Json.records body = Ok [] ->
  BaseAPI.query_loop send (S fuel) query_url paging options query_chunks s
  = if BaseAPI.pending query_chunks'
    then BaseAPI.query_loop send fuel query_url paging options' query_chunks'
           (St.set_links None s1)
    else (Return tt, St.set_links None s1).
Proof.
  intros Hnext Hsend Hok Hjson Hrecords.
  cbn [BaseAPI.query_loop].
  rewrite (bind_return _ _ _ _ _
             (eq_trans (fetch_next_request _ _ _ _ _ _ _ Hnext)
                (bind_return _ _ _ _ _ Hsend))).
  rewrite Hok. cbn [negb]. unfold response_json. rewrite Hjson. mrun.
  rewrite Hrecords. mrun. cbn [length Nat.eqb]. mrun.
  by destruct (BaseAPI.pending query_chunks').
Qed.

End Loop.

Section Batches.

Implicit Types (s : St.t) (records : list json).

Lemma yielded_map_Yielded records :
  omap (fun e => match e with Yielded r => Some r | _ => None end)
    (map Yielded records) = records.
Proof. induction records as [|r records IH]; [done|]. cbn. by rewrite IH. Qed.

Lemma sent_map_Yielded records :
  omap (fun e => match e with
                 | Sent r => Some (PreparedRequest.url r)
                 | _ => None
                 end) (map Yielded records) = [].
Proof. induction records as [|r records IH]; [done|]. cbn. by rewrite IH. Qed.

Lemma yielded_batched response records s :
  Client.yielded (BaseAPI.batched response records s)
  = Client.yielded s ++ records.
Proof.
  unfold Client.yielded, BaseAPI.batched.
  destruct (Dict.contains _ _); stsimpl;
    by rewrite omap_app, yielded_map_Yielded.
Qed.

Lemma sent_urls_batched response records s :
  Client.sent_urls (BaseAPI.batched response records s) = Client.sent_urls s.
Proof.
  unfold Client.sent_urls, BaseAPI.batched.
  destruct (Dict.contains _ _); stsimpl;
    by rewrite omap_app, sent_map_Yielded, app_nil_r.
Qed.

Lemma script_batched response records s :
  St.script (BaseAPI.batched response records s) = St.script s.
Proof. unfold BaseAPI.batched. by destruct (Dict.contains _ _). Qed.

Lemma demand_batched response records s :
  St.demand (BaseAPI.batched response records s) = St.demand s.
Proof. unfold BaseAPI.batched. by destruct (Dict.contains _ _). Qed.

Lemma url_batched response records s :
  St.url (BaseAPI.batched response records s) = St.url s.
Proof. unfold BaseAPI.batched. by destruct (Dict.contains _ _). Qed.

Lemma session_headers_batched response records s :
  St.session_headers (BaseAPI.batched response records s) = St.session_headers s.
Proof. unfold BaseAPI.batched. by destruct (Dict.contains _ _). Qed.

(** The links after a batch: those of the response if it has a [next],
    else the ones that were there. *)
Lemma links_batched response records s :
  St.links (BaseAPI.batched response records s)
  = if Dict.contains "next" (Response.links response)
    then Some (Response.links response)
    else St.links s.
Proof. unfold BaseAPI.batched. by destruct (Dict.contains _ _). Qed.

End Batches.




(** ** Where the code departs from its intent *)

(** C1: the example of the specification.  Page 1 has a next link, page 2 =
    [{"id": 3}] has none.  The three records are yielded in order, but the
    generator does not end: the links of page 1 are still in [self.links],
    so a third request goes to the same continuation link, and the run stops
    only because the server has nothing more to say. *)
Theorem two_pages_then_stale_link_request :
  Client.yielded Scenario.two_pages_run.2
  = [Scenario.record 1; Scenario.record 2; Scenario.record 3]
  /\ (exists request,
        Scenario.two_pages_run.1 = Halted (Blocked request)
        /\ PreparedRequest.url request
           = "https://di-api.drillinginfo.com/v2/direct-access/wells?pagesize=2&page=2")
  /\ Scenario.two_pages_run.1 <> Return tt
  /\ Client.sent_urls Scenario.two_pages_run.2
     = ["https://di-api.drillinginfo.com/v2/direct-access/wells?pagesize=2";
        "https://di-api.drillinginfo.com/v2/direct-access/wells?pagesize=2&page=2";
        "https://di-api.drillinginfo.com/v2/direct-access/wells?pagesize=2&page=2"]
  /\ St.links Scenario.two_pages_run.2
     = Some (Scenario.next_link "/wells?pagesize=2&page=2").
Proof.
  vm_compute. split_and!; try reflexivity; [|discriminate].
  eexists. split; reflexivity.
Qed.

(** C2: a query leaves its continuation link behind, both when it ends
    because [paging] is ["false"] and when its generator is dropped after
    the first record.  The next [query], for another dataset, sends its
    first request to that link and not to the endpoint of its dataset. *)
Theorem stale_link_leaks_into_next_query :
  Scenario.first_batch_run.1 = Return tt
  /\ St.links Scenario.first_batch_run.2
     = Some (Scenario.next_link "/wells?pagesize=2&page=2")
  /\ hd_error (Client.sent_urls Scenario.rigs_after_first_batch.2)
     = Some "https://di-api.drillinginfo.com/v2/direct-access/wells?pagesize=2&page=2"
  /\ Scenario.abandoned_run.1 = Halted Suspended
  /\ Client.yielded Scenario.abandoned_run.2 = [Scenario.record 1]
  /\ St.links Scenario.abandoned_run.2
     = Some (Scenario.next_link "/wells?pagesize=2&page=2")
  /\ hd_error (Client.sent_urls Scenario.rigs_after_abandoned.2)
     = Some "https://di-api.drillinginfo.com/v2/direct-access/wells?pagesize=2&page=2"
  /\ Py.os_path_join (St.url Scenario.v2) "rigs"
     = "https://di-api.drillinginfo.com/v2/direct-access/rigs".
Proof. vm_compute. split_and!; reflexivity. Qed.

(** The hook on a 400: the kind of the exception follows from whether the
    text ["tokens"] occurs in the URL of the response. *)
Lemma check_response_400 (send : PreparedRequest.t -> M Response.t)
    (get_access_token : M json) (response : Response.t) (s : St.t) :
  Response.status_code response = 400%Z ->
  BaseAPI._check_response send get_access_token response s
  = (Raised (if Py.contains "tokens" (Response.url response)
             then DAAuthException
                    ("Error getting token. Code: " +:+ pretty 400%Z
                     +:+ " Message: " +:+ Response.text response)
             else DAQueryException (Response.text response)), s).
Proof.
  intros Hcode. unfold BaseAPI._check_response, Response.ok. rewrite Hcode.
  change (negb (negb ((400 <=? 400)%Z && (400 <? 600)%Z))) with true.
  change ((400 =? 400)%Z) with true. cbv iota.
  by destruct (Py.contains "tokens" (Response.url response)).
Qed.

(** C8: [query("wells", wellname="tokens")] is answered 400.  The request
    went to the data endpoint of [wells], yet the exception is the
    [DAAuthException] meant for the token endpoint, because the URL has the
    text ["tokens"] in its query string. *)
Theorem bad_request_with_tokens_in_url_raises_auth_error :
  Client.sent_urls Scenario.refused_run.2
  = ["https://di-api.drillinginfo.com/v2/direct-access/wells?wellname=tokens"]
  /\ Py.os_path_join (St.url Scenario.v2) "tokens"
     = "https://di-api.drillinginfo.com/v2/direct-access/tokens"
  /\ Scenario.refused_run.1
     = Raised (DAAuthException
                 "Error getting token. Code: 400 Message: Invalid filter")
  /\ (forall msg, Scenario.refused_run.1 <> Raised (DAQueryException msg)).
Proof. vm_compute. split_and!; try reflexivity. intros msg. discriminate. Qed.

(** C10: the [_headers] of a v3 query carry the omit flag first and a second
    header after it.  Both go out with the request of that query, and the
    flag stays in the session headers and goes out with the next query; the
    second header is not written to the session, because the scan returns as
    soon as it has seen the flag.  With the same two headers in the other
    order both are written. *)
Theorem headers_after_omit_flag_not_persisted :
  Scenario.sent_header "X-Omit-Header-Next-Links" Scenario.flag_first_run.2
  = [Some "true"]
  /\ Scenario.sent_header "X-Trace" Scenario.flag_first_run.2 = [Some "abc"]
  /\ Http.get_header "X-Omit-Header-Next-Links"
       (St.session_headers Scenario.flag_first_run.2) = Some "true"
  /\ Http.get_header "X-Trace" (St.session_headers Scenario.flag_first_run.2)
     = None
  /\ Scenario.sent_header "X-Omit-Header-Next-Links"
       Scenario.rigs_after_flag_first.2 = [Some "true"]
  /\ Scenario.sent_header "X-Trace" Scenario.rigs_after_flag_first.2 = [None]
  /\ Http.get_header "X-Trace" (St.session_headers Scenario.flag_last_run.2)
     = Some "abc"
  /\ Http.get_header "X-Omit-Header-Next-Links"
       (St.session_headers Scenario.flag_last_run.2) = Some "true".
Proof. vm_compute. split_and!; reflexivity. Qed.

(** ** A paging sequence that ends with an empty batch *)

Section Sequence.

Implicit Types (s : St.t) (options : list (string * scalar))
  (plan : BaseAPI.chunk_plan) (pages : list (Reply.t * list json * string)).

Lemma getitem_contains {V} (k : string) (d : list (string * V)) (v : V) :
  Dict.getitem k d = Ok v -> Dict.contains k d = true.
Proof.
  unfold Dict.getitem, Dict.contains.
  induction d as [|[k' v'] d IH]; [done|].
  cbn. destruct (String.eqb k' k); [done|]. exact IH.
Qed.

(** After a page that links to a next one, the next request goes to that
    link, and neither the options nor the plan change. *)
Lemma next_request_after_page query_url options plan response records next s :
  BaseAPI.next_url (Some (Response.links response)) = Ok next ->
  BaseAPI.next_request query_url options plan
    (BaseAPI.batched response records s)
  = Ok (BaseAPI.get_request (Py.drop_last (St.url s) +:+ next) []
          (BaseAPI.batched response records s), options, plan).
Proof.
  intros Hnext. pose proof Hnext as Hcontains. unfold BaseAPI.next_url in Hcontains.
  destruct (Dict.getitem "next" (Response.links response)) as [link|] eqn:Hlink;
    [|done].
  apply getitem_contains in Hlink.
  unfold BaseAPI.next_request. rewrite links_batched, url_batched, Hlink, Hnext.
  destruct (Response.links response) as [|item links]; [done|]. done.
Qed.


(** From a state whose next request is known: the replies are pages that
    link on, then an empty batch.  The loop hands out the records of all the
    pages in order, follows each link, clears the links on the empty batch,
    and then moves on to the next pending subset or ends. *)
Lemma query_loop_sequence (sf : nat) (query_url p : string) (paging : scalar)
    (last : Reply.t) (rest : list Reply.t) pages :
  BaseAPI.paging_lower paging = Ok p ->
  String.eqb p "false" = false ->
  BaseAPI.is_empty_page last ->
  Forall (fun page => BaseAPI.is_page page.1.2 page.2 page.1.1) pages ->
  forall fuel s request options plan options' plan',
    BaseAPI.next_request query_url options plan s
    = Ok (request, options', plan') ->
    St.script s = map (fun page => page.1.1) pages ++ last :: rest ->
    St.demand s = None ->
    exists s',
      BaseAPI.query_loop (Client.send (S sf)) (length pages + S fuel)
        query_url paging options plan s
      = (if BaseAPI.pending plan'
         then BaseAPI.query_loop (Client.send (S sf)) fuel query_url paging
                options' plan' s'
         else (Return tt, s'))
      /\ Client.yielded s'
         = Client.yielded s ++ concat (map (fun page => page.1.2) pages)
      /\ Client.sent_urls s'
         = Client.sent_urls s
           ++ PreparedRequest.url request
              :: map (fun page => Py.drop_last (St.url s) +:+ page.2) pages
      /\ St.links s' = None
      /\ St.script s' = rest
      /\ St.demand s' = None
      /\ St.url s' = St.url s
      /\ St.session_headers s' = St.session_headers s.
Proof.
  intros Hp Hfalse [Hlast_ok Hlast_json].
  induction 1 as [|[[r records] next] pages (Hok & Hjson & Hne & Hnext) _ IH];
    intros fuel s request options plan options' plan' Hreq Hs Hd.
  - cbn [map app length plus] in *.
    exists (St.set_links None (Session.sent request rest s)).
    split.
    + apply (query_loop_empty _ _ _ _ _ _ _ _ _ _
               (Response.of_reply last request) _ (JArr []) Hreq);
        [by apply send_ok|done|done|done].
    + unfold Client.yielded, Client.sent_urls. stsimpl.
      rewrite !omap_app. cbn. by rewrite !app_nil_r.
  - cbn [map app length plus fst snd] in *.
    rewrite (query_loop_batch _ _ _ _ _ _ _ _ _ _
               (Response.of_reply r request)
               (Session.sent request (map (fun page => page.1.1) pages ++ last :: rest) s)
               (JArr records) records Hreq);
      [|by apply send_ok|done|done|done|done|done].
    set (s1 := BaseAPI.batched _ _ _).
    assert (St.links s1 = Some (Reply.links r)) as Hlinks.
    { unfold s1. rewrite links_batched. stsimpl.
      unfold BaseAPI.next_url in Hnext.
      destruct (Dict.getitem "next" (Reply.links r)) eqn:Hl; [|done].
      by rewrite (getitem_contains _ _ _ Hl). }
    rewrite Hlinks, Hp, Hfalse.
    destruct (IH fuel s1
                (BaseAPI.get_request
                   (Py.drop_last (St.url (Session.sent request
                      (map (fun page => page.1.1) pages ++ last :: rest) s))
                    +:+ next) [] s1)
                options' plan' options' plan')
      as (s' & Hrun & Hy & Hsent & Hl & Hscr & Hdem & Hurl & Hh).
    + apply next_request_after_page. exact Hnext.
    + unfold s1. by rewrite script_batched.
    + unfold s1. by rewrite demand_batched.
    + exists s'. split; [exact Hrun|].
      rewrite Hy, Hsent, Hl, Hscr, Hdem, Hurl, Hh.
      unfold s1.
      rewrite yielded_batched, sent_urls_batched, url_batched,
        session_headers_batched, yielded_sent, sent_urls_sent.
      cbn [concat map]. rewrite <- !app_assoc.
      split_and!; done.
Qed.

End Sequence.

(** ** Whole queries against a server that closes each sequence with an
    empty batch *)

Section Queries.

Implicit Types (s : St.t) (options : list (string * scalar)).

Lemma remove_absent {V} (k : string) (d : list (string * V)) :
  Dict.lookup k d = None -> Dict.remove k d = d.
Proof.
  unfold Dict.remove. induction d as [|[k' v] d IH]; [done|].
  cbn. destruct (String.eqb k' k); [done|]. cbn. intros H. by rewrite IH.
Qed.

(** X15: A query without a chunk plan on an instance without a continuation
    link: the records of all pages are yielded in order across the page
    boundaries, the empty batch ends the generator, and no link is left. *)
Theorem query_pages_until_empty_batch (fuel : nat) (dataset : string) options
    s (ps : BaseAPI.pages) (last : Reply.t) (rest : list Reply.t) :
  BaseAPI.links_truthy (St.links s) = false ->
  Dict.lookup "paging" options = None ->
  BaseAPI.plan_chunks options = Ok None ->
  BaseAPI.is_sequence ps last ->
  St.script s = BaseAPI.sequence_replies ps last ++ rest ->
  St.demand s = None ->
  length ps < fuel ->
  exists s',
    Client.DirectAccessV2_query fuel dataset options s = (Return tt, s')
    /\ Client.yielded s' = Client.yielded s ++ BaseAPI.sequence_records ps
    /\ Client.sent_urls s'
       = Client.sent_urls s
         ++ Http.prepare_url (Py.os_path_join (St.url s) dataset) options
            :: BaseAPI.sequence_links (St.url s) ps
    /\ St.links s' = None
    /\ St.script s' = rest.
Proof.
  intros Hlinks Hpaging Hplan [Hps Hlast] Hs Hd Hfuel.
  unfold Client.DirectAccessV2_query, BaseAPI.query, Generator.start.
  mrun. rewrite Hd, Hplan, Hpaging. mrun. cbn [default from_option].
  rewrite (remove_absent _ _ Hpaging).
  destruct fuel as [|sf]; [lia|].
  destruct (query_loop_sequence sf (Py.os_path_join (St.url s) dataset) "true"
              (SStr "true") last rest ps eq_refl eq_refl Hlast Hps
              (sf - length ps) s
              (BaseAPI.get_request (Py.os_path_join (St.url s) dataset) options s)
              options None options None)
    as (s' & Hrun & Hy & Hsent & Hl & Hscr & _).
  - unfold BaseAPI.next_request. by rewrite Hlinks.
  - rewrite Hs. unfold BaseAPI.sequence_replies. by rewrite <- app_assoc.
  - exact Hd.
  - replace (length ps + S (sf - length ps)) with (S sf) in Hrun by lia.
    exists s'. split; [exact Hrun|]. split_and!; done.
Qed.


Lemma setitem_setitem {V} (k : string) (v w : V) (d : list (string * V)) :
  Dict.setitem k v (Dict.setitem k w d) = Dict.setitem k v d.
Proof.
  induction d as [|[k' v'] d IH]; cbn.
  - by rewrite String.eqb_refl.
  - destruct (String.eqb k' k) eqn:E; cbn; rewrite ?String.eqb_refl, ?E; [done|].
    by rewrite IH.
Qed.

(** The loop under a chunk plan on an instance without a continuation
    link: for each subset in order the request carries that subset in the
    field of the plan, its pages are followed to the empty batch, and the
    records of all subsets are yielded in order. *)
Lemma query_loop_chunks (sf : nat) (query_url p field : string) (paging : scalar) :
  BaseAPI.paging_lower paging = Ok p ->
  String.eqb p "false" = false ->
  forall (rounds : list (list string * BaseAPI.pages * Reply.t))
         (round : list string * BaseAPI.pages * Reply.t)
         (fuel : nat) s options (rest : list Reply.t),
    Forall (fun rd => BaseAPI.is_sequence rd.1.2 rd.2) (round :: rounds) ->
    BaseAPI.links_truthy (St.links s) = false ->
    St.demand s = None ->
    St.script s
    = flat_map (fun rd => BaseAPI.sequence_replies rd.1.2 rd.2) (round :: rounds)
      ++ rest ->
    exists s',
      BaseAPI.query_loop (Client.send (S sf))
        (sum_list_with (fun rd => S (length rd.1.2)) (round :: rounds) + fuel)
        query_url paging options
        (Some (field, map (fun rd => rd.1.1) (round :: rounds))) s
      = (Return tt, s')
      /\ Client.yielded s'
         = Client.yielded s
           ++ flat_map (fun rd => BaseAPI.sequence_records rd.1.2) (round :: rounds)
      /\ Client.sent_urls s'
         = Client.sent_urls s
           ++ flat_map
                (fun rd =>
                   Http.prepare_url query_url
                     (Dict.setitem field
                        (SStr ("in(" +:+ Py.join "," rd.1.1 +:+ ")")) options)
                   :: BaseAPI.sequence_links (St.url s) rd.1.2)
                (round :: rounds)
      /\ St.links s' = None
      /\ St.script s' = rest
      /\ St.demand s' = None.
Proof.
  intros Hp Hfalse rounds.
  induction rounds as [|round' rounds IH];
    intros [[chunk ps] last] fuel s options rest Hseq Hlinks Hd Hs;
    apply Forall_cons in Hseq as [[Hps Hlast] Hseq];
    cbn [fst snd] in Hps, Hlast.
  - cbn [map flat_map sum_list_with fst snd app] in *.
    rewrite app_nil_r in Hs.
    match goal with
    | |- context [BaseAPI.query_loop _ ?n] =>
        replace n with (length ps + S fuel) by lia
    end.
    destruct (query_loop_sequence sf query_url p paging last rest ps
                Hp Hfalse Hlast Hps fuel s
                (BaseAPI.get_request query_url
                   (Dict.setitem field
                      (SStr ("in(" +:+ Py.join "," chunk +:+ ")")) options) s)
                options (Some (field, [chunk]))
                (Dict.setitem field
                   (SStr ("in(" +:+ Py.join "," chunk +:+ ")")) options)
                (Some (field, [])))
      as (s' & Hrun & Hy & Hsent & Hl & Hscr & Hdem & _).
    + unfold BaseAPI.next_request. rewrite Hlinks.
      cbn [BaseAPI.in_ result_bind]. by rewrite map_str_SStr.
    + rewrite Hs. unfold BaseAPI.sequence_replies. by rewrite <- app_assoc.
    + exact Hd.
    + exists s'. split; [exact Hrun|].
      rewrite !app_nil_r. split_and!; done.
  - cbn [map flat_map sum_list_with fst snd] in *.
    match goal with
    | |- context [BaseAPI.query_loop _ ?n] =>
        replace n
          with (length ps
                + S ((S (length round'.1.2)
                      + sum_list_with (fun rd => S (length rd.1.2)) rounds)
                     + fuel))
          by lia
    end.
    destruct (query_loop_sequence sf query_url p paging last
                (flat_map (fun rd => BaseAPI.sequence_replies rd.1.2 rd.2)
                   (round' :: rounds) ++ rest) ps
                Hp Hfalse Hlast Hps
                ((S (length round'.1.2)
                  + sum_list_with (fun rd => S (length rd.1.2)) rounds) + fuel) s
                (BaseAPI.get_request query_url
                   (Dict.setitem field
                      (SStr ("in(" +:+ Py.join "," chunk +:+ ")")) options) s)
                options
                (Some (field, chunk :: round'.1.1 :: map (fun rd => rd.1.1) rounds))
                (Dict.setitem field
                   (SStr ("in(" +:+ Py.join "," chunk +:+ ")")) options)
                (Some (field, round'.1.1 :: map (fun rd => rd.1.1) rounds)))
      as (s1 & Hrun & Hy & Hsent & Hl & Hscr & Hdem & Hurl & _).
    + unfold BaseAPI.next_request. rewrite Hlinks.
      cbn [BaseAPI.in_ result_bind]. by rewrite map_str_SStr.
    + rewrite Hs. unfold BaseAPI.sequence_replies.
      cbn [flat_map]. by rewrite <- !app_assoc.
    + exact Hd.
    + cbn [BaseAPI.pending] in Hrun.
      destruct (IH round' fuel s1
                  (Dict.setitem field
                     (SStr ("in(" +:+ Py.join "," chunk +:+ ")")) options)
                  rest Hseq)
        as (s' & Hrun' & Hy' & Hsent' & Hl' & Hscr' & Hdem').
      * by rewrite Hl.
      * exact Hdem.
      * exact Hscr.
      * exists s'. split; [by rewrite Hrun|].
        rewrite Hy', Hsent', Hy, Hsent, Hurl.
        cbn [flat_map map sum_list_with fst snd].
        rewrite !setitem_setitem.
        assert (forall rds : list (list string * BaseAPI.pages * Reply.t),
                  flat_map
                    (fun rd =>
                       Http.prepare_url query_url
                         (Dict.setitem field
                            (SStr ("in(" +:+ Py.join "," rd.1.1 +:+ ")"))
                            (Dict.setitem field
                               (SStr ("in(" +:+ Py.join "," chunk +:+ ")"))
                               options))
                       :: BaseAPI.sequence_links (St.url s) rd.1.2) rds
                  = flat_map
                      (fun rd =>
                         Http.prepare_url query_url
                           (Dict.setitem field
                              (SStr ("in(" +:+ Py.join "," rd.1.1 +:+ ")"))
                              options)
                         :: BaseAPI.sequence_links (St.url s) rd.1.2) rds)
          as ->.
        { intros rds. induction rds as [|rd rds IHr]; [done|].
          cbn [flat_map]. by rewrite setitem_setitem, IHr. }
        rewrite <- !app_assoc. split_and!; done.
Qed.


(** X16: A query with a chunk plan on an instance without a continuation link,
    against a server that closes the sequence of every subset with an empty
    batch: every subset of the plan is requested, in order, and the records
    of all of them are yielded. *)
Theorem query_chunks_until_empty_batches (fuel : nat) (dataset field : string)
    options s (round : list string * BaseAPI.pages * Reply.t)
    (rounds : list (list string * BaseAPI.pages * Reply.t))
    (rest : list Reply.t) :
  BaseAPI.links_truthy (St.links s) = false ->
  Dict.lookup "paging" options = None ->
  BaseAPI.plan_chunks options
  = Ok (Some (field, map (fun rd => rd.1.1) (round :: rounds))) ->
  Forall (fun rd => BaseAPI.is_sequence rd.1.2 rd.2) (round :: rounds) ->
  St.script s
  = flat_map (fun rd => BaseAPI.sequence_replies rd.1.2 rd.2) (round :: rounds)
    ++ rest ->
  St.demand s = None ->
  sum_list_with (fun rd => S (length rd.1.2)) (round :: rounds) <= fuel ->
  exists s',
    Client.DirectAccessV2_query fuel dataset options s = (Return tt, s')
    /\ Client.yielded s'
       = Client.yielded s
         ++ flat_map (fun rd => BaseAPI.sequence_records rd.1.2) (round :: rounds)
    /\ Client.sent_urls s'
       = Client.sent_urls s
         ++ flat_map
              (fun rd =>
                 Http.prepare_url (Py.os_path_join (St.url s) dataset)
                   (Dict.setitem field
                      (SStr ("in(" +:+ Py.join "," rd.1.1 +:+ ")")) options)
                 :: BaseAPI.sequence_links (St.url s) rd.1.2)
              (round :: rounds)
    /\ St.links s' = None
    /\ St.script s' = rest.
Proof.
  intros Hlinks Hpaging Hplan Hseq Hs Hd Hfuel.
  unfold Client.DirectAccessV2_query, BaseAPI.query, Generator.start.
  mrun. rewrite Hd, Hplan, Hpaging. mrun. cbn [default from_option].
  rewrite (remove_absent _ _ Hpaging).
  destruct fuel as [|sf]; [cbn in Hfuel; lia|].
  destruct (query_loop_chunks sf (Py.os_path_join (St.url s) dataset) "true"
              field (SStr "true") eq_refl eq_refl rounds round
              (S sf - sum_list_with (fun rd => S (length rd.1.2)) (round :: rounds))
              s options rest Hseq Hlinks Hd Hs)
    as (s' & Hrun & Hy & Hsent & Hl & Hscr & _).
  replace (sum_list_with (fun rd => S (length rd.1.2)) (round :: rounds)
           + (S sf - sum_list_with (fun rd => S (length rd.1.2)) (round :: rounds)))
    with (S sf) in Hrun by lia.
  exists s'. split; [exact Hrun|]. split_and!; done.
Qed.

End Queries.

(** ** The [_headers] of a v3 query and the session *)

Section Headers.

Implicit Types (s : St.t) (items : list (string * string)).

(** The scan writes the items it visits into the session headers, and
    those only; it answers whether one of them sets the omit flag. *)
Lemma omit_header_scan_visited items s :
  DeveloperAPIv3.omit_header_scan items s
  = (Return (existsb (fun kv => DeveloperAPIv3.is_omit_flag kv.1 kv.2) items),
     St.set_session_headers
       (fold_left (fun h kv => Http.set_header kv.1 kv.2 h)
          (DeveloperAPIv3.visited items) (St.session_headers s)) s).
Proof.
  revert s. induction items as [|[k v] items IH]; intros s.
  - cbn. unfold ret. f_equal. by st_eq.
  - cbn [DeveloperAPIv3.omit_header_scan DeveloperAPIv3.visited existsb fst snd].
    mrun. destruct (DeveloperAPIv3.is_omit_flag k v); mrun; cbn [orb].
    + f_equal.
    + rewrite IH. f_equal.
Qed.

(** A header that the scan visits last under its name is in the session
    afterwards. *)
Lemma visited_header_persists items k v s :
  DeveloperAPIv3.visited items = [(k, v)] ->
  Http.get_header k
    (St.session_headers (DeveloperAPIv3.omit_header_scan items s).2)
  = Some v.
Proof.
  intros H. rewrite omit_header_scan_visited, H. cbn. apply get_set_header.
Qed.

End Headers.

(** ** A page without a next link after a page with one *)

Section Stale.

Implicit Types (s : St.t) (options : list (string * scalar)).

(** The loop when the request stays unanswered. *)
Lemma query_loop_blocked (send : PreparedRequest.t -> M Response.t) fuel
    query_url paging options plan s request options' plan' h s1 :
  BaseAPI.next_request query_url options plan s = Ok (request, options', plan') ->
  send request s = (Halted h, s1) ->
  BaseAPI.query_loop send (S fuel) query_url paging options plan s
  = (Halted h, s1).
Proof.
  intros Hnext Hsend. cbn [BaseAPI.query_loop].
  apply bind_halted.
  rewrite (fetch_next_request _ _ _ _ _ _ _ _ Hnext).
  by apply bind_halted.
Qed.

(** X22: While a link is stored, replies that carry records but no next link do
    not end the loop: each of them is requested at the stored link and its
    records are yielded, and then the same link is requested again. *)
Lemma stale_link_repeats (sf : nat) (query_url p next : string)
    (paging : scalar) (r : Reply.t) (records : list json) options plan :
  BaseAPI.paging_lower paging = Ok p ->
  String.eqb p "false" = false ->
  Reply.ok r = true ->
  Reply.json r = Some (JArr records) ->
  records <> [] ->
  Dict.contains "next" (Reply.links r) = false ->
  forall (k fuel : nat) s,
    BaseAPI.links_truthy (St.links s) = true ->
    BaseAPI.next_url (St.links s) = Ok next ->
    St.script s = replicate k r ->
    St.demand s = None ->
    exists request s',
      BaseAPI.query_loop (Client.send (S sf)) (k + S fuel) query_url paging
        options plan s
      = (Halted (Blocked request), s')
      /\ PreparedRequest.url request = Py.drop_last (St.url s) +:+ next
      /\ Client.yielded s' = Client.yielded s ++ concat (replicate k records)
      /\ Client.sent_urls s'
         = Client.sent_urls s
           ++ replicate (S k) (Py.drop_last (St.url s) +:+ next).
Proof.
  intros Hp Hfalse Hok Hjson Hne Hnonext k.
  induction k as [|k IH]; intros fuel s Htruthy Hnext Hs Hd.
  - exists (BaseAPI.get_request (Py.drop_last (St.url s) +:+ next) [] s),
      (Session.sent (BaseAPI.get_request (Py.drop_last (St.url s) +:+ next) [] s)
         [] s).
    split.
    + apply (query_loop_blocked _ _ _ _ _ _ _
               (BaseAPI.get_request (Py.drop_last (St.url s) +:+ next) [] s)
               options plan).
      * unfold BaseAPI.next_request. by rewrite Htruthy, Hnext.
      * by apply send_blocked.
    + rewrite yielded_sent, sent_urls_sent. cbn. by rewrite app_nil_r.
  - cbn [plus replicate] in *.
    set (request := BaseAPI.get_request (Py.drop_last (St.url s) +:+ next) [] s).
    rewrite (query_loop_batch _ _ _ _ _ _ _ request options plan
               (Response.of_reply r request)
               (Session.sent request (replicate k r) s) (JArr records) records);
      [| unfold BaseAPI.next_request; by rewrite Htruthy, Hnext
       | by apply send_ok | done | done | done | done | done].
    set (s1 := BaseAPI.batched _ _ _).
    assert (St.links s1 = St.links s) as Hlinks.
    { unfold s1. rewrite links_batched. stsimpl. by rewrite Hnonext. }
    rewrite Hlinks.
    destruct (St.links s) as [l|] eqn:Hl; [|done].
    rewrite Hp, Hfalse.
    destruct (IH fuel s1) as (request' & s' & Hrun & Hurl & Hy & Hsent).
    + by rewrite Hlinks.
    + by rewrite Hlinks.
    + unfold s1. by rewrite script_batched.
    + unfold s1. by rewrite demand_batched.
    + exists request', s'. split; [exact Hrun|].
      rewrite Hurl, Hy, Hsent. unfold s1.
      rewrite url_batched, yielded_batched, sent_urls_batched,
        yielded_sent, sent_urls_sent.
      cbn [concat replicate]. rewrite <- !app_assoc. split_and!; done.
Qed.

End Stale.

(** ** [in_] and the value list that [query] reads back *)

Section RoundTrip.

Implicit Types (x body : string) (xs : list string).

Lemma plain_cons c x :
  Py.plain (String c x) = true ->
  Ascii.eqb c "," = false /\ Ascii.eqb c ")" = false
  /\ Ascii.eqb c "010" = false /\ Py.plain x = true.
Proof.
  cbn [Py.plain]. rewrite !andb_true_iff, !negb_true_iff. tauto.
Qed.

(** [split] leaves a text without commas whole, and cuts at the first comma
    after such a text. *)
Lemma split_plain x : Py.plain x = true -> Py.split "," x = [x].
Proof.
  induction x as [|c x IH]; [done|].
  intros (Hc & _ & _ & Hx)%plain_cons. cbn [Py.split]. by rewrite Hc, IH.
Qed.

Lemma split_plain_comma x t :
  Py.plain x = true -> Py.split "," (x +:+ "," +:+ t) = x :: Py.split "," t.
Proof.
  induction x as [|c x IH].
  - intros _. reflexivity.
  - intros (Hc & _ & _ & Hx)%plain_cons.
    rewrite append_cons. cbn [Py.split]. by rewrite Hc, IH.
Qed.

Lemma split_join xs :
  xs <> [] -> Forall (fun x => Py.plain x = true) xs ->
  Py.split "," (Py.join "," xs) = xs.
Proof.
  unfold Py.join. intros Hne H. induction H as [|x xs Hx Hxs IH]; [done|].
  destruct xs as [|y xs].
  - cbn [String.concat]. by apply split_plain.
  - cbn [String.concat]. rewrite split_plain_comma by done.
    f_equal. by apply IH.
Qed.

(** The group of [in\((.*?)\)] on a body of values without parentheses. *)
Lemma lazy_group_body body t :
  Forall (fun c => Ascii.eqb c ")" = false /\ Ascii.eqb c "010" = false)
    (list_ascii_of_string body) ->
  Py.lazy_group (body +:+ ")" +:+ t) = Some body.
Proof.
  induction body as [|c body IH]; cbn [list_ascii_of_string].
  - intros _. reflexivity.
  - intros [[Hp Hn] H]%Forall_cons. rewrite append_cons.
    cbn [Py.lazy_group]. rewrite Hp, Hn, IH by done. done.
Qed.

Lemma join_chars xs :
  Forall (fun x => Py.plain x = true) xs ->
  Forall (fun c => Ascii.eqb c ")" = false /\ Ascii.eqb c "010" = false)
    (list_ascii_of_string (Py.join "," xs)).
Proof.
  assert (forall x, Py.plain x = true ->
            Forall (fun c => Ascii.eqb c ")" = false /\ Ascii.eqb c "010" = false)
              (list_ascii_of_string x)) as Hone.
  { induction x as [|c x IH]; [constructor|].
    intros (_ & Hp & Hn & Hx)%plain_cons. constructor; auto. }
  assert (forall a b, list_ascii_of_string (a +:+ b)
                      = list_ascii_of_string a ++ list_ascii_of_string b) as Happ.
  { induction a as [|c a IH]; intros b; [done|].
    rewrite append_cons. cbn. by rewrite IH. }
  unfold Py.join. induction 1 as [|x xs Hx Hxs IH]; [constructor|].
  destruct xs as [|y xs]; cbn [String.concat].
  - by apply Hone.
  - rewrite !Happ. apply Forall_app. split; [by apply Hone|].
    apply Forall_app. split; [|exact IH].
    constructor; [done|constructor].
Qed.

(** X5: What [query] reads back from an expression made by [in_] is the list of
    the stringified items, provided each is a plain value. *)
Lemma in_values_in_ (items : list scalar) (e : string) :
  items <> [] ->
  Forall (fun item => Py.plain (Py.str item) = true) items ->
  BaseAPI.in_ (PList items) = Ok e ->
  BaseAPI.in_values (SStr e) = Ok (map Py.str items).
Proof.
  intros Hne Hplain [= <-].
  assert (Forall (fun x => Py.plain x = true) (map Py.str items)) as Hp
      by (by apply Forall_fmap).
  cbn [BaseAPI.in_values].
  assert (Py.re_split_in_1 ("in(" +:+ Py.join "," (map Py.str items) +:+ ")")
          = Ok (Py.join "," (map Py.str items))) as ->.
  { change ("in(" +:+ Py.join "," (map Py.str items) +:+ ")")
      with (String "i" ("n(" +:+ Py.join "," (map Py.str items) +:+ ")")).
    cbn [Py.re_split_in_1].
    change (String "i" ("n(" +:+ Py.join "," (map Py.str items) +:+ ")"))
      with ("in(" +:+ Py.join "," (map Py.str items) +:+ ")").
    rewrite prefix_append.
    change (Py.drop_str 3 ("in(" +:+ Py.join "," (map Py.str items) +:+ ")"))
      with (Py.join "," (map Py.str items) +:+ ")" +:+ "").
    by rewrite lazy_group_body by (by apply join_chars). }
  cbn [result_bind]. rewrite split_join; [done| |done].
  by destruct items.
Qed.

End RoundTrip.

(** ** The example of the specification, with the server closing the
    sequence by an empty batch *)

Lemma query_pages_until_empty_batch_witness :
  exists s',
    Client.DirectAccessV2_query 3 "wells" [("pagesize", SInt 2%Z)]
      (St.set_script
         [Scenario.wells_page1;
          Scenario.page [Scenario.record 3] (Some "/wells?pagesize=2&page=3");
          Scenario.page [] None] Scenario.v2)
    = (Return tt, s')
    /\ Client.yielded s'
       = [Scenario.record 1; Scenario.record 2; Scenario.record 3]
    /\ St.links s' = None
    /\ St.script s' = [].
Proof.
  destruct (query_pages_until_empty_batch 3 "wells" [("pagesize", SInt 2%Z)]
              (St.set_script
                 [Scenario.wells_page1;
                  Scenario.page [Scenario.record 3] (Some "/wells?pagesize=2&page=3");
                  Scenario.page [] None] Scenario.v2)
              [(Scenario.wells_page1, [Scenario.record 1; Scenario.record 2],
                "/wells?pagesize=2&page=2");
               (Scenario.page [Scenario.record 3] (Some "/wells?pagesize=2&page=3"),
                [Scenario.record 3], "/wells?pagesize=2&page=3")]
              (Scenario.page [] None) [])
    as (s' & Hrun & Hy & _ & Hl & Hs).
  - reflexivity.
  - reflexivity.
  - reflexivity.
  - split; [|by split].
    repeat constructor; discriminate.
  - reflexivity.
  - reflexivity.
  - simpl. lia.
  - exists s'. auto.
Defined.

(** A filter of 400 values in two subsets, each answered by one page and an
    empty batch: both subsets are requested and the records of both are
    yielded. *)
Lemma query_chunks_until_empty_batches_witness :
  exists s',
    Client.DirectAccessV2_query 4 "wells" [("api", SStr Scenario.ids_expr)]
      (St.set_script
         [Scenario.page [Scenario.record 1] (Some "/wells?page=2");
          Scenario.page [] None;
          Scenario.page [Scenario.record 2] (Some "/wells?page=2");
          Scenario.page [] None] Scenario.v2)
    = (Return tt, s')
    /\ Client.yielded s' = [Scenario.record 1; Scenario.record 2]
    /\ length (Client.sent_urls s') = 4
    /\ St.script s' = [].
Proof.
  destruct (query_chunks_until_empty_batches 4 "wells" "api"
              [("api", SStr Scenario.ids_expr)]
              (St.set_script
                 [Scenario.page [Scenario.record 1] (Some "/wells?page=2");
                  Scenario.page [] None;
                  Scenario.page [Scenario.record 2] (Some "/wells?page=2");
                  Scenario.page [] None] Scenario.v2)
              (repeat "12345" 390,
               [(Scenario.page [Scenario.record 1] (Some "/wells?page=2"),
                 [Scenario.record 1], "/wells?page=2")],
               Scenario.page [] None)
              [(repeat "12345" 10,
                [(Scenario.page [Scenario.record 2] (Some "/wells?page=2"),
                  [Scenario.record 2], "/wells?page=2")],
                Scenario.page [] None)]
              [])
    as (s' & Hrun & Hy & Hsent & _ & Hs).
  - reflexivity.
  - reflexivity.
  - vm_compute. reflexivity.
  - repeat constructor; discriminate.
  - reflexivity.
  - reflexivity.
  - simpl. lia.
  - exists s'. split; [exact Hrun|]. split; [exact Hy|]. split; [|exact Hs].
    rewrite Hsent. reflexivity.
Defined.

(** ** [_chunks]: the windows *)

Section MoreChunks.

Context {A : Type}.
Implicit Types (xs : list A).

Lemma range_from_length n stop :
  0 < n ->
  forall fuel start,
    stop - start <= fuel ->
    length (Py.range_from fuel start stop n) = (stop - start + n - 1) / n.
Proof.
  intros Hn. induction fuel as [|fuel IH]; intros start Hfuel.
  - cbn. replace (stop - start + n - 1) with (n - 1) by lia.
    symmetry. apply Nat.div_small. lia.
  - cbn [Py.range_from]. destruct (start <? stop) eqn:E.
    + apply Nat.ltb_lt in E. cbn [length]. rewrite IH by lia.
      destruct (decide (start + n <= stop)) as [Hle|Hgt].
      * replace (stop - start + n - 1) with (stop - (start + n) + n - 1 + 1 * n) by lia.
        rewrite Nat.div_add by lia. lia.
      * replace (stop - (start + n) + n - 1) with (n - 1) by lia.
        rewrite (Nat.div_small (n - 1)) by lia.
        apply (Nat.div_unique _ _ 1 (stop - start - 1)); lia.
    + apply Nat.ltb_ge in E. cbn.
      replace (stop - start + n - 1) with (n - 1) by lia.
      symmetry. apply Nat.div_small. lia.
Qed.

(** X1: [_chunks] with a positive size: the chunks are the consecutive windows
    of [n] items, the last one maybe shorter; there are
    [ceil(len(iterable) / n)] of them and together they are the input. *)
Theorem _chunks_windows xs n :
  0 < n ->
  exists cs,
    _chunks xs n = Ok cs
    /\ concat cs = xs
    /\ length cs = (length xs + n - 1) / n
    /\ forall i, i < length cs -> cs !! i = Some (take n (drop (i * n) xs)).
Proof.
  intros Hn. destruct (_chunks_pos xs n Hn) as [cs Hcs].
  exists cs. split_and!; [done|by eapply _chunks_concat| |].
  - unfold _chunks, Py.range0 in Hcs.
    destruct (n =? 0) eqn:E; [apply Nat.eqb_eq in E; lia|].
    cbn [result_bind] in Hcs. injection Hcs as <-.
    rewrite length_map, range_from_length by lia.
    by rewrite Nat.sub_0_r.
  - intros i Hi. destruct (lookup_lt_is_Some_2 cs i Hi) as [c Hc].
    rewrite Hc. f_equal. by eapply _chunks_lookup.
Qed.

End MoreChunks.

Lemma _chunks_windows_witness :
  exists cs,
    _chunks [1; 2; 3; 4; 5] 2 = Ok cs
    /\ concat cs = [1; 2; 3; 4; 5]
    /\ length cs = (length [1; 2; 3; 4; 5] + 2 - 1) / 2
    /\ forall i, i < length cs -> cs !! i = Some (take 2 (drop (i * 2) [1; 2; 3; 4; 5])).
Proof. apply (_chunks_windows [1; 2; 3; 4; 5] 2). lia. Defined.

(** ** The chunk plan: degenerate sizes and the last oversized option *)

Section MorePlan.

Implicit Types (options before after : list (string * scalar)) (v : scalar)
  (s : St.t).

Lemma scan_raise options e :
  fold_left BaseAPI.scan_option options (Raise e) = Raise e.
Proof. induction options as [|item options IH]; [done|]. exact IH. Qed.

Lemma plan_scan_raise before field v after acc e :
  BaseAPI.plan_chunks before = Ok acc ->
  BaseAPI.scan_option (Ok acc) (field, v) = Raise e ->
  BaseAPI.plan_chunks (before ++ (field, v) :: after) = Raise e.
Proof.
  unfold BaseAPI.plan_chunks. intros Hb Hs.
  rewrite fold_left_app, Hb. cbn [fold_left]. rewrite Hs. apply scan_raise.
Qed.

(** An error of the scan of the options comes out of the generator before
    any request is made. *)
Lemma query_plan_raise (send : PreparedRequest.t -> M Response.t) fuel dataset
    options e s :
  BaseAPI.plan_chunks options = Raise e ->
  St.demand s <> Some 0 ->
  BaseAPI.query send fuel dataset options s = (Raised e, s).
Proof.
  intros Hplan Hd. unfold BaseAPI.query, Generator.start. mrun.
  destruct (St.demand s) as [[|n]|]; [done| |]; mrun; by rewrite Hplan.
Qed.

(** X3: The subset size is [floor(1950 / len(max(values)))], with [len] the
    number of characters: when the greatest
    value is longer than 1950 characters the size is 0 and [_chunks] raises
    the [ValueError] of [range]; when it is empty the division raises.
    Either way the query raises at its first [next], before any request. *)
Theorem query_degenerate_chunksize (fuel : nat) (dataset field : string)
    before after v (acc : BaseAPI.chunk_plan) (values : list string)
    (m : string) s :
  BaseAPI.plan_chunks before = Ok acc ->
  BaseAPI.oversized v = true ->
  BaseAPI.in_values v = Ok values ->
  Py.max_str values = Ok m ->
  Py.len m = 0 \/ 1950 < Py.len m ->
  St.demand s <> Some 0 ->
  Client.DirectAccessV2_query fuel dataset (before ++ (field, v) :: after) s
  = (Raised (if Py.len m =? 0 then ZeroDivisionError
             else ValueError "range() arg 3 must not be zero"), s).
Proof.
  intros Hb Hov Hvalues Hmax Hm Hd.
  unfold Client.DirectAccessV2_query.
  apply (query_plan_raise (Client.send fuel)); [|exact Hd].
  apply (plan_scan_raise _ _ _ _ acc); [exact Hb|].
  unfold BaseAPI.scan_option. cbn [result_bind]. rewrite Hov, Hvalues.
  cbn [result_bind]. unfold BaseAPI.chunksize. rewrite Hmax. cbn [result_bind].
  destruct (Py.len m =? 0) eqn:E; [done|].
  apply Nat.eqb_neq in E. destruct Hm as [Hm|Hm]; [lia|].
  cbn [result_bind]. rewrite Nat.div_small by lia.
  unfold _chunks, Py.range0. done.
Qed.

(** X4: An oversized option whose text has no [in(...)] the pattern matches:
    the index into the split is out of range, and the query raises
    [IndexError] at its first [next], before any request. *)
Theorem query_unclosed_in_expression (fuel : nat) (dataset field : string)
    before after (text : string) (acc : BaseAPI.chunk_plan) s :
  BaseAPI.plan_chunks before = Ok acc ->
  BaseAPI.oversized (SStr text) = true ->
  Py.re_split_in_1 text = Raise IndexError ->
  St.demand s <> Some 0 ->
  Client.DirectAccessV2_query fuel dataset (before ++ (field, SStr text) :: after) s
  = (Raised IndexError, s).
Proof.
  intros Hb Hov Hsplit Hd.
  unfold Client.DirectAccessV2_query.
  apply (query_plan_raise (Client.send fuel)); [|exact Hd].
  apply (plan_scan_raise _ _ _ _ acc); [exact Hb|].
  unfold BaseAPI.scan_option. cbn [result_bind]. rewrite Hov.
  unfold BaseAPI.in_values. by rewrite Hsplit.
Qed.

(** X2: The scan keeps one plan: each oversized option overwrites the plan of
    the ones before it, so the plan is that of the last oversized option
    alone. *)
Theorem plan_last_oversized_wins before after (field : string) v
    (acc : BaseAPI.chunk_plan) :
  BaseAPI.plan_chunks before = Ok acc ->
  BaseAPI.oversized v = true ->
  Forall (fun item => BaseAPI.oversized item.2 = false) after ->
  BaseAPI.plan_chunks (before ++ (field, v) :: after)
  = BaseAPI.plan_chunks [(field, v)].
Proof.
  unfold BaseAPI.plan_chunks. intros Hb Hov Hafter.
  rewrite fold_left_app, Hb. cbn [fold_left].
  rewrite scan_skip by exact Hafter.
  unfold BaseAPI.scan_option. cbn [result_bind]. by rewrite Hov.
Qed.

End MorePlan.

Lemma query_degenerate_chunksize_witness :
  Client.DirectAccessV2_query 5 "wells"
    ([("pagesize", SInt 2%Z)] ++ ("api", SStr Case.long_expr) :: []) Scenario.v2
  = (Raised (if Py.len Case.long_value =? 0 then ZeroDivisionError
             else ValueError "range() arg 3 must not be zero"), Scenario.v2).
Proof.
  apply (query_degenerate_chunksize 5 "wells" "api" [("pagesize", SInt 2%Z)] []
           (SStr Case.long_expr) None [Case.long_value] Case.long_value
           Scenario.v2).
  - reflexivity.
  - vm_compute. reflexivity.
  - vm_compute. reflexivity.
  - reflexivity.
  - right. vm_compute. lia.
  - discriminate.
Defined.

Lemma query_unclosed_in_expression_witness :
  Client.DirectAccessV2_query 5 "wells"
    ([] ++ ("api", SStr ("in(" +:+ Case.long_value)) :: []) Scenario.v2
  = (Raised IndexError, Scenario.v2).
Proof.
  apply (query_unclosed_in_expression 5 "wells" "api" [] []
           ("in(" +:+ Case.long_value) None Scenario.v2).
  - reflexivity.
  - vm_compute. reflexivity.
  - vm_compute. reflexivity.
  - discriminate.
Defined.

Lemma plan_last_oversized_wins_witness :
  BaseAPI.plan_chunks
    ([("api", SStr Scenario.ids_expr)] ++ ("uid", SStr Scenario.ones_expr)
       :: [("pagesize", SInt 2%Z)])
  = BaseAPI.plan_chunks [("uid", SStr Scenario.ones_expr)].
Proof.
  apply (plan_last_oversized_wins [("api", SStr Scenario.ids_expr)]
           [("pagesize", SInt 2%Z)] "uid" (SStr Scenario.ones_expr)
           (Some ("api", [repeat "12345" 390; repeat "12345" 10]))).
  - vm_compute. reflexivity.
  - vm_compute. reflexivity.
  - repeat constructor.
Defined.

(** ** Examples of the round trip and of the repeated link *)

Lemma in_values_in__witness :
  BaseAPI.in_values (SStr "in(1,ab,None)") = Ok (map Py.str [SInt 1; SStr "ab"; SNone]).
Proof.
  apply (in_values_in_ [SInt 1; SStr "ab"; SNone] "in(1,ab,None)").
  - discriminate.
  - repeat constructor.
  - reflexivity.
Defined.

Lemma stale_link_repeats_witness :
  exists request s',
    BaseAPI.query_loop (Client.send 1) (2 + 1)
      "https://di-api.drillinginfo.com/v2/direct-access/wells" (SStr "true")
      [] None
      (St.set_script (replicate 2 Scenario.wells_page2)
         (St.set_links (Some (Scenario.next_link "/wells?page=2")) Scenario.v2))
    = (Halted (Blocked request), s')
    /\ PreparedRequest.url request
       = "https://di-api.drillinginfo.com/v2/direct-access/wells?page=2"
    /\ Client.yielded s' = [Scenario.record 3; Scenario.record 3]
    /\ Client.sent_urls s'
       = replicate 3 "https://di-api.drillinginfo.com/v2/direct-access/wells?page=2".
Proof.
  destruct (stale_link_repeats 0
              "https://di-api.drillinginfo.com/v2/direct-access/wells" "true"
              "/wells?page=2" (SStr "true") Scenario.wells_page2
              [Scenario.record 3] [] None eq_refl eq_refl eq_refl eq_refl
              ltac:(discriminate) eq_refl 2 0
              (St.set_script (replicate 2 Scenario.wells_page2)
                 (St.set_links (Some (Scenario.next_link "/wells?page=2"))
                    Scenario.v2)))
    as (request & s' & Hrun & Hurl & Hy & Hsent).
  - reflexivity.
  - reflexivity.
  - reflexivity.
  - reflexivity.
  - exists request, s'. split; [exact Hrun|]. split; [exact Hurl|].
    split; [exact Hy|exact Hsent].
Defined.

(** ** The hook, status by status *)

Section MoreSend.

Implicit Types (s : St.t) (r : Reply.t) (request : PreparedRequest.t).

(** A response that the transport hands back goes to the hook. *)
Lemma send_hook fuel request s r rest :
  St.script s = r :: rest ->
  Session.gives_up request r = false ->
  Client.send (S fuel) request s
  = bind (BaseAPI._check_response (Client.send fuel)
            (Client.get_access_token (Client.send fuel))
            (Response.of_reply r request))
      (fun hooked => ret (default (Response.of_reply r request) hooked))
      (Session.sent request rest s).
Proof.
  intros Hs Hg. rewrite send_unfold.
  by rewrite (bind_return _ _ _ _ _ (adapter_send_reply _ _ _ _ Hs Hg)).
Qed.

(** An error status without a branch in the hook: the response goes back to
    the caller as it is. *)
Lemma send_unhandled fuel request s r rest :
  St.script s = r :: rest ->
  existsb (Z.eqb (Reply.status_code r)) Session.status_forcelist = false ->
  Reply.status_code r <> 400%Z -> Reply.status_code r <> 401%Z ->
  Reply.status_code r <> 404%Z ->
  Reply.status_code r <> 403%Z
  \/ Py.contains "tokens" (PreparedRequest.url request) = false ->
  Client.send (S fuel) request s
  = (Return (Response.of_reply r request), Session.sent request rest s).
Proof.
  intros Hs Hforced H400 H401 H404 H403.
  rewrite (send_hook _ _ _ _ _ Hs (gives_up_status _ _ Hforced)).
  unfold BaseAPI._check_response. stsimpl.
  destruct (negb _); [|done].
  apply Z.eqb_neq in H400, H401, H404. rewrite H400, H401, H404.
  destruct H403 as [H403%Z.eqb_neq|H403]; rewrite H403;
    rewrite ?andb_false_r; done.
Qed.

End MoreSend.

(** X7: A 404, whatever the request: [DADatasetException], and the request is
    not sent again. *)
Theorem send_404_raises_dataset_error (fuel : nat) (request : PreparedRequest.t)
    (s : St.t) (r : Reply.t) (rest : list Reply.t) :
  St.script s = r :: rest ->
  Reply.status_code r = 404%Z ->
  Client.send (S fuel) request s
  = (Raised (DADatasetException "Invalid dataset name provided"),
     Session.sent request rest s).
Proof.
  intros Hs Hcode.
  rewrite (send_hook _ _ _ _ _ Hs (gives_up_code _ _ _ Hcode eq_refl)).
  unfold BaseAPI._check_response, Response.ok. stsimpl. by rewrite Hcode.
Qed.

Lemma send_404_raises_dataset_error_witness :
  Client.send 1 (BaseAPI.get_request "https://di-api.drillinginfo.com/v2/direct-access/well" [] Scenario.v2)
    (St.set_script [Scenario.status_reply 404 "Not Found"] Scenario.v2)
  = (Raised (DADatasetException "Invalid dataset name provided"),
     Session.sent
       (BaseAPI.get_request "https://di-api.drillinginfo.com/v2/direct-access/well" [] Scenario.v2)
       [] (St.set_script [Scenario.status_reply 404 "Not Found"] Scenario.v2)).
Proof.
  apply (send_404_raises_dataset_error 0 _ _ (Scenario.status_reply 404 "Not Found") []).
  - reflexivity.
  - reflexivity.
Defined.

(** X6: A 400: the exception is chosen by the text of the URL, and the message
    of a [DAQueryException] is the body of the response; the request is not
    sent again. *)
Theorem send_400_raises (fuel : nat) (request : PreparedRequest.t)
    (s : St.t) (r : Reply.t) (rest : list Reply.t) :
  St.script s = r :: rest ->
  Reply.status_code r = 400%Z ->
  Client.send (S fuel) request s
  = (Raised (if Py.contains "tokens" (PreparedRequest.url request)
             then DAAuthException
                    ("Error getting token. Code: 400 Message: " +:+ Reply.text r)
             else DAQueryException (Reply.text r)),
     Session.sent request rest s).
Proof.
  intros Hs Hcode.
  rewrite (send_hook _ _ _ _ _ Hs (gives_up_code _ _ _ Hcode eq_refl)).
  rewrite (bind_raised _ _ _ _ _
             (check_response_400 _ _ (Response.of_reply r request) _ Hcode)).
  stsimpl. by destruct (Py.contains _ _).
Qed.

Lemma send_400_raises_witness :
  Client.send 1 (BaseAPI.get_request "https://di-api.drillinginfo.com/v2/direct-access/wells" [("county", SStr "x")] Scenario.v2)
    (St.set_script [Scenario.status_reply 400 "Invalid filter"] Scenario.v2)
  = (Raised (if Py.contains "tokens"
                  (PreparedRequest.url
                     (BaseAPI.get_request "https://di-api.drillinginfo.com/v2/direct-access/wells" [("county", SStr "x")] Scenario.v2))
             then DAAuthException
                    ("Error getting token. Code: 400 Message: "
                     +:+ Reply.text (Scenario.status_reply 400 "Invalid filter"))
             else DAQueryException (Reply.text (Scenario.status_reply 400 "Invalid filter"))),
     Session.sent
       (BaseAPI.get_request "https://di-api.drillinginfo.com/v2/direct-access/wells" [("county", SStr "x")] Scenario.v2)
       [] (St.set_script [Scenario.status_reply 400 "Invalid filter"] Scenario.v2)).
Proof.
  apply (send_400_raises 0 _ _ (Scenario.status_reply 400 "Invalid filter") []).
  - reflexivity.
  - reflexivity.
Defined.

(** X8: A 401 on an instance without credentials: [get_access_token] raises
    [DAAuthException] at once; no token request is made and the request is
    not sent again. *)
Theorem send_401_without_credentials (fuel : nat) (request : PreparedRequest.t)
    (s : St.t) (r : Reply.t) (rest : list Reply.t) :
  Client.has_credentials s = false ->
  St.script s = r :: rest ->
  Reply.status_code r = 401%Z ->
  Client.send (S fuel) request s
  = (Raised (DAAuthException
               match St.cls s with
               | ClassDirectAccessV2 =>
                   "CLIENT_ID and CLIENT_SECRET are required to generate an access token"
               | ClassDeveloperAPIv3 =>
                   "SECRET_KEY is required to generate an access token"
               end),
     Session.sent request rest s).
Proof.
  intros Hcred Hs Hcode.
  rewrite (send_hook _ _ _ _ _ Hs (gives_up_code _ _ _ Hcode eq_refl)).
  unfold BaseAPI._check_response, Response.ok. stsimpl. rewrite Hcode.
  change (negb (negb ((400 <=? 401)%Z && (401 <? 600)%Z))) with true.
  change ((401 =? 400)%Z) with false. change ((401 =? 401)%Z) with true.
  cbv iota. unfold Client.get_access_token, Client.has_credentials in *.
  mrun. stsimpl_in Hcred. destruct (St.cls s).
  - unfold DirectAccessV2.get_access_token. mrun.
    apply andb_false_iff in Hcred as [-> | ->]; cbn [negb orb];
      rewrite ?orb_true_r; done.
  - unfold DeveloperAPIv3.get_access_token. mrun. by rewrite Hcred.
Qed.

Lemma send_401_without_credentials_witness :
  Client.send 1 (BaseAPI.get_request "https://di-api.drillinginfo.com/v2/direct-access/wells" [] Scenario.v2)
    (St.set_script [Scenario.status_reply 401 "expired"]
       (Client.DirectAccessV2_init 1 None None 5 1 None (JStr "t0") []).2)
  = (Raised (DAAuthException
               "CLIENT_ID and CLIENT_SECRET are required to generate an access token"),
     Session.sent
       (BaseAPI.get_request "https://di-api.drillinginfo.com/v2/direct-access/wells" [] Scenario.v2)
       []
       (St.set_script [Scenario.status_reply 401 "expired"]
          (Client.DirectAccessV2_init 1 None None 5 1 None (JStr "t0") []).2)).
Proof.
  apply (send_401_without_credentials 0 _
           (St.set_script [Scenario.status_reply 401 "expired"]
              (Client.DirectAccessV2_init 1 None None 5 1 None (JStr "t0") []).2)
           (Scenario.status_reply 401 "expired") []).
  - reflexivity.
  - reflexivity.
  - reflexivity.
Defined.

(** ** A token request that is refused, or answered without a token *)

Section MoreToken.

Implicit Types (s : St.t) (r : Reply.t) (request : PreparedRequest.t).

(** [get_access_token] on an instance with credentials: the token request
    goes out with the headers of the token endpoint in the session, and the
    rest deals with the response. *)
Lemma get_access_token_request (send : PreparedRequest.t -> M Response.t) s :
  Client.has_credentials s = true ->
  Client.get_access_token send s
  = bind (send (Client.token_request s))
      (fun response =>
         body <- response_json response ;;
         token <- lift (Json.getitem body (Client.token_field (St.cls s))) ;;
         modify (St.set_access_token token) ;;
         authorization <- bearer token ;;
         Session.set_header "Authorization" authorization ;;
         ret body)
      (Client.announced s).
Proof.
  unfold Client.has_credentials, Client.token_field, Client.get_access_token.
  intros Hcred. mrun.
  destruct (St.cls s) eqn:Hcls.
  - unfold DirectAccessV2.get_access_token, DirectAccessV2.session_post,
      Session.prepare_request.
    mrun. apply andb_true_iff in Hcred as [-> ->]. cbn [negb orb]. mrun.
    match goal with
    | |- context [send ?q ?st] =>
        replace st with (Client.announced s);
        [replace q with (Client.token_request s)|]
    end.
    + by destruct (send _ _) as [[response| |] s2].
    + unfold Client.token_request, Client.token_headers. by rewrite Hcls.
    + unfold Client.announced, Client.token_headers. rewrite Hcls. by st_eq.
  - unfold DeveloperAPIv3.get_access_token, DeveloperAPIv3.session_post,
      Session.prepare_request.
    mrun. rewrite Hcred. cbn [negb]. mrun.
    match goal with
    | |- context [send ?q ?st] =>
        replace st with (Client.announced s);
        [replace q with (Client.token_request s)|]
    end.
    + by destruct (send _ _) as [[response| |] s2].
    + unfold Client.token_request, Client.token_headers. by rewrite Hcls.
    + unfold Client.announced, Client.token_headers. rewrite Hcls. by st_eq.
Qed.

Lemma get_access_token_no_credentials (send : PreparedRequest.t -> M Response.t) s :
  Client.has_credentials s = false ->
  Client.get_access_token send s
  = (Raised (DAAuthException
               match St.cls s with
               | ClassDirectAccessV2 =>
                   "CLIENT_ID and CLIENT_SECRET are required to generate an access token"
               | ClassDeveloperAPIv3 =>
                   "SECRET_KEY is required to generate an access token"
               end), s).
Proof.
  unfold Client.get_access_token, Client.has_credentials.
  intros Hcred. mrun. destruct (St.cls s).
  - unfold DirectAccessV2.get_access_token. mrun.
    apply andb_false_iff in Hcred as [-> | ->]; cbn [negb orb];
      rewrite ?orb_true_r; done.
  - unfold DeveloperAPIv3.get_access_token. mrun. by rewrite Hcred.
Qed.

End MoreToken.

(** X10: The token endpoint answers 400: [DAAuthException] with the body in the
    message.  The stored token is the old one, but the session keeps the
    headers set for the token request; on a [DirectAccessV2] instance its
    [Authorization] header is now the [Basic] one made of the credentials. *)
Theorem token_400_raises_auth_error (fuel : nat) (s : St.t) (r : Reply.t)
    (rest : list Reply.t) :
  Client.has_credentials s = true ->
  St.script s = r :: rest ->
  Reply.status_code r = 400%Z ->
  exists s',
    Client.get_access_token (Client.send (S fuel)) s
    = (Raised (DAAuthException
                 ("Error getting token. Code: 400 Message: " +:+ Reply.text r)), s')
    /\ St.access_token s' = St.access_token s
    /\ St.script s' = rest
    /\ St.trace s' = St.trace s ++ [Sent (Client.token_request s)]
    /\ St.session_headers s' = Client.token_headers s
    /\ (St.cls s = ClassDirectAccessV2 ->
        Http.get_header "Authorization" (St.session_headers s')
        = Some ("Basic " +:+ Http.b64encode
                  (Py.join ":" [default "" (St.client_id s);
                                default "" (St.client_secret s)]))).
Proof.
  intros Hcred Hs Hcode.
  exists (Session.sent (Client.token_request s) rest (Client.announced s)).
  split.
  - rewrite get_access_token_request by exact Hcred.
    apply bind_raised.
    rewrite (send_hook fuel (Client.token_request s) (Client.announced s) r rest
               Hs (gives_up_code _ _ _ Hcode eq_refl)).
    rewrite (bind_raised _ _ _ _ _
               (check_response_400 _ _
                  (Response.of_reply r (Client.token_request s)) _ Hcode)).
    stsimpl. by rewrite token_url_contains_tokens.
  - stsimpl. split_and!; try done.
    intros Hcls. unfold Client.token_headers. rewrite Hcls.
    unfold Http.get_header, Http.set_header.
    by rewrite lookup_insert_ne, lookup_insert_eq.
Qed.

Lemma token_400_raises_auth_error_witness :
  exists s',
    Client.get_access_token (Client.send 1)
      (St.set_script [Scenario.status_reply 400 "invalid_client"] Scenario.v2)
    = (Raised (DAAuthException
                 ("Error getting token. Code: 400 Message: "
                  +:+ Reply.text (Scenario.status_reply 400 "invalid_client"))), s')
    /\ St.access_token s' = JStr "t0"
    /\ Http.get_header "Authorization" (St.session_headers s')
       = Some "Basic aWQ6c2VjcmV0".
Proof.
  destruct (token_400_raises_auth_error 0
              (St.set_script [Scenario.status_reply 400 "invalid_client"] Scenario.v2)
              (Scenario.status_reply 400 "invalid_client") [])
    as (s' & Hrun & Htoken & _ & _ & _ & Hbasic).
  - reflexivity.
  - reflexivity.
  - reflexivity.
  - exists s'. split; [exact Hrun|]. split; [exact Htoken|].
    apply Hbasic. reflexivity.
Defined.

(** X11: The token endpoint answers with a success status but without a token:
    a body that is not JSON raises [JSONDecodeError], a JSON object without
    the token field raises [KeyError]; neither is a [DAAuthException].  The
    stored token stays, the session keeps the headers of the token
    request. *)
Theorem token_reply_without_token (fuel : nat) (s : St.t) (r : Reply.t)
    (rest : list Reply.t) :
  Client.has_credentials s = true ->
  St.script s = r :: rest ->
  Reply.ok r = true ->
  Reply.json r = None
  \/ (exists kv, Reply.json r = Some (JObj kv)
                 /\ Dict.lookup (Client.token_field (St.cls s)) kv = None) ->
  exists s',
    Client.get_access_token (Client.send (S fuel)) s
    = (Raised match Reply.json r with
              | None => JSONDecodeError
              | Some _ => KeyError (Client.token_field (St.cls s))
              end, s')
    /\ St.access_token s' = St.access_token s
    /\ St.script s' = rest
    /\ St.trace s' = St.trace s ++ [Sent (Client.token_request s)]
    /\ St.session_headers s' = Client.token_headers s.
Proof.
  intros Hcred Hs Hok Hbody.
  exists (Session.sent (Client.token_request s) rest (Client.announced s)).
  split; [|by stsimpl].
  rewrite get_access_token_request by exact Hcred.
  rewrite (bind_return _ _ _ _ _
             (send_ok fuel (Client.token_request s) (Client.announced s) r rest
                Hs Hok)).
  unfold response_json. stsimpl.
  destruct Hbody as [-> | (kv & -> & Hkv)]; mrun; [done|].
  unfold Json.getitem, Dict.getitem. by rewrite Hkv.
Qed.

Lemma token_reply_without_token_witness :
  exists s',
    Client.get_access_token (Client.send 1)
      (St.set_script [Reply.mk 200 "" (Some (JObj [("token", JStr "t1")])) []]
         Scenario.v2)
    = (Raised (KeyError "access_token"), s')
    /\ St.access_token s' = JStr "t0"
    /\ St.script s' = [].
Proof.
  destruct (token_reply_without_token 0
              (St.set_script
                 [Reply.mk 200 "" (Some (JObj [("token", JStr "t1")])) []]
                 Scenario.v2)
              (Reply.mk 200 "" (Some (JObj [("token", JStr "t1")])) []) [])
    as (s' & Hrun & Htoken & Hscript & _).
  - reflexivity.
  - reflexivity.
  - reflexivity.
  - right. eexists. split; reflexivity.
  - exists s'. split; [exact Hrun|]. split; [exact Htoken|exact Hscript].
Defined.

(** ** The constructors *)

(** X12: With a pregenerated token both constructors make no request: the token
    is stored and the session gets its [bearer] header. *)
Theorem init_with_token_sends_nothing (fuel : nat)
    (client_id client_secret secret_key : option string)
    (retries backoff_factor : Z) (links : option Http.links) (token : string)
    (script : list Reply.t) :
  token <> "" ->
  (exists s,
      Client.DirectAccessV2_init fuel client_id client_secret retries
        backoff_factor links (JStr token) script = (Return tt, s)
      /\ St.trace s = [] /\ St.script s = script
      /\ St.access_token s = JStr token /\ St.links s = links
      /\ St.url s = DirectAccessV2.url
      /\ Http.get_header "Authorization" (St.session_headers s)
         = Some ("bearer " +:+ token)
      /\ Http.get_header "User-Agent" (St.session_headers s)
         = Some "enverus-developer-api")
  /\ (exists s,
         Client.DeveloperAPIv3_init fuel secret_key retries backoff_factor
           links (JStr token) script = (Return tt, s)
         /\ St.trace s = [] /\ St.script s = script
         /\ St.access_token s = JStr token /\ St.links s = links
         /\ St.url s = DeveloperAPIv3.url
         /\ Http.get_header "Authorization" (St.session_headers s)
            = Some ("bearer " +:+ token)
         /\ Http.get_header "User-Agent" (St.session_headers s)
            = Some "enverus-developer-api").
Proof.
  intros Htoken.
  assert (negb (String.eqb token "") = true) as Htruthy.
  { apply negb_true_iff, String.eqb_neq, Htoken. }
  split.
  - unfold Client.DirectAccessV2_init, Client.authorize, Client.fresh, bearer.
    mrun. cbn [Json.truthy Json.format]. rewrite Htruthy. mrun.
    eexists. split; [reflexivity|]. stsimpl.
    split_and!; done.
  - unfold Client.DeveloperAPIv3_init, Client.authorize, Client.fresh, bearer.
    mrun. cbn [Json.truthy Json.format]. rewrite Htruthy. mrun.
    eexists. split; [reflexivity|]. stsimpl.
    split_and!; done.
Qed.

Lemma init_with_token_sends_nothing_witness :
  (exists s,
      Client.DirectAccessV2_init 0 (Some "id") (Some "secret") 5 1 None
        (JStr "t0") [] = (Return tt, s)
      /\ St.trace s = []
      /\ Http.get_header "Authorization" (St.session_headers s)
         = Some ("bearer " +:+ "t0"))
  /\ (exists s,
         Client.DeveloperAPIv3_init 0 (Some "key") 5 1 None (JStr "t0") []
         = (Return tt, s)
         /\ St.trace s = []
         /\ Http.get_header "Authorization" (St.session_headers s)
            = Some ("bearer " +:+ "t0")).
Proof.
  destruct (init_with_token_sends_nothing 0 (Some "id") (Some "secret")
              (Some "key") 5 1 None "t0" [])
    as [(s2 & Hrun2 & Htrace2 & _ & _ & _ & _ & Hauth2 & _)
        (s3 & Hrun3 & Htrace3 & _ & _ & _ & _ & Hauth3 & _)].
  - discriminate.
  - split; [exists s2|exists s3]; auto.
Defined.

(** X13: Without a pregenerated token, and with credentials, each constructor
    makes exactly one request, the token request of its class, and keeps
    the token of the answer and its [bearer] header. *)
Theorem init_requests_token (fuel : nat) (client_id client_secret secret_key : string)
    (retries backoff_factor : Z) (links : option Http.links)
    (access_token : json) (token : string) (r2 r3 : Reply.t)
    (rest : list Reply.t) :
  Json.truthy access_token = false ->
  client_id <> "" -> client_secret <> "" -> secret_key <> "" ->
  Client.grants "access_token" token r2 ->
  Client.grants "token" token r3 ->
  (exists s request,
      Client.DirectAccessV2_init (S fuel) (Some client_id) (Some client_secret)
        retries backoff_factor links access_token (r2 :: rest) = (Return tt, s)
      /\ St.trace s = [Sent request] /\ St.script s = rest
      /\ PreparedRequest.method request = "POST"
      /\ PreparedRequest.url request
         = "https://di-api.drillinginfo.com/v2/direct-access/tokens?grant_type=client_credentials"
      /\ PreparedRequest.json request = None
      /\ Http.get_header "Authorization" (PreparedRequest.headers request)
         = Some ("Basic " +:+ Http.b64encode
                   (Py.join ":" [client_id; client_secret]))
      /\ Http.get_header "Content-Type" (PreparedRequest.headers request)
         = Some "application/x-www-form-urlencoded"
      /\ St.access_token s = JStr token
      /\ Http.get_header "Authorization" (St.session_headers s)
         = Some ("bearer " +:+ token))
  /\ (exists s request,
         Client.DeveloperAPIv3_init (S fuel) (Some secret_key) retries
           backoff_factor links access_token (r3 :: rest) = (Return tt, s)
         /\ St.trace s = [Sent request] /\ St.script s = rest
         /\ PreparedRequest.method request = "POST"
         /\ PreparedRequest.url request
            = "https://api.enverus.com/v3/direct-access/tokens"
         /\ PreparedRequest.json request
            = Some (JObj [("secretKey", JStr secret_key)])
         /\ Http.get_header "Content-Type" (PreparedRequest.headers request)
            = Some "application/json"
         /\ St.access_token s = JStr token
         /\ Http.get_header "Authorization" (St.session_headers s)
            = Some ("bearer " +:+ token)).
Proof.
  intros Hfalsy Hid%String.eqb_neq Hsecret%String.eqb_neq Hkey%String.eqb_neq
    (Hok2 & body2 & Hjson2 & Htoken2) (Hok3 & body3 & Hjson3 & Htoken3).
  split.
  - unfold Client.DirectAccessV2_init, Client.authorize.
    set (s0 := Client.fresh _ _ _ _ _ _ _ _ _ _).
    mrun. change (St.access_token s0) with access_token. rewrite Hfalsy.
    assert (Client.has_credentials s0 = true) as Hcred.
    { unfold Client.has_credentials, s0, Client.fresh, truthy_str. stsimpl.
      by rewrite Hid, Hsecret. }
    rewrite (get_access_token_granted (Client.send (S fuel)) s0
               (Response.of_reply r2 (Client.token_request s0))
               (Session.sent (Client.token_request s0) rest (Client.announced s0))
               body2 token Hcred);
      [|by apply send_ok|exact Hjson2|exact Htoken2].
    rewrite Htoken2. mrun.
    eexists _, (Client.token_request s0). split; [reflexivity|].
    stsimpl. split_and!; done.
  - unfold Client.DeveloperAPIv3_init, Client.authorize.
    set (s0 := Client.fresh _ _ _ _ _ _ _ _ _ _).
    mrun. change (St.access_token s0) with access_token. rewrite Hfalsy.
    assert (Client.has_credentials s0 = true) as Hcred.
    { unfold Client.has_credentials, s0, Client.fresh, truthy_str. stsimpl.
      by rewrite Hkey. }
    rewrite (get_access_token_granted (Client.send (S fuel)) s0
               (Response.of_reply r3 (Client.token_request s0))
               (Session.sent (Client.token_request s0) rest (Client.announced s0))
               body3 token Hcred);
      [|by apply send_ok|exact Hjson3|exact Htoken3].
    rewrite Htoken3. mrun.
    eexists _, (Client.token_request s0). split; [reflexivity|].
    stsimpl. split_and!; done.
Qed.

Lemma init_requests_token_witness :
  (exists s request,
      Client.DirectAccessV2_init 1 (Some "id") (Some "secret") 5 1 None JNull
        [Scenario.token_reply "t1"] = (Return tt, s)
      /\ St.trace s = [Sent request]
      /\ PreparedRequest.url request
         = "https://di-api.drillinginfo.com/v2/direct-access/tokens?grant_type=client_credentials"
      /\ Http.get_header "Authorization" (PreparedRequest.headers request)
         = Some "Basic aWQ6c2VjcmV0"
      /\ St.access_token s = JStr "t1")
  /\ (exists s request,
         Client.DeveloperAPIv3_init 1 (Some "key") 5 1 None JNull
           [Reply.mk 200 "" (Some (JObj [("token", JStr "t1")])) []]
         = (Return tt, s)
         /\ St.trace s = [Sent request]
         /\ PreparedRequest.json request = Some (JObj [("secretKey", JStr "key")])
         /\ St.access_token s = JStr "t1").
Proof.
  destruct (init_requests_token 0 "id" "secret" "key" 5 1 None JNull "t1"
              (Scenario.token_reply "t1")
              (Reply.mk 200 "" (Some (JObj [("token", JStr "t1")])) []) [])
    as [(s2 & q2 & Hrun2 & Htrace2 & _ & _ & Hurl2 & _ & Hbasic2 & _ & Htoken2 & _)
        (s3 & q3 & Hrun3 & Htrace3 & _ & _ & _ & Hjson3 & _ & Htoken3 & _)].
  - reflexivity.
  - discriminate.
  - discriminate.
  - discriminate.
  - split; [reflexivity|]. eexists. split; reflexivity.
  - split; [reflexivity|]. eexists. split; reflexivity.
  - split; [exists s2, q2|exists s3, q3]; auto 10.
Defined.

(** X14: Without a pregenerated token and without credentials both constructors
    raise [DAAuthException] and make no request. *)
Theorem init_without_token_or_credentials (fuel : nat)
    (client_id client_secret secret_key : option string)
    (retries backoff_factor : Z) (links : option Http.links)
    (access_token : json) (script : list Reply.t) :
  Json.truthy access_token = false ->
  truthy_str client_id && truthy_str client_secret = false ->
  truthy_str secret_key = false ->
  (exists s,
      Client.DirectAccessV2_init fuel client_id client_secret retries
        backoff_factor links access_token script
      = (Raised (DAAuthException
                   "CLIENT_ID and CLIENT_SECRET are required to generate an access token"),
         s)
      /\ St.trace s = [] /\ St.script s = script)
  /\ (exists s,
         Client.DeveloperAPIv3_init fuel secret_key retries backoff_factor
           links access_token script
         = (Raised (DAAuthException
                      "SECRET_KEY is required to generate an access token"), s)
         /\ St.trace s = [] /\ St.script s = script).
Proof.
  intros Hfalsy Hcred2 Hcred3. split.
  - unfold Client.DirectAccessV2_init, Client.authorize.
    set (s0 := Client.fresh _ _ _ _ _ _ _ _ _ _).
    mrun. change (St.access_token s0) with access_token. rewrite Hfalsy.
    rewrite get_access_token_no_credentials by exact Hcred2.
    by exists s0.
  - unfold Client.DeveloperAPIv3_init, Client.authorize.
    set (s0 := Client.fresh _ _ _ _ _ _ _ _ _ _).
    mrun. change (St.access_token s0) with access_token. rewrite Hfalsy.
    rewrite get_access_token_no_credentials by exact Hcred3.
    by exists s0.
Qed.

Lemma init_without_token_or_credentials_witness :
  (exists s,
      Client.DirectAccessV2_init 1 (Some "id") None 5 1 None JNull []
      = (Raised (DAAuthException
                   "CLIENT_ID and CLIENT_SECRET are required to generate an access token"),
         s)
      /\ St.trace s = [] /\ St.script s = [])
  /\ (exists s,
         Client.DeveloperAPIv3_init 1 (Some "") 5 1 None JNull []
         = (Raised (DAAuthException
                      "SECRET_KEY is required to generate an access token"), s)
         /\ St.trace s = [] /\ St.script s = []).
Proof.
  apply (init_without_token_or_credentials 1 (Some "id") None (Some "") 5 1
           None JNull []).
  - reflexivity.
  - reflexivity.
  - reflexivity.
Defined.

(** ** Pages, and what ends them *)

Section MorePages.

Implicit Types (s : St.t) (options : list (string * scalar))
  (plan : BaseAPI.chunk_plan) (pages : BaseAPI.pages).

Lemma prepare_url_no_params (url : string) : Http.prepare_url url [] = url.
Proof. done. Qed.

(** From a state whose next request is known, through pages that link on:
    the records of the pages are handed out in order, each link is followed,
    and the loop stands before the request to the last link. *)
Lemma query_loop_pages (sf : nat) (query_url p : string) (paging : scalar) pages :
  BaseAPI.paging_lower paging = Ok p ->
  String.eqb p "false" = false ->
  Forall (fun page => BaseAPI.is_page page.1.2 page.2 page.1.1) pages ->
  forall fuel s request options plan options' plan' (rest : list Reply.t),
    BaseAPI.next_request query_url options plan s
    = Ok (request, options', plan') ->
    St.script s = map (fun page => page.1.1) pages ++ rest ->
    St.demand s = None ->
    exists s' request' options1 plan1,
      BaseAPI.query_loop (Client.send (S sf)) (length pages + fuel)
        query_url paging options plan s
      = BaseAPI.query_loop (Client.send (S sf)) fuel query_url paging
          options1 plan1 s'
      /\ BaseAPI.next_request query_url options1 plan1 s'
         = Ok (request', options', plan')
      /\ PreparedRequest.url request'
         = List.last (BaseAPI.sequence_links (St.url s) pages)
             (PreparedRequest.url request)
      /\ Client.yielded s' = Client.yielded s ++ BaseAPI.sequence_records pages
      /\ Client.sent_urls s' ++ [PreparedRequest.url request']
         = Client.sent_urls s
           ++ PreparedRequest.url request :: BaseAPI.sequence_links (St.url s) pages
      /\ St.script s' = rest
      /\ St.demand s' = None
      /\ St.url s' = St.url s.
Proof.
  intros Hp Hfalse.
  induction 1 as [|[[r records] next] pages (Hok & Hjson & Hne & Hnext) _ IH];
    intros fuel s request options plan options' plan' rest Hreq Hs Hd.
  - cbn [map app length plus] in *.
    exists s, request, options, plan.
    unfold BaseAPI.sequence_records, BaseAPI.sequence_links. cbn [map concat List.last].
    rewrite app_nil_r. split_and!; done.
  - cbn [map app length plus fst snd] in *.
    rewrite (query_loop_batch _ _ _ _ _ _ _ _ _ _
               (Response.of_reply r request)
               (Session.sent request (map (fun page => page.1.1) pages ++ rest) s)
               (JArr records) records Hreq);
      [|by apply send_ok|done|done|done|done|done].
    set (s1 := BaseAPI.batched _ _ _).
    assert (St.links s1 = Some (Reply.links r)) as Hlinks.
    { unfold s1. rewrite links_batched. stsimpl.
      unfold BaseAPI.next_url in Hnext.
      destruct (Dict.getitem "next" (Reply.links r)) eqn:Hl; [|done].
      by rewrite (getitem_contains _ _ _ Hl). }
    rewrite Hlinks, Hp, Hfalse.
    destruct (IH fuel s1
                (BaseAPI.get_request
                   (Py.drop_last (St.url (Session.sent request
                      (map (fun page => page.1.1) pages ++ rest) s))
                    +:+ next) [] s1)
                options' plan' options' plan' rest)
      as (s' & request' & options1 & plan1 & Hrun & Hreq' & Hurl' & Hy & Hsent
          & Hscr & Hdem & Hurl).
    + apply next_request_after_page. exact Hnext.
    + unfold s1. by rewrite script_batched.
    + unfold s1. by rewrite demand_batched.
    + exists s', request', options1, plan1.
      split; [exact Hrun|]. split; [exact Hreq'|].
      rewrite Hy, Hsent, Hscr, Hdem, Hurl, Hurl'.
      unfold s1.
      rewrite yielded_batched, sent_urls_batched, url_batched,
        yielded_sent, sent_urls_sent.
      unfold BaseAPI.sequence_records, BaseAPI.sequence_links.
      cbn [concat map fst snd]. rewrite last_cons. stsimpl.
      rewrite <- !app_assoc.
      split_and!; done.
Qed.

(** One turn of the loop on a response with an error status that the hook
    let through. *)
Lemma query_loop_not_ok (send : PreparedRequest.t -> M Response.t) fuel
    query_url paging options plan s request options' plan' response s1 :
  BaseAPI.next_request query_url options plan s = Ok (request, options', plan') ->
  send request s = (Return response, s1) ->
  Response.ok response = false ->
  BaseAPI.query_loop send (S fuel) query_url paging options plan s
  = (Raised (DAQueryException
               ("Non-200 response: " +:+ pretty (Response.status_code response)
                +:+ " " +:+ Response.text response)), s1).
Proof.
  intros Hnext Hsend Hok.
  cbn [BaseAPI.query_loop].
  rewrite (bind_return _ _ _ _ _
             (eq_trans (fetch_next_request _ _ _ _ _ _ _ _ Hnext)
                (bind_return _ _ _ _ _ Hsend))).
  by rewrite Hok.
Qed.

End MorePages.

(** X18: A query whose pages are followed by a response with an error status
    that the transport hands back (not 500, 502, 503 or 504) and for which
    the hook has no branch (a 403 on a URL without ["tokens"], a 429, ...):
    the records of the pages before it have been yielded when the generator
    raises [DAQueryException] with the status and the body in its message. *)
Theorem query_error_after_pages (fuel : nat) (dataset : string)
    (options : list (string * scalar)) (s : St.t) (ps : BaseAPI.pages)
    (r : Reply.t) (rest : list Reply.t) :
  BaseAPI.links_truthy (St.links s) = false ->
  Dict.lookup "paging" options = None ->
  BaseAPI.plan_chunks options = Ok None ->
  Forall (fun page => BaseAPI.is_page page.1.2 page.2 page.1.1) ps ->
  St.script s = map (fun page => page.1.1) ps ++ r :: rest ->
  St.demand s = None ->
  Reply.ok r = false ->
  existsb (Z.eqb (Reply.status_code r)) Session.status_forcelist = false ->
  Reply.status_code r <> 400%Z -> Reply.status_code r <> 401%Z ->
  Reply.status_code r <> 404%Z ->
  Reply.status_code r <> 403%Z
  \/ Py.contains "tokens"
       (List.last (BaseAPI.sequence_links (St.url s) ps)
          (Http.prepare_url (Py.os_path_join (St.url s) dataset) options))
     = false ->
  length ps < fuel ->
  exists s',
    Client.DirectAccessV2_query fuel dataset options s
    = (Raised (DAQueryException
                 ("Non-200 response: " +:+ pretty (Reply.status_code r)
                  +:+ " " +:+ Reply.text r)), s')
    /\ Client.yielded s' = Client.yielded s ++ BaseAPI.sequence_records ps
    /\ Client.sent_urls s'
       = Client.sent_urls s
         ++ Http.prepare_url (Py.os_path_join (St.url s) dataset) options
            :: BaseAPI.sequence_links (St.url s) ps
    /\ St.script s' = rest.
Proof.
  intros Hlinks Hpaging Hplan Hps Hs Hd Hok Hforced H400 H401 H404 H403 Hfuel.
  unfold Client.DirectAccessV2_query, BaseAPI.query, Generator.start.
  mrun. rewrite Hd, Hplan, Hpaging. mrun. cbn [default from_option].
  rewrite (remove_absent _ _ Hpaging).
  destruct fuel as [|sf]; [lia|].
  destruct (query_loop_pages sf (Py.os_path_join (St.url s) dataset) "true"
              (SStr "true") ps eq_refl eq_refl Hps
              (S sf - length ps) s
              (BaseAPI.get_request (Py.os_path_join (St.url s) dataset) options s)
              options None options None (r :: rest))
    as (s1 & request' & options1 & plan1 & Hrun & Hreq' & Hurl' & Hy & Hsent
        & Hscr & Hdem & Hurl).
  - unfold BaseAPI.next_request. by rewrite Hlinks.
  - exact Hs.
  - exact Hd.
  - replace (length ps + (S sf - length ps)) with (S sf) in Hrun by lia.
    rewrite Hrun.
    replace (S sf - length ps) with (S (sf - length ps)) by lia.
    exists (Session.sent request' rest s1). split.
    + apply (query_loop_not_ok _ _ _ _ _ _ _ _ _ _
               (Response.of_reply r request') _ Hreq'); [|exact Hok].
      apply send_unhandled; try done.
      destruct H403 as [H403|H403]; [by left|right].
      by rewrite Hurl'.
    + rewrite yielded_sent, sent_urls_sent, Hy, Hsent. by stsimpl.
Qed.

Lemma query_error_after_pages_witness :
  exists s',
    Client.DirectAccessV2_query 2 "wells" [("pagesize", SInt 2%Z)]
      (St.set_script
         [Scenario.wells_page1; Scenario.status_reply 429 "Too Many Requests"]
         Scenario.v2)
    = (Raised (DAQueryException
                 ("Non-200 response: "
                  +:+ pretty (Reply.status_code
                                (Scenario.status_reply 429 "Too Many Requests"))
                  +:+ " "
                  +:+ Reply.text (Scenario.status_reply 429 "Too Many Requests"))),
       s')
    /\ Client.yielded s' = [Scenario.record 1; Scenario.record 2]
    /\ St.script s' = [].
Proof.
  destruct (query_error_after_pages 2 "wells" [("pagesize", SInt 2%Z)]
              (St.set_script
                 [Scenario.wells_page1;
                  Scenario.status_reply 429 "Too Many Requests"] Scenario.v2)
              [(Scenario.wells_page1, [Scenario.record 1; Scenario.record 2],
                "/wells?pagesize=2&page=2")]
              (Scenario.status_reply 429 "Too Many Requests") [])
    as (s' & Hrun & Hy & _ & Hs).
  - reflexivity.
  - reflexivity.
  - reflexivity.
  - repeat constructor; discriminate.
  - reflexivity.
  - reflexivity.
  - reflexivity.
  - reflexivity.
  - discriminate.
  - discriminate.
  - discriminate.
  - left. discriminate.
  - simpl. lia.
  - exists s'. auto.
Defined.

(** X17: A batch that is not empty and comes without a [next] link, on an
    instance that holds no link: the generator ends after the batch,
    whatever [paging] is, and also when subsets of a chunked filter are
    still pending. *)
Theorem query_batch_without_link_ends (fuel : nat) (dataset : string)
    (options options' : list (string * scalar))
    (plan plan' : BaseAPI.chunk_plan) (request : PreparedRequest.t)
    (s : St.t) (r : Reply.t) (rest : list Reply.t) (body : json)
    (records : list json) :
  St.links s = None ->
  BaseAPI.plan_chunks options = Ok plan ->
  BaseAPI.next_request (Py.os_path_join (St.url s) dataset)
    (Dict.remove "paging" options) plan s
  = Ok (request, options', plan') ->
  St.demand s = None ->
  St.script s = r :: rest ->
  Reply.ok r = true ->
  Reply.json r = Some body ->
  Json.records body = Ok records ->
  records <> [] ->
  Dict.contains "next" (Reply.links r) = false ->
  0 < fuel ->
  exists s',
    Client.DirectAccessV2_query fuel dataset options s = (Return tt, s')
    /\ Client.yielded s' = Client.yielded s ++ records
    /\ Client.sent_urls s' = Client.sent_urls s ++ [PreparedRequest.url request]
    /\ St.script s' = rest
    /\ St.links s' = None.
Proof.
  intros Hlinks Hplan Hnext Hd Hs Hok Hjson Hrecords Hne Hnolink Hfuel.
  destruct fuel as [|fuel]; [lia|].
  unfold Client.DirectAccessV2_query, BaseAPI.query, Generator.start.
  mrun. rewrite Hd, Hplan. mrun.
  pose proof (send_ok fuel request s r rest Hs Hok) as Hsend.
  rewrite (query_loop_batch _ _ _ _ _ _ _ _ _ _ _ _ body records
             Hnext Hsend Hok Hjson Hrecords Hne Hd).
  assert (St.links (BaseAPI.batched (Response.of_reply r request) records
                      (Session.sent request rest s)) = None) as Hl.
  { rewrite links_batched. stsimpl. by rewrite Hnolink. }
  rewrite Hl. eexists. split; [reflexivity|].
  rewrite yielded_batched, sent_urls_batched, script_batched,
    yielded_sent, sent_urls_sent.
  done.
Qed.

Lemma query_batch_without_link_ends_witness :
  exists s',
    Client.DirectAccessV2_query 1 "wells"
      [("api", SStr Scenario.ids_expr); ("paging", SInt 1%Z)]
      (St.set_script [Scenario.page [Scenario.record 1] None;
                      Scenario.page [Scenario.record 2] None] Scenario.v2)
    = (Return tt, s')
    /\ Client.yielded s' = [Scenario.record 1]
    /\ St.script s' = [Scenario.page [Scenario.record 2] None]
    /\ St.links s' = None.
Proof.
  destruct (query_batch_without_link_ends 1 "wells"
              [("api", SStr Scenario.ids_expr); ("paging", SInt 1%Z)]
              [("api", SStr ("in(" +:+ Py.join "," (repeat "12345" 390) +:+ ")"))]
              (Some ("api", [repeat "12345" 390; repeat "12345" 10]))
              (Some ("api", [repeat "12345" 10]))
              (BaseAPI.get_request
                 "https://di-api.drillinginfo.com/v2/direct-access/wells"
                 [("api", SStr ("in(" +:+ Py.join "," (repeat "12345" 390) +:+ ")"))]
                 Scenario.v2)
              (St.set_script [Scenario.page [Scenario.record 1] None;
                              Scenario.page [Scenario.record 2] None] Scenario.v2)
              (Scenario.page [Scenario.record 1] None)
              [Scenario.page [Scenario.record 2] None]
              (JArr [Scenario.record 1]) [Scenario.record 1])
    as (s' & Hrun & Hy & _ & Hs & Hl).
  - reflexivity.
  - vm_compute. reflexivity.
  - vm_compute. reflexivity.
  - reflexivity.
  - reflexivity.
  - reflexivity.
  - reflexivity.
  - reflexivity.
  - discriminate.
  - reflexivity.
  - lia.
  - exists s'. auto.
Defined.

(** X19: [paging] is read with [paging.lower()] once a batch has been yielded
    and a link is held: a value that is not a string ([paging=False]) makes
    the generator raise [AttributeError] after the first page. *)
Theorem query_paging_not_a_string (fuel : nat) (dataset : string)
    (options options' : list (string * scalar)) (paging : scalar)
    (plan plan' : BaseAPI.chunk_plan) (request : PreparedRequest.t)
    (s : St.t) (r : Reply.t) (rest : list Reply.t) (records : list json)
    (next : string) :
  Dict.lookup "paging" options = Some paging ->
  (forall text, paging <> SStr text) ->
  BaseAPI.plan_chunks options = Ok plan ->
  BaseAPI.next_request (Py.os_path_join (St.url s) dataset)
    (Dict.remove "paging" options) plan s
  = Ok (request, options', plan') ->
  St.demand s = None ->
  St.script s = r :: rest ->
  BaseAPI.is_page records next r ->
  0 < fuel ->
  exists s',
    Client.DirectAccessV2_query fuel dataset options s
    = (Raised (AttributeError
                 ("'" +:+ Py.class_name paging
                  +:+ "' object has no attribute 'lower'")), s')
    /\ Client.yielded s' = Client.yielded s ++ records
    /\ Client.sent_urls s' = Client.sent_urls s ++ [PreparedRequest.url request]
    /\ St.script s' = rest.
Proof.
  intros Hpaging Hnostr Hplan Hnext Hd Hs (Hok & Hjson & Hne & Hlink) Hfuel.
  destruct fuel as [|fuel]; [lia|].
  unfold Client.DirectAccessV2_query, BaseAPI.query, Generator.start.
  mrun. rewrite Hd, Hplan, Hpaging. mrun. cbn [default from_option id].
  pose proof (send_ok fuel request s r rest Hs Hok) as Hsend.
  rewrite (query_loop_batch _ _ _ _ _ _ _ _ _ _ _ _ (JArr records) records
             Hnext Hsend Hok Hjson eq_refl Hne Hd).
  assert (St.links (BaseAPI.batched (Response.of_reply r request) records
                      (Session.sent request rest s)) = Some (Reply.links r)) as Hl.
  { rewrite links_batched. stsimpl.
    unfold BaseAPI.next_url in Hlink.
    destruct (Dict.getitem "next" (Reply.links r)) eqn:Hg; [|done].
    by rewrite (getitem_contains _ _ _ Hg). }
  rewrite Hl.
  destruct paging as [|b|z|text]; [| | |by destruct (Hnostr text)];
    cbn [BaseAPI.paging_lower]; (eexists; split; [reflexivity|]);
    rewrite yielded_batched, sent_urls_batched, script_batched,
      yielded_sent, sent_urls_sent; done.
Qed.

Lemma query_paging_not_a_string_witness :
  exists s',
    Client.DirectAccessV2_query 1 "wells"
      [("pagesize", SInt 2%Z); ("paging", SBool false)]
      (St.set_script [Scenario.wells_page1] Scenario.v2)
    = (Raised (AttributeError "'bool' object has no attribute 'lower'"), s')
    /\ Client.yielded s' = [Scenario.record 1; Scenario.record 2]
    /\ St.script s' = [].
Proof.
  destruct (query_paging_not_a_string 1 "wells"
              [("pagesize", SInt 2%Z); ("paging", SBool false)]
              [("pagesize", SInt 2%Z)] (SBool false) None None
              (BaseAPI.get_request
                 "https://di-api.drillinginfo.com/v2/direct-access/wells"
                 [("pagesize", SInt 2%Z)] Scenario.v2)
              (St.set_script [Scenario.wells_page1] Scenario.v2)
              Scenario.wells_page1 [] [Scenario.record 1; Scenario.record 2]
              "/wells?pagesize=2&page=2")
    as (s' & Hrun & Hy & _ & Hs).
  - reflexivity.
  - discriminate.
  - reflexivity.
  - reflexivity.
  - reflexivity.
  - reflexivity.
  - repeat split; discriminate.
  - lia.
  - exists s'. auto.
Defined.

Lemma lookup_remove {V} (k : string) (d : list (string * V)) :
  Dict.lookup k (Dict.remove k d) = None.
Proof.
  unfold Dict.remove. induction d as [|[k' v] d IH]; [done|].
  cbn. destruct (String.eqb k' k) eqn:E; cbn; [done|]. by rewrite E.
Qed.

(** X20: [paging] is an option for the client, not for the service: it is taken
    out of the options before the first request, so no request carries it.
    With a value other than ["false"] (in any case) the query pages to the
    empty batch as it does without the option. *)
Theorem query_paging_option_not_sent (fuel : nat) (dataset p : string)
    (options : list (string * scalar)) (s : St.t) (ps : BaseAPI.pages)
    (last : Reply.t) (rest : list Reply.t) :
  BaseAPI.links_truthy (St.links s) = false ->
  Dict.lookup "paging" options = Some (SStr p) ->
  Py.lower p <> "false" ->
  BaseAPI.plan_chunks options = Ok None ->
  BaseAPI.is_sequence ps last ->
  St.script s = BaseAPI.sequence_replies ps last ++ rest ->
  St.demand s = None ->
  length ps < fuel ->
  exists s',
    Client.DirectAccessV2_query fuel dataset options s = (Return tt, s')
    /\ Dict.lookup "paging" (Dict.remove "paging" options) = None
    /\ Client.yielded s' = Client.yielded s ++ BaseAPI.sequence_records ps
    /\ Client.sent_urls s'
       = Client.sent_urls s
         ++ Http.prepare_url (Py.os_path_join (St.url s) dataset)
              (Dict.remove "paging" options)
            :: BaseAPI.sequence_links (St.url s) ps
    /\ St.links s' = None
    /\ St.script s' = rest.
Proof.
  intros Hlinks Hpaging Hp%String.eqb_neq Hplan [Hps Hlast] Hs Hd Hfuel.
  unfold Client.DirectAccessV2_query, BaseAPI.query, Generator.start.
  mrun. rewrite Hd, Hplan, Hpaging. mrun. cbn [default from_option id].
  destruct fuel as [|sf]; [lia|].
  destruct (query_loop_sequence sf (Py.os_path_join (St.url s) dataset)
              (Py.lower p) (SStr p) last rest ps eq_refl Hp Hlast Hps
              (sf - length ps) s
              (BaseAPI.get_request (Py.os_path_join (St.url s) dataset)
                 (Dict.remove "paging" options) s)
              (Dict.remove "paging" options) None
              (Dict.remove "paging" options) None)
    as (s' & Hrun & Hy & Hsent & Hl & Hscr & _).
  - unfold BaseAPI.next_request. by rewrite Hlinks.
  - rewrite Hs. unfold BaseAPI.sequence_replies. by rewrite <- app_assoc.
  - exact Hd.
  - replace (length ps + S (sf - length ps)) with (S sf) in Hrun by lia.
    exists s'. split; [exact Hrun|]. split; [apply lookup_remove|].
    split_and!; done.
Qed.

Lemma query_paging_option_not_sent_witness :
  exists s',
    Client.DirectAccessV2_query 2 "wells"
      [("paging", SStr "True"); ("pagesize", SInt 2%Z)]
      (St.set_script [Scenario.wells_page1; Scenario.page [] None] Scenario.v2)
    = (Return tt, s')
    /\ Client.yielded s' = [Scenario.record 1; Scenario.record 2]
    /\ Client.sent_urls s'
       = ["https://di-api.drillinginfo.com/v2/direct-access/wells?pagesize=2";
          "https://di-api.drillinginfo.com/v2/direct-access/wells?pagesize=2&page=2"]
    /\ St.script s' = [].
Proof.
  destruct (query_paging_option_not_sent 2 "wells" "True"
              [("paging", SStr "True"); ("pagesize", SInt 2%Z)]
              (St.set_script [Scenario.wells_page1; Scenario.page [] None]
                 Scenario.v2)
              [(Scenario.wells_page1, [Scenario.record 1; Scenario.record 2],
                "/wells?pagesize=2&page=2")]
              (Scenario.page [] None) [])
    as (s' & Hrun & _ & Hy & Hsent & _ & Hs).
  - reflexivity.
  - reflexivity.
  - discriminate.
  - reflexivity.
  - split; [|by split]. repeat constructor; discriminate.
  - reflexivity.
  - reflexivity.
  - simpl. lia.
  - exists s'. split; [exact Hrun|]. split; [exact Hy|].
    split; [exact Hsent|exact Hs].
Defined.

(** ** An expired token in front of a query *)

(** X21: The first request of a query is answered 401 and the token request that
    follows is granted: the request is sent again and the query runs as it
    would have with a valid token; every record is yielded once and in
    order, and the session ends with the header of the new token. *)
Theorem query_refreshes_expired_token (fuel : nat) (dataset token : string)
    (options : list (string * scalar)) (s : St.t) (r401 granting : Reply.t)
    (ps : BaseAPI.pages) (last : Reply.t) (rest : list Reply.t) :
  Client.has_credentials s = true ->
  BaseAPI.links_truthy (St.links s) = false ->
  Dict.lookup "paging" options = None ->
  BaseAPI.plan_chunks options = Ok None ->
  Reply.status_code r401 = 401%Z ->
  Client.grants (Client.token_field (St.cls s)) token granting ->
  BaseAPI.is_sequence ps last ->
  St.script s = r401 :: granting :: BaseAPI.sequence_replies ps last ++ rest ->
  St.demand s = None ->
  S (length ps) < fuel ->
  exists s',
    Client.DirectAccessV2_query fuel dataset options s = (Return tt, s')
    /\ Client.yielded s' = Client.yielded s ++ BaseAPI.sequence_records ps
    /\ Client.sent_urls s'
       = Client.sent_urls s
         ++ [Http.prepare_url (Py.os_path_join (St.url s) dataset) options;
             PreparedRequest.url (Client.token_request s);
             Http.prepare_url (Py.os_path_join (St.url s) dataset) options]
         ++ BaseAPI.sequence_links (St.url s) ps
    /\ Http.get_header "Authorization" (St.session_headers s')
       = Some ("bearer " +:+ token)
    /\ St.links s' = None
    /\ St.script s' = rest.
Proof.
  intros Hcred Hlinks Hpaging Hplan H401 Hgrant [Hps Hlast] Hs Hd Hfuel.
  unfold Client.DirectAccessV2_query, BaseAPI.query, Generator.start.
  mrun. rewrite Hd, Hplan, Hpaging. mrun. cbn [default from_option].
  rewrite (remove_absent _ _ Hpaging).
  destruct fuel as [|[|sf]]; [lia|lia|].
  set (query_url := Py.os_path_join (St.url s) dataset).
  set (request := BaseAPI.get_request query_url options s).
  assert (BaseAPI.next_request query_url options None s
          = Ok (request, options, None)) as Hreq.
  { unfold BaseAPI.next_request. by rewrite Hlinks. }
  unfold BaseAPI.sequence_replies in Hs.
  destruct ps as [|[[r records] next] ps].
  - cbn [map app] in Hs. destruct Hlast as [Hlast_ok Hlast_json].
    destruct (send_rounds [(r401, granting, token)] sf request s last rest Hcred)
      as (request' & s1 & Hsend & _ & _ & _ & Hscr & _ & _ & _ & _ & _ & _ & Hy
          & Hsent & _ & Hauth);
      [constructor; [split; [exact H401|exact Hgrant]|constructor]
      |exact Hlast_ok|exact Hs|].
    cbn [length plus] in Hsend.
    rewrite (query_loop_empty _ _ _ _ _ _ _ _ _ _ _ _ (JArr []) Hreq Hsend
               Hlast_ok Hlast_json eq_refl).
    cbn [BaseAPI.pending].
    exists (St.set_links None s1). split; [done|].
    destruct (Hauth ltac:(done)) as (Htoken & Hheader & _).
    unfold Client.yielded, Client.sent_urls in *. stsimpl.
    rewrite Hy, Hsent. unfold BaseAPI.sequence_records, BaseAPI.sequence_links.
    cbn [map concat flat_map app]. rewrite app_nil_r.
    split_and!; done.
  - cbn [map app fst snd] in Hs.
    apply Forall_cons in Hps as [(Hok & Hjson & Hne & Hnext) Hps].
    cbn [fst snd] in *.
    destruct (send_rounds [(r401, granting, token)] sf request s r
                (map (fun page => page.1.1) ps ++ last :: rest) Hcred)
      as (request' & s1 & Hsend & _ & _ & _ & Hscr & _ & Hurl1 & _ & Hd1 & _ & _
          & Hy & Hsent & _ & Hauth);
      [constructor; [split; [exact H401|exact Hgrant]|constructor]
      |exact Hok| |].
    { rewrite Hs. cbn [Client.round_replies flat_map app fst snd].
      by rewrite <- app_assoc. }
    cbn [length plus] in Hsend |- *.
    rewrite (query_loop_batch _ _ _ _ _ _ _ _ _ _ _ _ (JArr records) records
               Hreq Hsend Hok Hjson eq_refl Hne ltac:(congruence)).
    set (s2 := BaseAPI.batched _ _ _).
    assert (St.links s2 = Some (Reply.links r)) as Hl2.
    { unfold s2. rewrite links_batched. stsimpl.
      unfold BaseAPI.next_url in Hnext.
      destruct (Dict.getitem "next" (Reply.links r)) eqn:Hl; [|done].
      by rewrite (getitem_contains _ _ _ Hl). }
    rewrite Hl2. cbn [BaseAPI.paging_lower Py.lower].
    change (String.eqb _ "false") with false. cbv iota.
    destruct (query_loop_sequence (S sf) query_url "true" (SStr "true") last
                rest ps eq_refl eq_refl Hlast Hps (sf - length ps) s2
                (BaseAPI.get_request (Py.drop_last (St.url s1) +:+ next) [] s2)
                options None options None)
      as (s' & Hrun & Hy' & Hsent' & Hl' & Hscr' & _ & _ & Hh').
    + apply next_request_after_page. exact Hnext.
    + unfold s2. by rewrite script_batched.
    + unfold s2. rewrite demand_batched. congruence.
    + cbn [length] in Hfuel.
      replace (length ps + S (sf - length ps)) with (S sf) in Hrun by lia.
      cbn [BaseAPI.pending] in Hrun.
      exists s'. split; [exact Hrun|].
      destruct (Hauth ltac:(done)) as (Htoken & Hheader & _).
      rewrite Hy', Hsent', Hl', Hscr', Hh'. unfold s2.
      rewrite yielded_batched, sent_urls_batched, url_batched,
        session_headers_batched, Hy, Hsent, Hurl1.
      unfold BaseAPI.sequence_records, BaseAPI.sequence_links.
      cbn [map concat flat_map app fst snd]. rewrite <- !app_assoc.
      cbn [app]. split_and!; done.
Qed.

Lemma query_refreshes_expired_token_witness :
  exists s',
    Client.DirectAccessV2_query 3 "wells" [("pagesize", SInt 2%Z)]
      (St.set_script
         [Scenario.status_reply 401 "expired"; Scenario.token_reply "t1";
          Scenario.wells_page1; Scenario.page [] None] Scenario.v2)
    = (Return tt, s')
    /\ Client.yielded s' = [Scenario.record 1; Scenario.record 2]
    /\ Client.sent_urls s'
       = ["https://di-api.drillinginfo.com/v2/direct-access/wells?pagesize=2";
          "https://di-api.drillinginfo.com/v2/direct-access/tokens?grant_type=client_credentials";
          "https://di-api.drillinginfo.com/v2/direct-access/wells?pagesize=2";
          "https://di-api.drillinginfo.com/v2/direct-access/wells?pagesize=2&page=2"]
    /\ Http.get_header "Authorization" (St.session_headers s') = Some "bearer t1"
    /\ St.script s' = [].
Proof.
  destruct (query_refreshes_expired_token 3 "wells" "t1" [("pagesize", SInt 2%Z)]
              (St.set_script
                 [Scenario.status_reply 401 "expired"; Scenario.token_reply "t1";
                  Scenario.wells_page1; Scenario.page [] None] Scenario.v2)
              (Scenario.status_reply 401 "expired") (Scenario.token_reply "t1")
              [(Scenario.wells_page1, [Scenario.record 1; Scenario.record 2],
                "/wells?pagesize=2&page=2")]
              (Scenario.page [] None) [])
    as (s' & Hrun & Hy & Hsent & Hauth & _ & Hs).
  - reflexivity.
  - reflexivity.
  - reflexivity.
  - reflexivity.
  - reflexivity.
  - split; [reflexivity|]. eexists. split; reflexivity.
  - split; [|by split]. repeat constructor; discriminate.
  - reflexivity.
  - reflexivity.
  - simpl. lia.
  - exists s'. split; [exact Hrun|]. split; [exact Hy|].
    split; [exact Hsent|]. split; [exact Hauth|exact Hs].
Defined.

(** X9: A 401 whose token request is refused with a 400: the
    [DAAuthException] of the token request comes out of the original call;
    the request is not sent again and the stored token is the old one. *)
Theorem send_401_refresh_rejected (fuel : nat) (request : PreparedRequest.t)
    (s : St.t) (r401 r400 : Reply.t) (rest : list Reply.t) :
  Client.has_credentials s = true ->
  St.script s = r401 :: r400 :: rest ->
  Reply.status_code r401 = 401%Z ->
  Reply.status_code r400 = 400%Z ->
  exists s',
    Client.send (S (S fuel)) request s
    = (Raised (DAAuthException
                 ("Error getting token. Code: 400 Message: " +:+ Reply.text r400)),
       s')
    /\ St.script s' = rest
    /\ St.trace s' = St.trace s ++ [Sent request; Sent (Client.token_request s)]
    /\ St.access_token s' = St.access_token s.
Proof.
  intros Hcred Hs H401 H400.
  set (s1 := Session.sent request (r400 :: rest) s).
  exists (Session.sent (Client.token_request s1) rest (Client.announced s1)).
  split.
  - rewrite (send_hook _ _ _ _ _ Hs (gives_up_code _ _ _ H401 eq_refl)). fold s1.
    unfold BaseAPI._check_response, Response.ok. stsimpl. rewrite H401.
    change (negb (negb ((400 <=? 401)%Z && (401 <? 600)%Z))) with true.
    change ((401 =? 400)%Z) with false. change ((401 =? 401)%Z) with true.
    cbv iota.
    apply bind_raised. apply bind_raised.
    rewrite get_access_token_request by exact Hcred.
    apply bind_raised.
    rewrite (send_hook fuel (Client.token_request s1) (Client.announced s1)
               r400 rest eq_refl (gives_up_code _ _ _ H400 eq_refl)).
    rewrite (bind_raised _ _ _ _ _
               (check_response_400 _ _
                  (Response.of_reply r400 (Client.token_request s1)) _ H400)).
    stsimpl. by rewrite token_url_contains_tokens.
  - unfold s1. stsimpl. rewrite <- app_assoc. done.
Qed.

Lemma send_401_refresh_rejected_witness :
  exists s',
    Client.send 2
      (BaseAPI.get_request "https://di-api.drillinginfo.com/v2/direct-access/wells" [] Scenario.v2)
      (St.set_script [Scenario.status_reply 401 "expired";
                      Scenario.status_reply 400 "invalid_client"] Scenario.v2)
    = (Raised (DAAuthException
                 ("Error getting token. Code: 400 Message: "
                  +:+ Reply.text (Scenario.status_reply 400 "invalid_client"))),
       s')
    /\ St.script s' = []
    /\ St.access_token s' = JStr "t0".
Proof.
  destruct (send_401_refresh_rejected 0
              (BaseAPI.get_request "https://di-api.drillinginfo.com/v2/direct-access/wells" [] Scenario.v2)
              (St.set_script [Scenario.status_reply 401 "expired";
                              Scenario.status_reply 400 "invalid_client"]
                 Scenario.v2)
              (Scenario.status_reply 401 "expired")
              (Scenario.status_reply 400 "invalid_client") [])
    as (s' & Hrun & Hs & _ & Htoken).
  - reflexivity.
  - reflexivity.
  - reflexivity.
  - reflexivity.
  - exists s'. split; [exact Hrun|]. split; [exact Hs|exact Htoken].
Defined.

(** ** [DeveloperAPIv3.query] without [_headers] *)

Section V3Base.

Variable send : PreparedRequest.t -> M Response.t.
Variable parse_header_links : string -> list Http.link.

Lemma bind_ext {A B} (m : M A) (f g : A -> M B) (s : St.t) :
  (forall a s', f a s' = g a s') -> bind m f s = bind m g s.
Proof.
  intros Hfg. unfold bind. destruct (m s) as [[a|e|h] s']; [apply Hfg|done|done].
Qed.

Lemma v3_query_loop_without_headers fuel query_url paging :
  forall options query_chunks s,
    DeveloperAPIv3.query_loop send parse_header_links fuel None false query_url
      paging options query_chunks s
    = BaseAPI.query_loop send fuel query_url paging options query_chunks s.
Proof.
  induction fuel as [|fuel IH]; intros options query_chunks s; [done|].
  cbn [DeveloperAPIv3.query_loop BaseAPI.query_loop].
  change (DeveloperAPIv3.fetch send None query_url options query_chunks)
    with (BaseAPI.fetch send query_url options query_chunks).
  apply bind_ext. intros [[response options1] plan1] s1.
  destruct (negb (Response.ok response)); [done|].
  apply bind_ext. intros body s2.
  unfold bind at 1. unfold ret at 1. cbn [negb andb].
  apply bind_ext. intros records s3.
  destruct (length records =? 0).
  - apply bind_ext. intros _ s4.
    destruct (BaseAPI.pending plan1); [apply IH|done].
  - apply bind_ext. intros _ s4. apply bind_ext. intros _ s5.
    apply bind_ext. intros l s6. destruct l; [|done].
    apply bind_ext. intros p s7. destruct (String.eqb p "false"); [done|].
    apply IH.
Qed.

End V3Base.

(** X23: A [DeveloperAPIv3] query without [_headers] is the query of the base
    class: the same requests, the same records, the same effect on the
    instance, for every server and every consumer. *)
Theorem v3_query_without_headers_is_base_query
    (parse_header_links : string -> list Http.link) (fuel : nat)
    (dataset : string) (options : list (string * scalar)) (s : St.t) :
  Client.DeveloperAPIv3_query parse_header_links fuel dataset None options s
  = BaseAPI.query (Client.send fuel) fuel dataset options s.
Proof.
  unfold Client.DeveloperAPIv3_query, DeveloperAPIv3.query, BaseAPI.query.
  apply bind_ext. intros _ s1.
  unfold bind at 1. unfold ret at 1.
  apply bind_ext. intros u s2. apply bind_ext. intros plan s3.
  apply v3_query_loop_without_headers.
Qed.

(** ** The headers of a [DeveloperAPIv3] query *)

Section MoreHeaders.

Implicit Types (s : St.t) (items before after : list (string * string)).

Lemma visited_no_flag items :
  Forall (fun kv => DeveloperAPIv3.is_omit_flag kv.1 kv.2 = false) items ->
  DeveloperAPIv3.visited items = items
  /\ existsb (fun kv => DeveloperAPIv3.is_omit_flag kv.1 kv.2) items = false.
Proof.
  induction 1 as [|[k v] items Hkv _ [IHv IHe]]; [done|].
  cbn in *. by rewrite Hkv, IHv, IHe.
Qed.

Lemma visited_flag before k v after :
  Forall (fun kv => DeveloperAPIv3.is_omit_flag kv.1 kv.2 = false) before ->
  DeveloperAPIv3.is_omit_flag k v = true ->
  DeveloperAPIv3.visited (before ++ (k, v) :: after) = before ++ [(k, v)]
  /\ existsb (fun kv => DeveloperAPIv3.is_omit_flag kv.1 kv.2)
       (before ++ (k, v) :: after) = true.
Proof.
  intros Hbefore Hflag.
  induction Hbefore as [|[k' v'] before Hkv _ [IHv IHe]].
  - cbn. by rewrite Hflag.
  - cbn in *. by rewrite Hkv, IHv, IHe.
Qed.

End MoreHeaders.

(** X24: [is_omit_header_next_link] writes the items of [_headers] into the
    headers of the session one by one and returns at the first one that
    sets the omit flag: that item and the ones before it are written, the
    ones after it are not.  Without the flag every item is written. *)
Theorem omit_flag_stops_header_scan (before after : list (string * string))
    (k v : string) (s : St.t) :
  Forall (fun kv => DeveloperAPIv3.is_omit_flag kv.1 kv.2 = false) before ->
  DeveloperAPIv3.is_omit_flag k v = true ->
  DeveloperAPIv3.is_omit_header_next_link (Some (before ++ (k, v) :: after)) s
  = (Return true,
     St.set_session_headers
       (fold_left (fun h kv => Http.set_header kv.1 kv.2 h)
          (before ++ [(k, v)]) (St.session_headers s)) s)
  /\ DeveloperAPIv3.is_omit_header_next_link (Some before) s
     = (Return false,
        St.set_session_headers
          (fold_left (fun h kv => Http.set_header kv.1 kv.2 h)
             before (St.session_headers s)) s).
Proof.
  intros Hbefore Hflag. unfold DeveloperAPIv3.is_omit_header_next_link.
  rewrite !omit_header_scan_visited.
  destruct (visited_flag before k v after Hbefore Hflag) as [-> ->].
  by destruct (visited_no_flag before Hbefore) as [-> ->].
Qed.

Lemma omit_flag_stops_header_scan_witness :
  DeveloperAPIv3.is_omit_header_next_link
    (Some ([("X-Trace", "abc")] ++ ("X-Omit-Header-Next-Links", "TRUE")
             :: [("X-Later", "1")])) Scenario.v3
  = (Return true,
     St.set_session_headers
       (fold_left (fun h kv => Http.set_header kv.1 kv.2 h)
          ([("X-Trace", "abc")] ++ [("X-Omit-Header-Next-Links", "TRUE")])
          (St.session_headers Scenario.v3)) Scenario.v3)
  /\ DeveloperAPIv3.is_omit_header_next_link (Some [("X-Trace", "abc")])
       Scenario.v3
     = (Return false,
        St.set_session_headers
          (fold_left (fun h kv => Http.set_header kv.1 kv.2 h)
             [("X-Trace", "abc")] (St.session_headers Scenario.v3)) Scenario.v3).
Proof.
  apply (omit_flag_stops_header_scan [("X-Trace", "abc")] [("X-Later", "1")]
           "X-Omit-Header-Next-Links" "TRUE" Scenario.v3).
  - repeat constructor.
  - reflexivity.
Defined.

(** ** [ddl] and [docs] *)

Section MoreGet.

Implicit Types (s : St.t) (r : Reply.t) (request : PreparedRequest.t).

(** A response goes back to the caller unless the hook has a branch for
    its status. *)
Lemma send_passes fuel request s r rest :
  St.script s = r :: rest ->
  existsb (Z.eqb (Reply.status_code r)) Session.status_forcelist = false ->
  Reply.status_code r <> 400%Z -> Reply.status_code r <> 401%Z ->
  Reply.status_code r <> 404%Z ->
  Reply.status_code r <> 403%Z
  \/ Py.contains "tokens" (PreparedRequest.url request) = false ->
  Client.send (S fuel) request s
  = (Return (Response.of_reply r request), Session.sent request rest s).
Proof.
  intros Hs Hforced H400 H401 H404 H403.
  destruct (Reply.ok r) eqn:Hok; [by apply send_ok|by apply send_unhandled].
Qed.

Lemma session_get_request (send : PreparedRequest.t -> M Response.t) url params s :
  BaseAPI.session_get send url params None s
  = send (BaseAPI.get_request url params s) s.
Proof. done. Qed.

End MoreGet.

(** X28: [ddl] returns the body of the response as text and never looks at the
    status: what the server sends with a 200, and as well with a 429 or any
    other status that the transport hands back (not 500, 502, 503 or 504)
    and the hook lets through, comes back as the DDL. *)
Theorem ddl_returns_text_of_any_status (fuel : nat) (dataset : string)
    (database : scalar) (s : St.t) (r : Reply.t) (rest : list Reply.t) :
  St.script s = r :: rest ->
  existsb (Z.eqb (Reply.status_code r)) Session.status_forcelist = false ->
  Reply.status_code r <> 400%Z -> Reply.status_code r <> 401%Z ->
  Reply.status_code r <> 403%Z -> Reply.status_code r <> 404%Z ->
  BaseAPI.ddl (Client.send (S fuel)) dataset database s
  = (Return (Reply.text r),
     Session.sent
       (BaseAPI.get_request (Py.os_path_join (St.url s) dataset)
          [("ddl", database)] s) rest s).
Proof.
  intros Hs Hforced H400 H401 H403 H404. unfold BaseAPI.ddl. mrun.
  rewrite session_get_request.
  rewrite (send_passes fuel _ s r rest Hs Hforced H400 H401 H404
             (or_introl H403)).
  done.
Qed.

Lemma ddl_returns_text_of_any_status_witness :
  BaseAPI.ddl (Client.send 1) "wells" (SStr "pg")
    (St.set_script [Scenario.status_reply 429 "Too Many Requests"] Scenario.v2)
  = (Return (Reply.text (Scenario.status_reply 429 "Too Many Requests")),
     Session.sent
       (BaseAPI.get_request
          (Py.os_path_join
             (St.url (St.set_script
                        [Scenario.status_reply 429 "Too Many Requests"]
                        Scenario.v2)) "wells")
          [("ddl", SStr "pg")]
          (St.set_script [Scenario.status_reply 429 "Too Many Requests"]
             Scenario.v2))
       []
       (St.set_script [Scenario.status_reply 429 "Too Many Requests"]
          Scenario.v2)).
Proof.
  apply (ddl_returns_text_of_any_status 0 "wells" (SStr "pg")
           (St.set_script [Scenario.status_reply 429 "Too Many Requests"]
              Scenario.v2)
           (Scenario.status_reply 429 "Too Many Requests") []).
  - reflexivity.
  - reflexivity.
  - discriminate.
  - discriminate.
  - discriminate.
  - discriminate.
Defined.

(** X29: [docs] asks for [<url><dataset>?docs=True]; a 501 gives [None], any
    other status that the transport hands back (not 500, 502, 503 or 504)
    and the hook lets through gives the decoded body, and a body that is not
    JSON raises. *)
Theorem docs_none_on_501 (fuel : nat) (dataset : string) (s : St.t)
    (r : Reply.t) (rest : list Reply.t) :
  St.script s = r :: rest ->
  existsb (Z.eqb (Reply.status_code r)) Session.status_forcelist = false ->
  Reply.status_code r <> 400%Z -> Reply.status_code r <> 401%Z ->
  Reply.status_code r <> 403%Z -> Reply.status_code r <> 404%Z ->
  exists request,
    BaseAPI.docs (Client.send (S fuel)) dataset s
    = ((if (Reply.status_code r =? 501)%Z then Return None
        else match Reply.json r with
             | Some body => Return (Some body)
             | None => Raised JSONDecodeError
             end),
       Session.sent request rest s)
    /\ PreparedRequest.method request = "GET"
    /\ PreparedRequest.url request
       = Py.os_path_join (St.url s) dataset +:+ "?docs=True"
    /\ PreparedRequest.headers request = St.session_headers s.
Proof.
  intros Hs Hforced H400 H401 H403 H404.
  exists (BaseAPI.get_request (Py.os_path_join (St.url s) dataset)
            [("docs", SBool true)] s).
  split; [|done].
  unfold BaseAPI.docs. mrun.
  rewrite session_get_request.
  rewrite (send_passes fuel _ s r rest Hs Hforced H400 H401 H404
             (or_introl H403)).
  stsimpl. destruct (Reply.status_code r =? 501)%Z; [done|].
  unfold response_json. stsimpl. by destruct (Reply.json r).
Qed.

Lemma docs_none_on_501_witness :
  exists request,
    BaseAPI.docs (Client.send 1) "wells"
      (St.set_script [Scenario.status_reply 501 "Not Implemented"] Scenario.v2)
    = (Return None,
       Session.sent request []
         (St.set_script [Scenario.status_reply 501 "Not Implemented"] Scenario.v2))
    /\ PreparedRequest.url request
       = "https://di-api.drillinginfo.com/v2/direct-access/wells?docs=True".
Proof.
  destruct (docs_none_on_501 0 "wells"
              (St.set_script [Scenario.status_reply 501 "Not Implemented"]
                 Scenario.v2)
              (Scenario.status_reply 501 "Not Implemented") [])
    as (request & Hrun & _ & Hurl & _).
  - reflexivity.
  - reflexivity.
  - discriminate.
  - discriminate.
  - discriminate.
  - discriminate.
  - exists request. split; [exact Hrun|exact Hurl].
Defined.

(** ** [DeveloperAPIv3.query] with the next links in the body *)

Section Omit.

Variable send : PreparedRequest.t -> M Response.t.
Variable parse_header_links : string -> list Http.link.
Variable request_headers : option (list (string * string)).
Implicit Types (s : St.t) (options : list (string * scalar))
  (plan : BaseAPI.chunk_plan).

Lemma omit_fetch_next_request query_url options plan s request options' plan' :
  OmitMode.next_request request_headers query_url options plan s
  = Ok (request, options', plan') ->
  DeveloperAPIv3.fetch send request_headers query_url options plan s
  = bind (send request) (fun response => ret (response, options', plan')) s.
Proof.
  unfold OmitMode.next_request, DeveloperAPIv3.fetch, DeveloperAPIv3.session_get,
    Session.prepare_request, OmitMode.get_request.
  mrun. destruct (BaseAPI.links_truthy (St.links s)).
  - destruct (BaseAPI.next_url (St.links s)) as [next|e]; [|done].
    cbn [result_bind]. intros [= <- <- <-]. mrun. done.
  - destruct plan as [[field [|chunk rest]]|].
    + intros [= <- <- <-]. mrun. done.
    + cbn [BaseAPI.in_ result_bind]. intros [= <- <- <-]. mrun. done.
    + intros [= <- <- <-]. mrun. done.
Qed.

(** One turn of the loop on an enveloped batch that is not empty. *)
Lemma omit_query_loop_batch fuel query_url paging options plan s request
    options' plan' r s1 records parsed :
  OmitMode.next_request request_headers query_url options plan s
  = Ok (request, options', plan') ->
  send request s = (Return (Response.of_reply r request), s1) ->
  OmitMode.is_enveloped parse_header_links records parsed r ->
  records <> [] ->
  St.demand s1 = None ->
  DeveloperAPIv3.query_loop send parse_header_links (S fuel) request_headers
    true query_url paging options plan s
  = match BaseAPI.paging_lower paging with
    | Ok p =>
        if String.eqb p "false"
        then (Return tt, OmitMode.batched parsed records s1)
        else DeveloperAPIv3.query_loop send parse_header_links fuel
               request_headers true query_url paging options' plan'
               (OmitMode.batched parsed records s1)
    | Raise e => (Raised e, OmitMode.batched parsed records s1)
    end.
Proof.
  intros Hnext Hsend (Hok & body & links_obj & Hjson & Hlinks & Htruthy
                      & Hparse & Hdata) Hne Hd.
  cbn [DeveloperAPIv3.query_loop].
  rewrite (bind_return _ _ _ _ _
             (eq_trans (omit_fetch_next_request _ _ _ _ _ _ _ Hnext)
                (bind_return _ _ _ _ _ Hsend))).
  unfold Response.ok. stsimpl. unfold Reply.ok in Hok. rewrite Hok. cbn [negb].
  unfold response_json. stsimpl. rewrite Hjson. mrun.
  rewrite Hlinks. mrun. rewrite Htruthy. rewrite Hparse. mrun.
  rewrite Hdata. mrun. cbn [Json.records].
  destruct records as [|record records]; [done|]. cbn [length Nat.eqb andb negb].
  mrun. rewrite yield_each_all by exact Hd. mrun.
  unfold OmitMode.batched.
  destruct (BaseAPI.paging_lower paging) as [p|e]; mrun; [|done].
  by destruct (String.eqb p "false").
Qed.

(** One turn of the loop on an enveloped empty batch. *)
Lemma omit_query_loop_empty fuel query_url paging options plan s request
    options' plan' r s1 parsed :
  OmitMode.next_request request_headers query_url options plan s
  = Ok (request, options', plan') ->
  send request s = (Return (Response.of_reply r request), s1) ->
  OmitMode.is_enveloped parse_header_links [] parsed r ->
  DeveloperAPIv3.query_loop send parse_header_links (S fuel) request_headers
    true query_url paging options plan s
  = if BaseAPI.pending plan'
    then DeveloperAPIv3.query_loop send parse_header_links fuel request_headers
           true query_url paging options' plan' (St.set_links None s1)
    else (Return tt, St.set_links None s1).
Proof.
  intros Hnext Hsend (Hok & body & links_obj & Hjson & Hlinks & Htruthy
                      & Hparse & Hdata).
  cbn [DeveloperAPIv3.query_loop].
  rewrite (bind_return _ _ _ _ _
             (eq_trans (omit_fetch_next_request _ _ _ _ _ _ _ Hnext)
                (bind_return _ _ _ _ _ Hsend))).
  unfold Response.ok. stsimpl. unfold Reply.ok in Hok. rewrite Hok. cbn [negb].
  unfold response_json. stsimpl. rewrite Hjson. mrun.
  rewrite Hlinks. mrun. rewrite Htruthy. rewrite Hparse. mrun.
  rewrite Hdata. mrun. cbn [Json.records length Nat.eqb]. mrun.
  by destruct (BaseAPI.pending plan').
Qed.

End Omit.

Section OmitSequence.

Variable parse_header_links : string -> list Http.link.
Variable request_headers : option (list (string * string)).
Implicit Types (s : St.t) (options : list (string * scalar))
  (plan : BaseAPI.chunk_plan) (pages : BaseAPI.pages).

Lemma omit_next_request_after_page query_url options plan parsed records next s :
  BaseAPI.next_url (Some parsed) = Ok next ->
  OmitMode.next_request request_headers query_url options plan
    (OmitMode.batched parsed records s)
  = Ok (OmitMode.get_request request_headers (Py.drop_last (St.url s) +:+ next) []
          (OmitMode.batched parsed records s), options, plan).
Proof.
  intros Hnext. unfold OmitMode.next_request, OmitMode.batched. stsimpl.
  rewrite Hnext. cbn [result_bind].
  destruct parsed as [|item parsed]; [done|]. done.
Qed.

Lemma omit_query_loop_sequence (sf : nat) (query_url p : string)
    (paging : scalar) (last : Reply.t) (rest : list Reply.t) pages :
  BaseAPI.paging_lower paging = Ok p ->
  String.eqb p "false" = false ->
  OmitMode.is_empty_page parse_header_links last ->
  Forall (fun page => OmitMode.is_page parse_header_links page.1.2 page.2 page.1.1)
    pages ->
  forall fuel s request options plan options' plan',
    OmitMode.next_request request_headers query_url options plan s
    = Ok (request, options', plan') ->
    St.script s = map (fun page => page.1.1) pages ++ last :: rest ->
    St.demand s = None ->
    exists s',
      DeveloperAPIv3.query_loop (Client.send (S sf)) parse_header_links
        (length pages + S fuel) request_headers true query_url paging options
        plan s
      = (if BaseAPI.pending plan'
         then DeveloperAPIv3.query_loop (Client.send (S sf)) parse_header_links
                fuel request_headers true query_url paging options' plan' s'
         else (Return tt, s'))
      /\ Client.yielded s'
         = Client.yielded s ++ BaseAPI.sequence_records pages
      /\ Client.sent_urls s'
         = Client.sent_urls s
           ++ PreparedRequest.url request
              :: BaseAPI.sequence_links (St.url s) pages
      /\ St.links s' = None
      /\ St.script s' = rest
      /\ St.demand s' = None
      /\ St.url s' = St.url s
      /\ St.session_headers s' = St.session_headers s.
Proof.
  intros Hp Hfalse [parsed_last Hlast].
  induction 1 as [|[[r records] next] pages (Hne & parsed & Henv & Hnext) _ IH];
    intros fuel s request options plan options' plan' Hreq Hs Hd.
  - cbn [map app length plus] in *.
    exists (St.set_links None (Session.sent request rest s)).
    split.
    + apply (omit_query_loop_empty _ _ _ _ _ _ _ _ _ _ _ _ last _ parsed_last Hreq);
        [|exact Hlast].
      apply send_ok; [exact Hs|apply Hlast].
    + unfold Client.yielded, Client.sent_urls, BaseAPI.sequence_records,
        BaseAPI.sequence_links. stsimpl.
      rewrite !omap_app. cbn. by rewrite !app_nil_r.
  - cbn [map app length plus fst snd] in *.
    rewrite (omit_query_loop_batch _ _ _ _ _ _ _ _ _ _ _ _ r
               (Session.sent request (map (fun page => page.1.1) pages ++ last :: rest) s)
               records parsed Hreq);
      [|apply send_ok; [exact Hs|apply Henv]|exact Henv|exact Hne|done].
    set (s1 := OmitMode.batched _ _ _).
    rewrite Hp, Hfalse.
    destruct (IH fuel s1
                (OmitMode.get_request request_headers
                   (Py.drop_last (St.url (Session.sent request
                      (map (fun page => page.1.1) pages ++ last :: rest) s))
                    +:+ next) [] s1)
                options' plan' options' plan')
      as (s' & Hrun & Hy & Hsent & Hl & Hscr & Hdem & Hurl & Hh).
    + apply omit_next_request_after_page. exact Hnext.
    + done.
    + done.
    + exists s'. split; [exact Hrun|].
      rewrite Hy, Hsent, Hl, Hscr, Hdem, Hurl, Hh.
      unfold s1, OmitMode.batched, Client.yielded, Client.sent_urls,
        BaseAPI.sequence_records, BaseAPI.sequence_links.
      stsimpl. rewrite !omap_app, yielded_map_Yielded, sent_map_Yielded.
      cbn [concat map omap fst snd]. rewrite <- !app_assoc.
      split_and!; done.
Qed.

End OmitSequence.

(** X25: A [DeveloperAPIv3] query whose [_headers] set the omit flag reads the
    batch from ["data"] and the link from ["links"] of each body: the
    records of all pages are yielded in order, each parsed link is followed,
    the empty batch ends the generator and clears the link.  The link
    header of the responses plays no part. *)
Theorem v3_enveloped_pages_until_empty_batch
    (parse_header_links : string -> list Http.link) (fuel : nat)
    (dataset : string) (items : list (string * string))
    (options : list (string * scalar)) (s : St.t) (ps : BaseAPI.pages)
    (last : Reply.t) (rest : list Reply.t) :
  existsb (fun kv => DeveloperAPIv3.is_omit_flag kv.1 kv.2) items = true ->
  BaseAPI.links_truthy (St.links s) = false ->
  Dict.lookup "paging" options = None ->
  BaseAPI.plan_chunks options = Ok None ->
  Forall (fun page => OmitMode.is_page parse_header_links page.1.2 page.2 page.1.1)
    ps ->
  OmitMode.is_empty_page parse_header_links last ->
  St.script s = BaseAPI.sequence_replies ps last ++ rest ->
  St.demand s = None ->
  length ps < fuel ->
  exists s',
    Client.DeveloperAPIv3_query parse_header_links fuel dataset (Some items)
      options s
    = (Return tt, s')
    /\ Client.yielded s' = Client.yielded s ++ BaseAPI.sequence_records ps
    /\ Client.sent_urls s'
       = Client.sent_urls s
         ++ Http.prepare_url (Py.os_path_join (St.url s) dataset) options
            :: BaseAPI.sequence_links (St.url s) ps
    /\ St.links s' = None
    /\ St.script s' = rest.
Proof.
  intros Hflag Hlinks Hpaging Hplan Hps Hlast Hs Hd Hfuel.
  unfold Client.DeveloperAPIv3_query, DeveloperAPIv3.query, Generator.start,
    DeveloperAPIv3.is_omit_header_next_link.
  mrun. rewrite Hd. mrun.
  rewrite omit_header_scan_visited, Hflag. mrun.
  rewrite Hplan, Hpaging. mrun. cbn [default from_option].
  rewrite (remove_absent _ _ Hpaging).
  destruct fuel as [|sf]; [lia|].
  set (s0 := St.set_session_headers _ s).
  destruct (omit_query_loop_sequence parse_header_links (Some items) sf
              (Py.os_path_join (St.url s) dataset) "true"
              (SStr "true") last rest ps eq_refl eq_refl Hlast Hps
              (sf - length ps) s0
              (OmitMode.get_request (Some items)
                 (Py.os_path_join (St.url s) dataset) options s0)
              options None options None)
    as (s' & Hrun & Hy & Hsent & Hl & Hscr & _).
  - unfold OmitMode.next_request, s0. stsimpl. by rewrite Hlinks.
  - unfold s0. stsimpl. rewrite Hs. unfold BaseAPI.sequence_replies.
    by rewrite <- app_assoc.
  - exact Hd.
  - replace (length ps + S (sf - length ps)) with (S sf) in Hrun by lia.
    exists s'. split; [exact Hrun|]. split_and!; done.
Qed.

Lemma v3_enveloped_pages_until_empty_batch_witness :
  exists s',
    Client.DeveloperAPIv3_query
      (fun _ => [[("url", "/wells?page=2"); ("rel", "next")]]) 2 "wells"
      (Some [("X-Omit-Header-Next-Links", "true")]) [("pagesize", SInt 1%Z)]
      (St.set_script
         [Reply.mk 200 ""
            (Some (OmitMode.envelope [Scenario.record 1]
                     (JStr "</wells?page=2>; rel=next"))) [];
          Scenario.empty_body] Scenario.v3)
    = (Return tt, s')
    /\ Client.yielded s' = [Scenario.record 1]
    /\ Client.sent_urls s'
       = ["https://api.enverus.com/v3/direct-access/wells?pagesize=1";
          "https://api.enverus.com/v3/direct-access/wells?page=2"]
    /\ St.links s' = None
    /\ St.script s' = [].
Proof.
  destruct (v3_enveloped_pages_until_empty_batch
              (fun _ => [[("url", "/wells?page=2"); ("rel", "next")]]) 2 "wells"
              [("X-Omit-Header-Next-Links", "true")] [("pagesize", SInt 1%Z)]
              (St.set_script
                 [Reply.mk 200 ""
                    (Some (OmitMode.envelope [Scenario.record 1]
                             (JStr "</wells?page=2>; rel=next"))) [];
                  Scenario.empty_body] Scenario.v3)
              [(Reply.mk 200 ""
                  (Some (OmitMode.envelope [Scenario.record 1]
                           (JStr "</wells?page=2>; rel=next"))) [],
                [Scenario.record 1], "/wells?page=2")]
              Scenario.empty_body [])
    as (s' & Hrun & Hy & Hsent & Hl & Hs).
  - reflexivity.
  - reflexivity.
  - reflexivity.
  - reflexivity.
  - constructor; [|constructor].
    split; [discriminate|].
    exists [("next", [("url", "/wells?page=2"); ("rel", "next")])].
    split; [|reflexivity].
    split; [reflexivity|]. eexists _, _.
    split; [reflexivity|]. split; [reflexivity|]. split; [reflexivity|].
    split; [intros s; reflexivity|reflexivity].
  - exists []. split; [reflexivity|]. eexists _, _.
    split; [reflexivity|]. split; [reflexivity|]. split; [reflexivity|].
    split; [intros s; reflexivity|reflexivity].
  - reflexivity.
  - reflexivity.
  - simpl. lia.
  - exists s'. split; [exact Hrun|]. split; [exact Hy|].
    split; [exact Hsent|]. split; [exact Hl|exact Hs].
Defined.

Section OmitEdges.

Variable parse_header_links : string -> list Http.link.
Variable request_headers : option (list (string * string)).
Implicit Types (s : St.t) (options : list (string * scalar))
  (plan : BaseAPI.chunk_plan).

Lemma omit_query_loop_halted (send : PreparedRequest.t -> M Response.t) fuel
    omit query_url paging options plan s request options' plan' h s1 :
  OmitMode.next_request request_headers query_url options plan s
  = Ok (request, options', plan') ->
  send request s = (Halted h, s1) ->
  DeveloperAPIv3.query_loop send parse_header_links (S fuel) request_headers
    omit query_url paging options plan s
  = (Halted h, s1).
Proof.
  intros Hnext Hsend. cbn [DeveloperAPIv3.query_loop].
  by rewrite (bind_halted _ _ _ _ _
                (eq_trans (omit_fetch_next_request _ _ _ _ _ _ _ _ _ Hnext)
                   (bind_halted _ _ _ _ _ Hsend))).
Qed.

(** One turn of the loop on a body that has no ["links"] to read. *)
Lemma omit_query_loop_no_links (send : PreparedRequest.t -> M Response.t) fuel
    query_url paging options plan s request options' plan' r s1 body e :
  OmitMode.next_request request_headers query_url options plan s
  = Ok (request, options', plan') ->
  send request s = (Return (Response.of_reply r request), s1) ->
  Reply.ok r = true ->
  Reply.json r = Some body ->
  Json.getitem body "links" = Raise e ->
  DeveloperAPIv3.query_loop send parse_header_links (S fuel) request_headers
    true query_url paging options plan s
  = (Raised e, s1).
Proof.
  intros Hnext Hsend Hok Hjson Hlinks.
  cbn [DeveloperAPIv3.query_loop].
  rewrite (bind_return _ _ _ _ _
             (eq_trans (omit_fetch_next_request _ _ _ _ _ _ _ _ _ Hnext)
                (bind_return _ _ _ _ _ Hsend))).
  unfold Response.ok. stsimpl. unfold Reply.ok in Hok. rewrite Hok. cbn [negb].
  unfold response_json. stsimpl. rewrite Hjson. mrun.
  by rewrite Hlinks.
Qed.

(** Enveloped batches whose links have no [next]: the parsed links are the
    empty dictionary, which is not [None] and is not true, so the loop goes
    on and asks for the dataset again. *)
Lemma omit_query_loop_restarts (sf : nat) (query_url p : string)
    (paging : scalar) (r : Reply.t) (records : list json) options :
  BaseAPI.paging_lower paging = Ok p ->
  String.eqb p "false" = false ->
  OmitMode.is_enveloped parse_header_links records [] r ->
  records <> [] ->
  forall (k fuel : nat) s,
    BaseAPI.links_truthy (St.links s) = false ->
    St.script s = replicate k r ->
    St.demand s = None ->
    exists request s',
      DeveloperAPIv3.query_loop (Client.send (S sf)) parse_header_links
        (k + S fuel) request_headers true query_url paging options None s
      = (Halted (Blocked request), s')
      /\ PreparedRequest.url request = Http.prepare_url query_url options
      /\ Client.yielded s' = Client.yielded s ++ concat (replicate k records)
      /\ Client.sent_urls s'
         = Client.sent_urls s
           ++ replicate (S k) (Http.prepare_url query_url options).
Proof.
  intros Hp Hfalse Henv Hne.
  induction k as [|k IH]; intros fuel s Hlinks Hs Hd.
  - cbn [replicate plus concat] in *.
    exists (OmitMode.get_request request_headers query_url options s),
      (Session.sent (OmitMode.get_request request_headers query_url options s) [] s).
    split.
    + eapply omit_query_loop_halted.
      * unfold OmitMode.next_request. rewrite Hlinks. reflexivity.
      * by apply send_blocked.
    + rewrite yielded_sent, sent_urls_sent, app_nil_r. done.
  - cbn [replicate plus concat] in *.
    set (request := OmitMode.get_request request_headers query_url options s).
    rewrite (omit_query_loop_batch _ _ _ _ _ _ _ _ _ request options None r
               (Session.sent request (replicate k r) s) records []);
      [| unfold OmitMode.next_request; by rewrite Hlinks
       | apply send_ok; [exact Hs|apply Henv] | exact Henv | exact Hne | done].
    rewrite Hp, Hfalse.
    destruct (IH fuel (OmitMode.batched [] records
                         (Session.sent request (replicate k r) s)))
      as (request' & s' & Hrun & Hurl & Hy & Hsent); [done|done|done|].
    exists request', s'. split; [exact Hrun|]. split; [exact Hurl|].
    rewrite Hy, Hsent.
    unfold OmitMode.batched, Client.yielded, Client.sent_urls. stsimpl.
    rewrite !omap_app, yielded_map_Yielded, sent_map_Yielded.
    cbn [omap]. rewrite !app_nil_r, <- !app_assoc. done.
Qed.

End OmitEdges.

(** X26: With the omit flag set the body of every response must be an object
    with a ["links"] entry: [records["links"]] on a body of another shape
    (a plain list of records, an object without the entry) raises, after
    the request and before any record is yielded. *)
Theorem v3_omit_flag_body_without_links
    (parse_header_links : string -> list Http.link) (fuel : nat)
    (dataset : string) (items : list (string * string))
    (options : list (string * scalar)) (s : St.t) (r : Reply.t)
    (rest : list Reply.t) (body : json) (e : exn) :
  existsb (fun kv => DeveloperAPIv3.is_omit_flag kv.1 kv.2) items = true ->
  BaseAPI.links_truthy (St.links s) = false ->
  BaseAPI.plan_chunks options = Ok None ->
  St.script s = r :: rest ->
  St.demand s = None ->
  Reply.ok r = true ->
  Reply.json r = Some body ->
  Json.getitem body "links" = Raise e ->
  0 < fuel ->
  exists s',
    Client.DeveloperAPIv3_query parse_header_links fuel dataset (Some items)
      options s
    = (Raised e, s')
    /\ Client.yielded s' = Client.yielded s
    /\ Client.sent_urls s'
       = Client.sent_urls s
         ++ [Http.prepare_url (Py.os_path_join (St.url s) dataset)
               (Dict.remove "paging" options)]
    /\ St.script s' = rest.
Proof.
  intros Hflag Hlinks Hplan Hs Hd Hok Hjson Hbody Hfuel.
  unfold Client.DeveloperAPIv3_query, DeveloperAPIv3.query, Generator.start,
    DeveloperAPIv3.is_omit_header_next_link.
  mrun. rewrite Hd. mrun.
  rewrite omit_header_scan_visited, Hflag. mrun.
  rewrite Hplan. mrun.
  destruct fuel as [|sf]; [lia|].
  set (s0 := St.set_session_headers _ s).
  set (request := OmitMode.get_request (Some items)
                    (Py.os_path_join (St.url s) dataset)
                    (Dict.remove "paging" options) s0).
  exists (Session.sent request rest s0). split.
  - apply (omit_query_loop_no_links parse_header_links (Some items) _ _ _ _ _ _ _
             request (Dict.remove "paging" options) None r _ body e);
      [|by apply send_ok|exact Hok|exact Hjson|exact Hbody].
    unfold OmitMode.next_request, s0. stsimpl. by rewrite Hlinks.
  - rewrite yielded_sent, sent_urls_sent. done.
Qed.

Lemma v3_omit_flag_body_without_links_witness :
  exists s',
    Client.DeveloperAPIv3_query (fun _ => []) 1 "wells"
      (Some [("X-Omit-Header-Next-Links", "true")]) []
      (St.set_script [Scenario.page [Scenario.record 1] None] Scenario.v3)
    = (Raised (TypeError "list indices must be integers or slices, not str"), s')
    /\ Client.yielded s' = []
    /\ St.script s' = [].
Proof.
  destruct (v3_omit_flag_body_without_links (fun _ => []) 1 "wells"
              [("X-Omit-Header-Next-Links", "true")] []
              (St.set_script [Scenario.page [Scenario.record 1] None] Scenario.v3)
              (Scenario.page [Scenario.record 1] None) []
              (JArr [Scenario.record 1])
              (TypeError "list indices must be integers or slices, not str"))
    as (s' & Hrun & Hy & _ & Hs).
  - reflexivity.
  - reflexivity.
  - reflexivity.
  - reflexivity.
  - reflexivity.
  - reflexivity.
  - reflexivity.
  - reflexivity.
  - lia.
  - exists s'. split; [exact Hrun|]. split; [exact Hy|exact Hs].
Defined.

(** X27: With the omit flag set, a batch that is not empty and whose links have
    no [next] does not end the generator: [parse_links] gives the empty
    dictionary, which is neither [None] nor true, so the loop asks for the
    dataset again with the same options, for as long as such batches come
    back. *)
Theorem v3_enveloped_batch_without_next_restarts
    (parse_header_links : string -> list Http.link) (fuel k : nat)
    (dataset : string) (items : list (string * string))
    (options : list (string * scalar)) (s : St.t) (r : Reply.t)
    (records : list json) :
  existsb (fun kv => DeveloperAPIv3.is_omit_flag kv.1 kv.2) items = true ->
  BaseAPI.links_truthy (St.links s) = false ->
  Dict.lookup "paging" options = None ->
  BaseAPI.plan_chunks options = Ok None ->
  OmitMode.is_enveloped parse_header_links records [] r ->
  records <> [] ->
  St.script s = replicate k r ->
  St.demand s = None ->
  k < fuel ->
  exists request s',
    Client.DeveloperAPIv3_query parse_header_links fuel dataset (Some items)
      options s
    = (Halted (Blocked request), s')
    /\ PreparedRequest.url request
       = Http.prepare_url (Py.os_path_join (St.url s) dataset) options
    /\ Client.yielded s' = Client.yielded s ++ concat (replicate k records)
    /\ Client.sent_urls s'
       = Client.sent_urls s
         ++ replicate (S k)
              (Http.prepare_url (Py.os_path_join (St.url s) dataset) options).
Proof.
  intros Hflag Hlinks Hpaging Hplan Henv Hne Hs Hd Hfuel.
  unfold Client.DeveloperAPIv3_query, DeveloperAPIv3.query, Generator.start,
    DeveloperAPIv3.is_omit_header_next_link.
  mrun. rewrite Hd. mrun.
  rewrite omit_header_scan_visited, Hflag. mrun.
  rewrite Hplan, Hpaging. mrun. cbn [default from_option].
  rewrite (remove_absent _ _ Hpaging).
  destruct fuel as [|sf]; [lia|].
  set (s0 := St.set_session_headers _ s).
  destruct (omit_query_loop_restarts parse_header_links (Some items) sf
              (Py.os_path_join (St.url s) dataset) "true" (SStr "true") r
              records options eq_refl eq_refl Henv Hne k (sf - k) s0)
    as (request & s' & Hrun & Hurl & Hy & Hsent); [done|done|done|].
  replace (k + S (sf - k)) with (S sf) in Hrun by lia.
  exists request, s'. split; [exact Hrun|]. split_and!; done.
Qed.

Lemma v3_enveloped_batch_without_next_restarts_witness :
  exists request s',
    Client.DeveloperAPIv3_query (fun _ => []) 3 "wells"
      (Some [("X-Omit-Header-Next-Links", "true")]) [("pagesize", SInt 1%Z)]
      (St.set_script
         (replicate 2 (Reply.mk 200 ""
                         (Some (OmitMode.envelope [Scenario.record 1] JNull)) []))
         Scenario.v3)
    = (Halted (Blocked request), s')
    /\ Client.yielded s' = [Scenario.record 1; Scenario.record 1]
    /\ Client.sent_urls s'
       = replicate 3 "https://api.enverus.com/v3/direct-access/wells?pagesize=1".
Proof.
  destruct (v3_enveloped_batch_without_next_restarts (fun _ => []) 3 2 "wells"
              [("X-Omit-Header-Next-Links", "true")] [("pagesize", SInt 1%Z)]
              (St.set_script
                 (replicate 2 (Reply.mk 200 ""
                                 (Some (OmitMode.envelope [Scenario.record 1] JNull))
                                 []))
                 Scenario.v3)
              (Reply.mk 200 "" (Some (OmitMode.envelope [Scenario.record 1] JNull)) [])
              [Scenario.record 1])
    as (request & s' & Hrun & _ & Hy & Hsent).
  - reflexivity.
  - reflexivity.
  - reflexivity.
  - reflexivity.
  - split; [reflexivity|]. eexists _, _.
    split; [reflexivity|]. split; [reflexivity|]. split; [reflexivity|].
    split; [intros s; reflexivity|reflexivity].
  - discriminate.
  - reflexivity.
  - reflexivity.
  - lia.
  - exists request, s'. split; [exact Hrun|]. split; [exact Hy|exact Hsent].
Defined.
